(** * Session lifecycle and output synchronisation of claude-code-web

    A shallow embedding of [claude-code-web/backend/app.py]: the tmux-backed
    session functions, the output pollers and the Socket.IO handlers, with
    the properties of the session engine stated over them.

    Layout:
    - [Py]: Python [str] values and the string methods the code calls;
    - [Shell]: how [/bin/sh] splits the command lines the code builds;
    - section [App]: the functions of app.py, over an abstract operating
      environment (class [Env]);
    - [TmuxModel]: a reference environment, a small model of a tmux server;
    - the properties. *)

From stdpp Require Import base option list gmap sets strings pretty.
From Stdlib Require Import NArith ZArith Ascii Lia.

(** ** Python strings *)

Module Py.

(** A Python [str] is a sequence of Unicode code points; [len] is the
    number of code points. *)
Definition char : Type := N.
Definition str : Type := list N.

(** An ASCII literal of the source. *)
Definition py (s : string) : str := N_of_ascii <$> String.list_ascii_of_string s.
Arguments py s%_string.

(** Characters the source writes with an escape or outside ASCII. *)
Definition nl : str := [10%N].                 (* "\n" *)
Definition dq : str := [34%N].                 (* the double quote *)
Definition sq : char := 39%N.                  (* the single quote *)
Definition bs : char := 92%N.                  (* the backslash *)
Definition e_acute : str := [233%N].           (* U+00E9 *)
Definition e_circ : str := [234%N].            (* U+00EA *)
Definition a_grave : str := [224%N].           (* U+00E0 *)

(** [str.isspace] on one code point: the characters [str.strip] removes
    when called without argument. *)
Definition isspace (c : char) : bool :=
  ((9 <=? c) && (c <=? 13) || (28 <=? c) && (c <=? 32)
   || (c =? 133) || (c =? 160) || (c =? 5760)
   || (8192 <=? c) && (c <=? 8202)
   || (c =? 8232) || (c =? 8233) || (c =? 8239) || (c =? 8287)
   || (c =? 12288))%N.

Fixpoint lstrip (s : str) : str :=
  match s with
  | c :: s' => if isspace c then lstrip s' else s
  | [] => []
  end.

Definition rstrip (s : str) : str := reverse (lstrip (reverse s)).

Definition strip (s : str) : str := lstrip (rstrip s).

Definition len (s : str) : nat := length s.

(** [s.startswith(p)] *)
Fixpoint startswith (p s : str) : bool :=
  match p, s with
  | [], _ => true
  | a :: p', b :: s' => (a =? b)%N && startswith p' s'
  | _ :: _, [] => false
  end.

(** [needle in hay] *)
Fixpoint contains (needle hay : str) : bool :=
  startswith needle hay ||
  match hay with
  | [] => false
  | _ :: hay' => contains needle hay'
  end.

(** [s.replace(old, new)] for a one-character [old]. *)
Definition replace_char (old : char) (new : str) (s : str) : str :=
  flat_map (λ c, if (c =? old)%N then new else [c]) s.

End Py.
Import Py.
Arguments py s%_string.

(** ** The shell's word splitting

    [subprocess.run(cmd, shell=True)] hands [cmd] to [/bin/sh -c].  The
    command lines of app.py use blanks, single quotes, the backslash and the
    operators [&&], [||] and [2>]; this is the part of the shell grammar
    modelled.  An unquoted operator character ends the word being read,
    wherever it stands.  A line using another unquoted metacharacter or
    another operator is outside the model ([None]). *)

Module Shell.

(** A token of a line: a word, with whether any part of it was quoted, or
    an operator.  The redirection operator carries its file descriptor
    number when it has one ([2>]). *)
Inductive token :=
| Word (quoted : bool) (text : str)
| Operator (text : str).

#[export] Instance token_eq_dec : EqDecision token.
Proof. solve_decision. Defined.

Definition bare (s : string) : token := Word false (py s).
Arguments bare s%_string.

Definition is_blank (c : char) : bool := ((c =? 32) || (c =? 9))%N.

(** Unquoted characters with a meaning the model does not cover: newline
    (it ends the command), double quote, dollar, backquote, semicolon,
    parentheses, [<], [#], [*], [?], [[], [~], braces, [!]. *)
Definition is_meta (c : char) : bool :=
  ((c =? 10) || (c =? 34) || (c =? 36) || (c =? 96) || (c =? 59) || (c =? 40)
   || (c =? 41) || (c =? 60) || (c =? 35) || (c =? 42) || (c =? 63)
   || (c =? 91) || (c =? 126) || (c =? 123) || (c =? 125) || (c =? 33))%N.

(** The characters of the operators: [&], [|] and [>]. *)
Definition is_operator_char (c : char) : bool :=
  ((c =? 38) || (c =? 124) || (c =? 62))%N.

Definition is_digit (c : char) : bool := ((48 <=? c) && (c <=? 57))%N.

(** The word being read, with whether a part of it was quoted: [None]
    between words. *)
Definition push (c : char) (q : bool) (cur : option (bool * str))
  : option (bool * str) :=
  match cur with
  | None => Some (q, [c])
  | Some (q0, t) => Some (q0 || q, t ++ [c])
  end.

Definition open_quote (cur : option (bool * str)) : option (bool * str) :=
  match cur with
  | None => Some (true, [])
  | Some (_, t) => Some (true, t)
  end.

Definition flush (cur : option (bool * str)) (ts : list token) : list token :=
  match cur with
  | None => ts
  | Some (q, t) => Word q t :: ts
  end.

(** The operator [>] met after [cur]: unquoted digits right before it are
    its file descriptor number, anything else is a word of its own. *)
Definition redirect (cur : option (bool * str)) (ts : list token) : list token :=
  match cur with
  | Some (false, t) =>
      if forallb is_digit t then Operator (t ++ [62%N]) :: ts
      else Word false t :: Operator [62%N] :: ts
  | _ => flush cur (Operator [62%N] :: ts)
  end.

(** [lex in_quote cur s]: the tokens of [s], read after the partial word
    [cur], inside single quotes or not.  Of the operators, [&&], [||] and
    [>] are read; [&], [|], [>>], [>&] and [>|] are outside the model. *)
Fixpoint lex (in_quote : bool) (cur : option (bool * str)) (s : str)
  : option (list token) :=
  match s with
  | [] => if in_quote then None else Some (flush cur [])
  | c :: s' =>
      if in_quote then
        if (c =? sq)%N then lex false cur s' else lex true (push c true cur) s'
      else if (c =? sq)%N then lex true (open_quote cur) s'
      else if (c =? bs)%N then
        match s' with
        | [] => None
        | d :: s'' =>
            if (d =? 10)%N then None else lex false (push d true cur) s''
        end
      else if is_blank c then flush cur <$> lex false None s'
      else if is_meta c then None
      else if is_operator_char c then
        match s' with
        | [] => None
        | d :: s'' =>
            if (c =? 62)%N then
              if is_operator_char d then None
              else redirect cur <$> lex false None s'
            else if (d =? c)%N then
              (λ ts, flush cur (Operator [c; c] :: ts)) <$> lex false None s''
            else None
        end
      else lex false (push c false cur) s'
  end.

Definition words (cmd : str) : option (list token) := lex false None cmd.

(** Characters that stand for themselves in an unquoted word. *)
Definition is_plain (c : char) : bool :=
  negb ((c =? sq)%N || (c =? bs)%N || is_blank c || is_meta c
        || is_operator_char c).

(** Characters of a name that is one word wherever it is written. *)
Definition is_name_char (c : char) : bool :=
  is_plain c && negb (is_operator_char c).

Definition is_name (s : str) : Prop := Forall (λ c, is_name_char c = true) s.

End Shell.
Arguments Shell.bare s%_string.

(** ** Exceptions, processes and the state monad of the embedding *)

(** The outcome of a Python call: a value, or an exception with the text
    [str(e)] gives. *)
Inductive result (A : Type) : Type :=
| Ok (a : A)
| Raise (e : str).
Arguments Ok {A} a.
Arguments Raise {A} e.

(** [subprocess.CompletedProcess], with the two fields the code reads. *)
Record CompletedProcess := { returncode : Z; stdout : str }.

(** The decoded token. *)
Record Payload := { user_id : str; username : str }.

(** A computation over a state [S] that may raise.  The state reached when
    an exception is raised is kept: what was done before it stays done. *)
Definition M (S A : Type) : Type := S → result A * S.

#[export] Instance M_ret {S} : MRet (M S) := λ A a s, (Ok a, s).
#[export] Instance M_bind {S} : MBind (M S) := λ A B f m s,
  match m s with
  | (Ok a, s') => f a s'
  | (Raise e, s') => (Raise e, s')
  end.

Definition raise {S A} (e : str) : M S A := λ s, (Raise e, s).

(** [try: body except Exception as e: handler e] *)
Definition try_except {S A} (body : M S A) (handler : str → M S A) : M S A :=
  λ s, match body s with
       | (Ok a, s') => (Ok a, s')
       | (Raise e, s') => handler e s'
       end.

Definition gets {S A} (f : S → A) : M S A := λ s, (Ok (f s), s).
Definition modify {S} (f : S → S) : M S unit := λ s, (Ok tt, f s).

(** ** The operating environment

    What app.py reaches through [subprocess], [os], [uuid] and [jwt].  Any
    of the calls into it may fail; an instance decides. *)
Class Env (E : Type) := {
  subprocess_run : str → E → result CompletedProcess * E;
  os_path_exists : str → E → bool;
  os_makedirs : str → E → result unit * E;
  uuid4 : E → str * E;
  jwt_decode : str → E → result Payload;
}.

(** The poller threads app.py starts, with their arguments. *)
Inductive thread :=
| MonitorTmux (session_id client_id : str)
| MonitorProject (session_name project_id client_id : str).

(** What the process does to the outside, in order. *)
Inductive effect :=
| Run (cmd : str)                       (* subprocess.run(cmd, shell=True) *)
| Sleep (ms : N)                        (* time.sleep, in milliseconds *)
| Emit (event : str) (data : list (str * str)) (room : str)
       (recipients : gset str)          (* a Socket.IO message and who got it *)
| Start (key : str) (t : thread).       (* Thread(...).start() *)

#[export] Instance thread_eq_dec : EqDecision thread.
Proof. solve_decision. Defined.
#[export] Instance effect_eq_dec : EqDecision effect.
Proof. solve_decision. Defined.

Section App.

Context {E : Type} `{Env E}.

(** The module-level state of app.py, the Socket.IO rooms, and the
    effects so far. *)
Record World := {
  env : E;
  active_sessions : gmap str str;      (* session id -> user id *)
  output_threads : gmap str thread;    (* poller key -> thread *)
  project_sessions : gmap str str;     (* tmux session name -> session id *)
  rooms : gmap str (gset str);         (* room -> connection ids *)
  trace : list effect;
}.

Definition set_env (e : E) (w : World) : World :=
  {| env := e; active_sessions := active_sessions w;
     output_threads := output_threads w;
     project_sessions := project_sessions w; rooms := rooms w;
     trace := trace w |}.
Definition set_active_sessions (m : gmap str str) (w : World) : World :=
  {| env := env w; active_sessions := m;
     output_threads := output_threads w;
     project_sessions := project_sessions w; rooms := rooms w;
     trace := trace w |}.
Definition set_output_threads (m : gmap str thread) (w : World) : World :=
  {| env := env w; active_sessions := active_sessions w;
     output_threads := m;
     project_sessions := project_sessions w; rooms := rooms w;
     trace := trace w |}.
Definition set_project_sessions (m : gmap str str) (w : World) : World :=
  {| env := env w; active_sessions := active_sessions w;
     output_threads := output_threads w;
     project_sessions := m; rooms := rooms w;
     trace := trace w |}.
Definition set_rooms (m : gmap str (gset str)) (w : World) : World :=
  {| env := env w; active_sessions := active_sessions w;
     output_threads := output_threads w;
     project_sessions := project_sessions w; rooms := m;
     trace := trace w |}.
Definition log (x : effect) (w : World) : World :=
  {| env := env w; active_sessions := active_sessions w;
     output_threads := output_threads w;
     project_sessions := project_sessions w; rooms := rooms w;
     trace := trace w ++ [x] |}.

Definition init_world (e : E) : World :=
  {| env := e; active_sessions := ∅; output_threads := ∅;
     project_sessions := ∅; rooms := ∅; trace := [] |}.

(** [k in d] *)
Definition has_key {V} (d : gmap str V) (k : str) : bool :=
  match d !! k with Some _ => true | None => false end.

(** *** Primitives *)

Definition run (cmd : str) : M World CompletedProcess :=
  λ w, let '(r, e) := subprocess_run cmd (env w) in
       (r, set_env e (log (Run cmd) w)).

Definition sleep (ms : N) : M World unit := modify (log (Sleep ms)).

Definition makedirs (path : str) : M World unit :=
  λ w, let '(r, e) := os_makedirs path (env w) in (r, set_env e w).

Definition path_exists (path : str) : M World bool :=
  gets (λ w, os_path_exists path (env w)).

Definition new_uuid : M World str :=
  λ w, let '(u, e) := uuid4 (env w) in (Ok u, set_env e w).

(** The connections in a room. *)
Definition members (room : str) (w : World) : gset str :=
  default ∅ (rooms w !! room).

(** [socketio.emit(event, data, to=room)]: every connection in the room
    at that moment receives the message. *)
Definition socketio_emit (event : str) (data : list (str * str))
    (room : str) : M World unit :=
  modify (λ w, log (Emit event data room (members room w)) w).

(** [emit(event, data)] inside a handler: Flask-SocketIO addresses the
    room named by [request.sid]. *)
Definition emit (sid : str) (event : str) (data : list (str * str))
  : M World unit :=
  socketio_emit event data sid.

(** [join_room(room)] inside the handler of connection [sid]. *)
Definition join_room (sid room : str) : M World unit :=
  modify (λ w, set_rooms (<[room := members room w ∪ {[sid]}]> (rooms w)) w).

(** A new connection: Socket.IO enters it in the room of its own id. *)
Definition handle_connect (sid : str) : M World unit :=
  join_room sid sid.

Definition handle_disconnect (sid : str) : M World unit := mret tt.

(** [active_sessions[session_id] = user_id] *)
Definition active_sessions_set (session_id user_id : str) : M World unit :=
  modify (λ w, set_active_sessions
                 (<[session_id := user_id]> (active_sessions w)) w).

(** [project_sessions[session_name] = session_id] *)
Definition project_sessions_set (session_name session_id : str) : M World unit :=
  modify (λ w, set_project_sessions
                 (<[session_name := session_id]> (project_sessions w)) w).

(** [del project_sessions[session_name]] *)
Definition project_sessions_del (session_name : str) : M World unit :=
  modify (λ w, set_project_sessions (delete session_name (project_sessions w)) w).

(** [output_threads[key] = Thread(...)] followed by [.start()]. *)
Definition start_thread (key : str) (t : thread) : M World unit :=
  modify (λ w, log (Start key t)
                 (set_output_threads (<[key := t]> (output_threads w)) w)).

(** The frame of a function with one local variable that outlives an
    exception handler. *)
Definition global {L A} (m : M World A) : M (World * L) A :=
  λ '(w, l), let '(r, w') := m w in (r, (w', l)).
Definition get_local {L} : M (World * L) L := gets snd.
Definition set_local {L} (l : L) : M (World * L) unit :=
  modify (λ s, (s.1, l)).

(** *** Configuration *)

Definition SESSIONS_DIR : str := py "/root/docker/claude-code-web/tmux-sessions".
Definition DOCKER_PATH : str := py "/root/docker".

(** [verify_token]: the payload, or [None] when decoding raises. *)
Definition verify_token (token : str) : M World (option Payload) :=
  gets (λ w, match jwt_decode token (env w) with
             | Ok payload => Some payload
             | Raise _ => None
             end).

(** *** User sessions *)

Definition MAIN_KEYS : str :=
  py "tmux -S /tmp/tmux-0/default send-keys -t claude-code-session ".

Definition capture_main_cmd : str :=
  py "tmux -S /tmp/tmux-0/default capture-pane -p -S -1000 -t claude-code-session".

Definition capture_user_cmd (session_id : str) : str :=
  py "tmux -S /tmp/tmux-0/default capture-pane -p -S -1000 -t claude_" ++ session_id.

Definition default_message : str :=
  py "Bienvenue dans Claude Code Web" ++ nl ++ nl ++
  py "Terminal interactif pour Claude Code" ++ nl ++
  py "--------------------------------------" ++ nl ++ nl ++
  py "Pr" ++ e_circ ++ py "t " ++ a_grave ++ py " recevoir vos commandes..." ++ nl ++
  py "Tapez votre message et appuyez sur Ctrl+Enter pour l'envoyer.".

(** Lines 194-214 of [get_tmux_output]: what it returns for the two
    captured texts. *)
Definition get_tmux_output_text (main_output user_output : str) : str :=
  let final_output :=
    if len (strip user_output) <? len (strip main_output)
    then main_output else user_output in
  let final_output :=
    if len (strip final_output) <? 10 then default_message else final_output in
  rstrip final_output.

(** The text returned when a capture raises [e]. *)
Definition terminal_error (e : str) : str :=
  py "Erreur de connexion au terminal." ++ nl ++ py "D" ++ e_acute ++
  py "tails: " ++ e ++ nl ++ nl ++ py "R" ++ e_acute ++
  py "essayez ou rechargez la page.".

Definition get_tmux_output (session_id : str) : M World str :=
  try_except
    (result_main ← run capture_main_cmd;
     let main_output := stdout result_main in
     result ← run (capture_user_cmd session_id);
     let user_output := stdout result in
     mret (get_tmux_output_text main_output user_output))
    (λ e, mret (terminal_error e)).

Definition create_tmux_session (session_id : str) : M World str :=
  makedirs (SESSIONS_DIR ++ py "/" ++ session_id);;
  run (py "tmux kill-session -t claude-code-session 2>/dev/null || true");;
  run (py "tmux kill-session -t claude_" ++ session_id ++ py " 2>/dev/null || true");;
  run (py "mkdir -p /tmp/tmux-0");;
  run (py "chmod -R 777 /tmp/tmux-0");;
  run (py "cd /root && TMUX= tmux -S /tmp/tmux-0/default new-session -d -s claude-code-session");;
  run (py "chmod 777 /tmp/tmux-0/default");;
  run (MAIN_KEYS ++ py "'clear' C-m");;
  run (MAIN_KEYS ++ py "'echo " ++ dq ++ py "\033[1;32mBienvenue dans Claude Code Web!\033[0m" ++ dq ++ py "' C-m");;
  run (MAIN_KEYS ++ py "'echo " ++ dq ++ py "\033[1;36mTerminal interactif pour Claude Code\033[0m" ++ dq ++ py "' C-m");;
  run (MAIN_KEYS ++ py "'echo " ++ dq ++ py "-------------------------------------" ++ dq ++ py "' C-m");;
  run (MAIN_KEYS ++ py "'echo " ++ dq ++ dq ++ py "' C-m");;
  run (MAIN_KEYS ++ py "'export PATH=/root/.npm-global/bin:$PATH' C-m");;
  run (MAIN_KEYS ++ py "'cd /root/docker' C-m");;
  run (MAIN_KEYS ++ py "'ls -la' C-m");;
  run (MAIN_KEYS ++ py "'echo " ++ dq ++ dq ++ py "' C-m");;
  run (MAIN_KEYS ++ py "'echo " ++ dq ++ py "\033[1;33mPr" ++ e_circ ++ py "t " ++ a_grave ++ py " utiliser Claude Code...\033[0m" ++ dq ++ py "' C-m");;
  run (MAIN_KEYS ++ py "'echo " ++ dq ++ py "\033[0;37mTapez votre question ou commande ci-dessous:\033[0m" ++ dq ++ py "' C-m");;
  sleep 3000;;
  run (py "TMUX= tmux -S /tmp/tmux-0/default new-session -d -s claude_" ++ session_id ++ py " -t claude-code-session");;
  run (MAIN_KEYS ++ py "'echo " ++ dq ++ dq ++ py "' C-m");;
  run (MAIN_KEYS ++ py "'/root/.npm-global/bin/claude' C-m");;
  sleep 2000;;
  run (py "tmux -S /tmp/tmux-0/default send-keys -t claude_" ++ session_id ++ py " ' ' C-h");;
  run (py "tmux -S /tmp/tmux-0/default set-option -g history-limit 5000");;
  output ← get_tmux_output session_id;
  mret session_id.

Definition refresh_user_cmd (session_id : str) : str :=
  py "tmux -S /tmp/tmux-0/default refresh-client -t claude_" ++ session_id ++ py " 2>/dev/null || true".
Definition refresh_main_cmd : str :=
  py "tmux -S /tmp/tmux-0/default refresh-client -t claude-code-session 2>/dev/null || true".

(** [command.replace("'", "'\\''")] *)
Definition escape (command : str) : str :=
  replace_char sq (py "'\''") command.

Definition send_to_tmux (session_id command : str) : M World str :=
  let escaped_command := escape command in
  let cmd_main := MAIN_KEYS ++ py "'" ++ escaped_command ++ py "' C-m" in
  run cmd_main;;
  let cmd := py "tmux -S /tmp/tmux-0/default send-keys -t claude_" ++ session_id ++ py " '" ++ escaped_command ++ py "' C-m" in
  run cmd;;
  run (refresh_user_cmd session_id);;
  run refresh_main_cmd;;
  sleep 2000;;
  r ← run capture_main_cmd;
  let output_main := stdout r in
  output_user ← get_tmux_output session_id;
  let output := if len output_user <? len output_main then output_main else output_user in
  mret output.

(** *** The user-session poller, [monitor_tmux_output] *)

(** The capture both the first update and every iteration start with. *)
Definition monitor_capture (session_id : str) : M World str :=
  r ← run capture_main_cmd;
  let main_output := stdout r in
  user_output ← get_tmux_output session_id;
  mret (if len user_output <? len main_output then main_output else user_output).

Definition tmux_output_data (session_id current_output : str) : list (str * str) :=
  [(py "session_id", session_id); (py "output", current_output)].

(** Lines 262-278: the first update.  The local variable is
    [last_output]. *)
Definition monitor_tmux_output_first (session_id client_id : str)
  : M (World * str) unit :=
  try_except
    (current_output ← global (monitor_capture session_id);
     global (socketio_emit (py "tmux_output")
               (tmux_output_data session_id current_output) client_id);;
     set_local current_output)
    (λ e, mret tt).

(** Lines 280-310: one evaluation of the [while] condition and, when it
    holds, of the loop body.  The result tells whether the loop goes on. *)
Definition monitor_tmux_output_tick (session_id client_id : str)
  : M (World * str) bool :=
  registered ← gets (λ s, has_key (active_sessions s.1) session_id);
  if registered : bool then
    try_except
      (current_output ← global (monitor_capture session_id);
       last_output ← get_local;
       (if bool_decide (current_output ≠ last_output) then
          global (socketio_emit (py "tmux_output")
                    (tmux_output_data session_id current_output) client_id);;
          set_local current_output;;
          global (run (refresh_user_cmd session_id));;
          global (run refresh_main_cmd);;
          mret tt
        else mret tt);;
       global (sleep 300))
      (λ e, global (sleep 1000));;
    mret true
  else mret false.

(** Whether a loop was left, or was still going when the observed ticks
    ran out. *)
Inductive loop_status := Exited | Running.

Fixpoint monitor_tmux_output_loop (ticks : nat) (session_id client_id : str)
  : M (World * str) loop_status :=
  match ticks with
  | 0 => mret Running
  | S n =>
      continue ← monitor_tmux_output_tick session_id client_id;
      if continue : bool
      then monitor_tmux_output_loop n session_id client_id
      else mret Exited
  end.

Definition monitor_tmux_output (ticks : nat) (session_id client_id : str)
  : M (World * str) loop_status :=
  set_local [];;
  monitor_tmux_output_first session_id client_id;;
  monitor_tmux_output_loop ticks session_id client_id.

(** *** Project sessions *)

Definition project_session_name (project_id : str) : str :=
  py "claude_project_" ++ project_id.

Definition has_session_cmd (session_name : str) : str :=
  py "tmux has-session -t " ++ session_name.

(** The capture of the health check. *)
Definition project_probe_cmd (session_name : str) : str :=
  py "tmux capture-pane -p -t " ++ session_name.

Definition launch_cmd (session_name : str) : str :=
  py "tmux send-keys -t " ++ session_name ++ py " '/root/.npm-global/bin/claude' C-m".

(** The two texts whose presence in a capture shows a running assistant. *)
Definition marker_try : str := py "Try " ++ dq ++ py "how do I log an error?" ++ dq.
Definition marker_cwd : str := py "cwd:".

Definition claude_active (snapshot : str) : bool :=
  contains marker_try snapshot || contains marker_cwd snapshot.

(** The exports both branches of [get_or_create_project_session] send. *)
Definition configure_project (session_name project_id project_path : str)
  : M World unit :=
  run (py "tmux send-keys -t " ++ session_name ++ py " 'cd " ++ project_path ++ py "' C-m");;
  run (py "tmux send-keys -t " ++ session_name ++ py " 'export PROJECT_NAME=" ++ project_id ++ py "' C-m");;
  run (py "tmux send-keys -t " ++ session_name ++ py " 'export PROJECT_PATH=" ++ project_path ++ py "' C-m");;
  let claude_md_path := project_path ++ py "/CLAUDE.md" in
  present ← path_exists claude_md_path;
  if present : bool then
    run (py "tmux send-keys -t " ++ session_name ++ py " 'export CLAUDE_PROJECT_CONTEXT=" ++ dq ++ claude_md_path ++ dq ++ py "' C-m");;
    mret tt
  else mret tt.

Definition get_or_create_project_session (project_id : str) : M World str :=
  let session_name := project_session_name project_id in
  try_except
    (result ← run (has_session_cmd session_name);
     if bool_decide (returncode result = 0%Z) then
       output ← run (project_probe_cmd session_name);
       (if negb (contains marker_try (stdout output))
           && negb (contains marker_cwd (stdout output)) then
          let project_path := DOCKER_PATH ++ py "/apps/" ++ project_id in
          configure_project session_name project_id project_path;;
          run (launch_cmd session_name);;
          sleep 3000
        else mret tt);;
       known ← gets (λ w, project_sessions w !! session_name);
       match known with
       | None =>
           session_id ← new_uuid;
           project_sessions_set session_name session_id;;
           mret session_id
       | Some session_id => mret session_id
       end
     else
       let project_path := DOCKER_PATH ++ py "/apps/" ++ project_id in
       run (py "tmux new-session -d -s " ++ session_name);;
       configure_project session_name project_id project_path;;
       run (py "tmux send-keys -t " ++ session_name ++ py " 'clear' C-m");;
       run (launch_cmd session_name);;
       sleep 3000;;
       sleep 2000;;
       session_id ← new_uuid;
       project_sessions_set session_name session_id;;
       mret session_id)
    (λ e, raise e).

Definition cleanup_project_session (project_id : str) : M World unit :=
  let session_name := project_session_name project_id in
  try_except
    (run (py "tmux kill-session -t " ++ session_name ++ py " 2>/dev/null || true");;
     known ← gets (λ w, has_key (project_sessions w) session_name);
     if known : bool then project_sessions_del session_name else mret tt)
    (λ e, mret tt).

Definition project_placeholder (session_name : str) : str :=
  py "Terminal du projet" ++ nl ++ nl ++ py "Session: " ++ session_name ++ nl ++
  py "Pr" ++ e_circ ++ py "t " ++ a_grave ++ py " recevoir vos commandes..." ++ nl.

Definition project_capture_cmd (session_name : str) : str :=
  py "tmux capture-pane -p -S -1000 -t " ++ session_name.

(** The text returned when the capture raises [e]. *)
Definition project_terminal_error (e : str) : str :=
  py "Erreur de connexion au terminal du projet." ++ nl ++ py "D" ++
  e_acute ++ py "tails: " ++ e.

Definition get_project_tmux_output (session_name : str) : M World str :=
  try_except
    (let cmd := project_capture_cmd session_name in
     result ← run cmd;
     let output := stdout result in
     let output := if len (strip output) <? 10
                   then project_placeholder session_name else output in
     mret (rstrip output))
    (λ e, mret (project_terminal_error e)).

Definition send_to_project_tmux (session_name command : str) : M World unit :=
  try_except
    (let escaped_command := escape command in
     let cmd := py "tmux send-keys -t " ++ session_name ++ py " '" ++
                escaped_command ++ py " C-m' C-m" in
     run cmd;;
     mret tt)
    (λ e, raise e).

Definition project_room (project_id : str) : str := py "project_" ++ project_id.

(** One pass of the [while True] of [monitor_project_tmux_output]; the
    local variable is [previous_output].  [false] is the [break]. *)
Definition monitor_project_tmux_output_tick (session_name project_id client_id : str)
  : M (World * str) bool :=
  try_except
    (result ← global (run (has_session_cmd session_name));
     if bool_decide (returncode result ≠ 0%Z) then mret false
     else
       current_output ← global (get_project_tmux_output session_name);
       previous_output ← get_local;
       (if bool_decide (current_output ≠ previous_output) then
          global (socketio_emit (py "output")
                    [(py "output", current_output); (py "project_id", project_id);
                     (py "session_name", session_name)]
                    (project_room project_id));;
          set_local current_output
        else mret tt);;
       global (sleep 500);;
       mret true)
    (λ e, global (sleep 1000);; mret true).

Fixpoint monitor_project_tmux_output_loop (ticks : nat)
    (session_name project_id client_id : str) : M (World * str) loop_status :=
  match ticks with
  | 0 => mret Running
  | S n =>
      continue ← monitor_project_tmux_output_tick session_name project_id client_id;
      if continue : bool
      then monitor_project_tmux_output_loop n session_name project_id client_id
      else mret Exited
  end.

Definition monitor_project_tmux_output (ticks : nat)
    (session_name project_id client_id : str) : M (World * str) loop_status :=
  set_local [];;
  monitor_project_tmux_output_loop ticks session_name project_id client_id.

(** *** Socket.IO handlers; [sid] is [request.sid] *)

Record join_data := { j_session_id : str; j_token : str }.
Record message_data := { m_session_id : str; m_message : str; m_token : str }.
Record join_project_data :=
  { jp_session_id : str; jp_project_id : str; jp_token : str }.
Record project_message_data :=
  { pm_session_id : str; pm_project_id : str; pm_message : str; pm_token : str }.

Definition error_data (message : str) : list (str * str) :=
  [(py "message", message)].

Definition handle_join (sid : str) (data : join_data) : M World unit :=
  let session_id := j_session_id data in
  let token := j_token data in
  payload ← verify_token token;
  match payload with
  | None => emit sid (py "error") (error_data (py "Token invalide"))
  | Some payload =>
      let user_id := user_id payload in
      registered ← gets (λ w, has_key (active_sessions w) session_id);
      ready ← (if registered : bool then mret true
               else
                 try_except
                   (create_tmux_session session_id;;
                    active_sessions_set session_id user_id;;
                    mret true)
                   (λ e, emit sid (py "error")
                           (error_data (py "Erreur lors de la cr" ++ e_acute ++
                                        py "ation de la session: " ++ e));;
                         mret false));
      if ready : bool then
        output ← get_tmux_output session_id;
        join_room sid sid;;
        emit sid (py "joined")
          [(py "session_id", session_id); (py "initial_output", output)];;
        polled ← gets (λ w, has_key (output_threads w) session_id);
        if polled : bool then mret tt
        else start_thread session_id (MonitorTmux session_id sid)
      else mret tt
  end.

Definition handle_message (sid : str) (data : message_data) : M World unit :=
  let session_id := m_session_id data in
  let message := m_message data in
  let token := m_token data in
  payload ← verify_token token;
  match payload with
  | None => emit sid (py "error") (error_data (py "Token invalide"))
  | Some payload =>
      registered ← gets (λ w, has_key (active_sessions w) session_id);
      if registered : bool then
        try_except
          (send_to_tmux session_id message;; mret tt)
          (λ e, emit sid (py "error")
                  (error_data (py "Erreur lors de l'envoi du message: " ++ e)))
      else emit sid (py "error") (error_data (py "Session non trouv" ++ e_acute ++ py "e"))
  end.

Definition handle_join_project (sid : str) (data : join_project_data)
  : M World unit :=
  let session_id := jp_session_id data in
  let project_id := jp_project_id data in
  let token := jp_token data in
  payload ← verify_token token;
  match payload with
  | None => emit sid (py "error") (error_data (py "Token invalide"))
  | Some payload =>
      try_except
        (let project_path := DOCKER_PATH ++ py "/apps/" ++ project_id in
         found ← path_exists project_path;
         if found : bool then
           join_room sid (project_room project_id);;
           let session_name := project_session_name project_id in
           initial_output ← get_project_tmux_output session_name;
           emit sid (py "joined")
             [(py "session_id", session_id); (py "project_id", project_id);
              (py "initial_output", initial_output)];;
           polled ← gets (λ w, has_key (output_threads w) session_name);
           if polled : bool then mret tt
           else start_thread session_name
                  (MonitorProject session_name project_id sid)
         else emit sid (py "error") (error_data (py "Projet non trouv" ++ e_acute)))
        (λ e, emit sid (py "error")
                (error_data (py "Erreur lors de la connexion au projet: " ++ e)))
  end.

Definition handle_project_message (sid : str) (data : project_message_data)
  : M World unit :=
  let session_id := pm_session_id data in
  let project_id := pm_project_id data in
  let message := pm_message data in
  let token := pm_token data in
  payload ← verify_token token;
  match payload with
  | None => emit sid (py "error") (error_data (py "Token invalide"))
  | Some payload =>
      try_except
        (let session_name := project_session_name project_id in
         send_to_project_tmux session_name message;;
         new_output ← get_project_tmux_output session_name;
         if bool_decide (new_output ≠ []) then
           socketio_emit (py "output") [(py "output", new_output)]
             (project_room project_id)
         else mret tt)
        (λ e, emit sid (py "error")
                (error_data (py "Erreur lors de l'envoi du message: " ++ e)))
  end.

(** *** The REST routes that touch the session state; [token] is the
    bearer token of the request.  The result is the session id of the
    JSON answer, or [None] for an error answer. *)

Definition new_session (token : str) : M World (option str) :=
  payload ← verify_token token;
  match payload with
  | None => mret None
  | Some payload =>
      let user_id := user_id payload in
      session_id ← new_uuid;
      create_tmux_session session_id;;
      active_sessions_set session_id user_id;;
      mret (Some session_id)
  end.

Definition create_project_session (token project_id : str) : M World (option str) :=
  payload ← verify_token token;
  match payload with
  | None => mret None
  | Some payload =>
      try_except
        (let project_path := DOCKER_PATH ++ py "/apps/" ++ project_id in
         found ← path_exists project_path;
         if found : bool then
           session_id ← get_or_create_project_session project_id;
           mret (Some session_id)
         else mret None)
        (λ e, mret None)
  end.

Definition stop_project_services (project_id : str) : M World unit :=
  try_except
    (let project_path := DOCKER_PATH ++ py "/apps/" ++ project_id in
     let compose_file := project_path ++ py "/docker-compose.yml" in
     present ← path_exists compose_file;
     if present : bool then
       run (py "cd " ++ project_path ++ py " && docker-compose down");;
       mret tt
     else mret tt)
    (λ e, mret tt).

Definition delete_project (token project_id : str) : M World bool :=
  payload ← verify_token token;
  match payload with
  | None => mret false
  | Some payload =>
      try_except
        (let project_path := DOCKER_PATH ++ py "/apps/" ++ project_id in
         found ← path_exists project_path;
         if found : bool then
           stop_project_services project_id;;
           cleanup_project_session project_id;;
           mret true
         else mret false)
        (λ e, mret false)
  end.

(** What the server can be asked to do. *)
Inductive request :=
| Connect (sid : str)
| Disconnect (sid : str)
| Join (sid : str) (data : join_data)
| Message (sid : str) (data : message_data)
| JoinProject (sid : str) (data : join_project_data)
| ProjectMessage (sid : str) (data : project_message_data)
| NewSession (token : str)
| CreateProjectSession (token project_id : str)
| DeleteProject (token project_id : str).

(** A request is served to its end; an exception that leaves a handler is
    logged by the framework and the server goes on. *)
Definition serve (r : request) (w : World) : World :=
  match r with
  | Connect sid => (handle_connect sid w).2
  | Disconnect sid => (handle_disconnect sid w).2
  | Join sid data => (handle_join sid data w).2
  | Message sid data => (handle_message sid data w).2
  | JoinProject sid data => (handle_join_project sid data w).2
  | ProjectMessage sid data => (handle_project_message sid data w).2
  | NewSession token => (new_session token w).2
  | CreateProjectSession token project_id =>
      (create_project_session token project_id w).2
  | DeleteProject token project_id => (delete_project token project_id w).2
  end.

Definition serve_all (rs : list request) (w : World) : World :=
  foldl (λ w r, serve r w) w rs.

End App.

Arguments World E : clear implicits.

(** ** A reference environment: a tmux server

    Sessions are names for panes; the sessions of one group show the same
    pane.  A pane keeps the text a capture returns and the keys it was sent.
    What the program running in a pane prints in answer to its keys is not
    modelled: [screen] changes only through [print].  Targets are looked up
    by exact name. *)

Module TmuxModel.

Record pane := { screen : str; keys : list str }.

Record server := {
  sessions : gmap str nat;          (* session name -> pane *)
  panes : gmap nat pane;
  next_pane : nat;
  files : gset str;                 (* the paths that exist *)
  uuids : nat;                      (* uuid4 calls so far *)
  tokens : gmap str Payload;        (* the tokens that verify *)
  exhausted : bool;                 (* no process can be spawned *)
}.

Definition set_tmux (ss : gmap str nat) (ps : gmap nat pane) (n : nat)
    (tm : server) : server :=
  {| sessions := ss; panes := ps; next_pane := n; files := files tm;
     uuids := uuids tm; tokens := tokens tm; exhausted := exhausted tm |}.

Definition set_files (fs : gset str) (tm : server) : server :=
  {| sessions := sessions tm; panes := panes tm; next_pane := next_pane tm;
     files := fs; uuids := uuids tm; tokens := tokens tm;
     exhausted := exhausted tm |}.

Definition empty_server : server :=
  {| sessions := ∅; panes := ∅; next_pane := 0; files := ∅; uuids := 0;
     tokens := ∅; exhausted := false |}.

(** The tmux commands app.py issues. *)
Inductive tmux_cmd :=
| KillSession (target : str)
| HasSession (target : str)
| NewSession (name : str) (group : option str)
| SendKeys (target : str) (ks : list str)
| CapturePane (target : str)
| RefreshClient (target : str)
| SetOption.

Definition lit (s : string) : str := py s.
Arguments lit s%_string.

Definition parse_tmux (args : list str) : option tmux_cmd :=
  let args :=
    match args with
    | o :: _ :: rest => if decide (o = lit "-S") then rest else args
    | _ => args
    end in
  match args with
  | sub :: rest =>
      if decide (sub = lit "kill-session") then
        match rest with
        | [o; t] => if decide (o = lit "-t") then Some (KillSession t) else None
        | _ => None
        end
      else if decide (sub = lit "has-session") then
        match rest with
        | [o; t] => if decide (o = lit "-t") then Some (HasSession t) else None
        | _ => None
        end
      else if decide (sub = lit "new-session") then
        match rest with
        | [d; o; n] =>
            if decide (d = lit "-d" ∧ o = lit "-s") then Some (NewSession n None)
            else None
        | [d; o; n; o'; g] =>
            if decide (d = lit "-d" ∧ o = lit "-s" ∧ o' = lit "-t")
            then Some (NewSession n (Some g)) else None
        | _ => None
        end
      else if decide (sub = lit "send-keys") then
        match rest with
        | o :: t :: ks => if decide (o = lit "-t") then Some (SendKeys t ks) else None
        | _ => None
        end
      else if decide (sub = lit "capture-pane") then
        match rest with
        | [p; o; t] =>
            if decide (p = lit "-p" ∧ o = lit "-t") then Some (CapturePane t)
            else None
        | [p; o1; _; o; t] =>
            if decide (p = lit "-p" ∧ o1 = lit "-S" ∧ o = lit "-t")
            then Some (CapturePane t) else None
        | _ => None
        end
      else if decide (sub = lit "refresh-client") then
        match rest with
        | [o; t] => if decide (o = lit "-t") then Some (RefreshClient t) else None
        | _ => None
        end
      else if decide (sub = lit "set-option") then Some SetOption
      else None
  | [] => None
  end.

(** Whether a session other than [name] shows pane [p]. *)
Definition shown_elsewhere (name : str) (p : nat) (ss : gmap str nat) : bool :=
  bool_decide (map_Exists (λ n q, n ≠ name ∧ q = p) ss).

(** The exit status and output of a tmux command, and the server after. *)
Definition exec_tmux (c : tmux_cmd) (tm : server) : Z * str * server :=
  match c with
  | KillSession t =>
      match sessions tm !! t with
      | Some p =>
          let ps := if shown_elsewhere t p (sessions tm)
                    then panes tm else delete p (panes tm) in
          (0%Z, [], set_tmux (delete t (sessions tm)) ps (next_pane tm) tm)
      | None => (1%Z, [], tm)
      end
  | HasSession t =>
      (if sessions tm !! t is Some _ then 0%Z else 1%Z, [], tm)
  | NewSession n g =>
      match sessions tm !! n with
      | Some _ => (1%Z, [], tm)
      | None =>
          match g ≫= (λ g, sessions tm !! g) with
          | Some p =>
              (0%Z, [], set_tmux (<[n := p]> (sessions tm)) (panes tm)
                          (next_pane tm) tm)
          | None =>
              let p := next_pane tm in
              (0%Z, [], set_tmux (<[n := p]> (sessions tm))
                          (<[p := {| screen := []; keys := [] |}]> (panes tm))
                          (S p) tm)
          end
      end
  | SendKeys t ks =>
      match sessions tm !! t ≫= (λ p, (p,.) <$> panes tm !! p) with
      | Some (p, pn) =>
          (0%Z, [], set_tmux (sessions tm)
                      (<[p := {| screen := screen pn; keys := keys pn ++ ks |}]>
                         (panes tm))
                      (next_pane tm) tm)
      | None => (1%Z, [], tm)
      end
  | CapturePane t =>
      match sessions tm !! t ≫= (λ p, panes tm !! p) with
      | Some pn => (0%Z, screen pn, tm)
      | None => (1%Z, [], tm)
      end
  | RefreshClient t =>
      (if sessions tm !! t is Some _ then 0%Z else 1%Z, [], tm)
  | SetOption => (0%Z, [], tm)
  end.

(** A command of a line: its words without assignments and redirections. *)
Definition exec_simple (argv : list str) (tm : server) : Z * str * server :=
  match argv with
  | [] => (0%Z, [], tm)
  | prog :: args =>
      if decide (prog = lit "tmux") then
        match parse_tmux args with
        | Some c => exec_tmux c tm
        | None => (1%Z, [], tm)
        end
      else if decide (prog = lit "mkdir") then
        match args with
        | [o; path] =>
            if decide (o = lit "-p") then (0%Z, [], set_files ({[path]} ∪ files tm) tm)
            else (1%Z, [], tm)
        | _ => (1%Z, [], tm)
        end
      else if decide (prog = lit "true" ∨ prog = lit "cd" ∨ prog = lit "chmod"
                      ∨ prog = lit "docker-compose") then (0%Z, [], tm)
      else (127%Z, [], tm)
  end.

Inductive connector := AndIf | OrIf.

(** The commands of a line and the operators between them.  A word with
    an [=] after its first character, unquoted and before the command name,
    is an assignment ([TMUX=]); the redirection of the error output to
    [/dev/null] changes nothing here, as the error output is not modelled;
    a redirection to a file is outside the model. *)
Definition is_assignment (quoted : bool) (text : str) : bool :=
  negb quoted && bool_decide (61%N ∈ text) && negb (startswith [61%N] text).

Fixpoint split_line (ts : list Shell.token) (argv : list str)
  : option (list str * list (connector * list str)) :=
  match ts with
  | [] => Some (argv, [])
  | Shell.Word quoted text :: ts' =>
      if bool_decide (argv = []) && is_assignment quoted text
      then split_line ts' argv
      else split_line ts' (argv ++ [text])
  | Shell.Operator op :: ts' =>
      if decide (op = lit "&&") then
        '(next, more) ← split_line ts' [];
        Some (argv, (AndIf, next) :: more)
      else if decide (op = lit "||") then
        '(next, more) ← split_line ts' [];
        Some (argv, (OrIf, next) :: more)
      else if decide (op = lit "2>") then
        match ts' with
        | Shell.Word _ target :: ts'' =>
            if decide (target = lit "/dev/null") then split_line ts'' argv
            else None
        | _ => None
        end
      else None
  end.

Fixpoint exec_rest (rest : list (connector * list str)) (rc : Z) (out : str)
    (tm : server) : Z * str * server :=
  match rest with
  | [] => (rc, out, tm)
  | (c, argv) :: rest' =>
      let go := match c with
                | AndIf => bool_decide (rc = 0%Z)
                | OrIf => bool_decide (rc ≠ 0%Z)
                end in
      if go then
        let '(rc', out', tm') := exec_simple argv tm in
        exec_rest rest' rc' (out ++ out') tm'
      else exec_rest rest' rc out tm
  end.

Definition parse_line (cmd : str) : option (list str * list (connector * list str)) :=
  Shell.words cmd ≫= λ ws, split_line ws [].

Definition sh (cmd : str) (tm : server) : result CompletedProcess * server :=
  if exhausted tm then (Raise (lit "[Errno 12] Cannot allocate memory"), tm)
  else
    match parse_line cmd with
    | None => (Raise (lit "command line outside the modelled shell"), tm)
    | Some (argv, rest) =>
        let '(rc, out, tm') := exec_simple argv tm in
        let '(rc, out, tm') := exec_rest rest rc out tm' in
        (Ok {| returncode := rc; stdout := out |}, tm')
    end.

#[global] Instance tmux_env : Env server := {
  subprocess_run := sh;
  os_path_exists path tm := bool_decide (path ∈ files tm);
  os_makedirs path tm := (Ok tt, set_files ({[path]} ∪ files tm) tm);
  uuid4 tm :=
    (lit "uuid-" ++ py (pretty (uuids tm)),
     {| sessions := sessions tm; panes := panes tm; next_pane := next_pane tm;
        files := files tm; uuids := S (uuids tm); tokens := tokens tm;
        exhausted := exhausted tm |});
  jwt_decode token tm :=
    match tokens tm !! token with
    | Some payload => Ok payload
    | None => Raise (lit "Invalid token")
    end;
}.

(** The program in the pane of a session prints [text]. *)
Definition print (name text : str) (tm : server) : server :=
  match sessions tm !! name ≫= (λ p, (p,.) <$> panes tm !! p) with
  | Some (p, pn) =>
      set_tmux (sessions tm)
        (<[p := {| screen := screen pn ++ text; keys := keys pn |}]> (panes tm))
        (next_pane tm) tm
  | None => tm
  end.

End TmuxModel.

(** ** What is observed of a run *)

(** The keys of the threads started, in order. *)
Definition starts (t : list effect) : list str :=
  omap (λ x, match x with Start key _ => Some key | _ => None end) t.

(** The command lines run, in order. *)
Definition commands (t : list effect) : list str :=
  omap (λ x, match x with Run cmd => Some cmd | _ => None end) t.

(** The payloads sent under the name [event], in order. *)
Definition published (event : str) (t : list effect) : list (list (str * str)) :=
  omap (λ x, match x with
             | Emit ev data _ _ => if decide (ev = event) then Some data else None
             | _ => None
             end) t.

(** The messages addressed to a room other than [room]. *)
Definition sent_elsewhere (room : str) (t : list effect) : list effect :=
  omap (λ x, match x with
             | Emit _ _ r _ => if decide (r = room) then None else Some x
             | _ => None
             end) t.

(** The messages sent, in order. *)
Definition emits (t : list effect) : list effect :=
  omap (λ x, match x with Emit _ _ _ _ => Some x | _ => None end) t.

(** Who received each message named [event], in order. *)
Definition receivers (event : str) (t : list effect) : list (gset str) :=
  omap (λ x, match x with
             | Emit ev _ _ rc => if decide (ev = event) then Some rc else None
             | _ => None
             end) t.

(** A snapshot source that does not change: in the environment [e], the two
    captures of a session leave [e] as it is, and the first succeeds. *)
Definition static_source {E : Type} `{Env E} (session_id : str) (e : E) : Prop :=
  (∃ cp, subprocess_run capture_main_cmd e = (Ok cp, e))
  ∧ (∃ r, subprocess_run (capture_user_cmd session_id) e = (r, e)).

(** The tmux session all user sessions share, and the mirror of one. *)
Definition MAIN : str := py "claude-code-session".
Definition user_session (session_id : str) : str := py "claude_" ++ session_id.

(** The first command lines of [create_tmux_session]. *)
Definition kill_main_cmd : str :=
  py "tmux kill-session -t claude-code-session 2>/dev/null || true".
Definition kill_user_cmd (session_id : str) : str :=
  py "tmux kill-session -t claude_" ++ session_id ++ py " 2>/dev/null || true".
Definition new_main_cmd : str :=
  py "cd /root && TMUX= tmux -S /tmp/tmux-0/default new-session -d -s claude-code-session".

(** The keys [create_tmux_session] sends to the pane it creates. *)
Definition create_keys : list str :=
  [py "clear"; py "C-m";
   py "echo " ++ dq ++ py "\033[1;32mBienvenue dans Claude Code Web!\033[0m" ++ dq;
   py "C-m";
   py "echo " ++ dq ++ py "\033[1;36mTerminal interactif pour Claude Code\033[0m" ++ dq;
   py "C-m";
   py "echo " ++ dq ++ py "-------------------------------------" ++ dq; py "C-m";
   py "echo " ++ dq ++ dq; py "C-m";
   py "export PATH=/root/.npm-global/bin:$PATH"; py "C-m";
   py "cd /root/docker"; py "C-m";
   py "ls -la"; py "C-m";
   py "echo " ++ dq ++ dq; py "C-m";
   py "echo " ++ dq ++ py "\033[1;33mPr" ++ e_circ ++ py "t " ++ a_grave ++
     py " utiliser Claude Code...\033[0m" ++ dq;
   py "C-m";
   py "echo " ++ dq ++
     py "\033[0;37mTapez votre question ou commande ci-dessous:\033[0m" ++ dq;
   py "C-m";
   py "echo " ++ dq ++ dq; py "C-m";
   py "/root/.npm-global/bin/claude"; py "C-m";
   py " "; py "C-h"].

(** A [send-keys] command addressed to [session_name]. *)
Definition sends_keys_to (session_name cmd : str) : Prop :=
  ∃ rest, cmd = py "tmux send-keys -t " ++ session_name ++ rest.

(** The poller registry together with the threads started. *)
Definition threads_view {E : Type} `{Env E} (w : World E)
  : gmap str thread * list str :=
  (output_threads w, starts (trace w)).

(** Each key was started at most once and the registry holds exactly the
    keys started. *)
Definition threads_inv {E : Type} `{Env E} (w : World E) : Prop :=
  NoDup (starts (trace w))
  ∧ ∀ key, key ∈ starts (trace w) ↔ has_key (output_threads w) key = true.

(** ** Concrete situations used to exercise the statements *)

Module Scenarios.
Import TmuxModel.

Definition ann : Payload := {| user_id := py "u1"; username := py "ann" |}.

(** A server where the token ["tok"] verifies. *)
Definition fresh_server : server :=
  {| sessions := ∅; panes := ∅; next_pane := 0; files := ∅; uuids := 0;
     tokens := {[ py "tok" := ann ]}; exhausted := false |}.

(** No process can be spawned: every [subprocess.run] raises. *)
Definition exhausted_server : server :=
  {| sessions := ∅; panes := ∅; next_pane := 0; files := ∅; uuids := 0;
     tokens := {[ py "tok" := ann ]}; exhausted := true |}.

(** The main session and the mirror of session ["s1"] on panes of their
    own, showing [main] and [mirror]. *)
Definition two_panes (main mirror : str) : server :=
  {| sessions := {[ MAIN := 0; py "claude_s1" := 1 ]};
     panes := {[ 0 := {| screen := main; keys := [] |};
                 1 := {| screen := mirror; keys := [] |} ]};
     next_pane := 2; files := ∅; uuids := 0;
     tokens := {[ py "tok" := ann ]}; exhausted := false |}.

(** Two connections and a user session both ask to join. *)
Definition conn_a : str := py "conn-a".
Definition conn_b : str := py "conn-b".
Definition join_s1 : join_data := {| j_session_id := py "s1"; j_token := py "tok" |}.
Definition first_joined : list request :=
  [Connect conn_a; Connect conn_b; Join conn_a join_s1].
Definition both_joined : list request :=
  [Connect conn_a; Connect conn_b; Join conn_a join_s1; Join conn_b join_s1].

(** The poller of session ["s1"], started for [conn_a], sends its first
    update and polls once; the assistant then prints [text] in the main
    pane and the poller polls once more. *)
Definition poll_print_poll (text : str) (w : World server) : World server :=
  let '(_, (w1, last_output)) :=
    monitor_tmux_output 1 (py "s1") conn_a (w, []) in
  let w2 := set_env (print MAIN text (env w1)) w1 in
  (monitor_tmux_output_loop 1 (py "s1") conn_a (w2, last_output)).2.1.

(** Project ["demo"]: its message ["ls"], and the world once its session
    has been created through the REST route. *)
Definition say_ls : project_message_data :=
  {| pm_session_id := py "uuid-0"; pm_project_id := py "demo";
     pm_message := py "ls"; pm_token := py "tok" |}.

Definition demo_server : server :=
  {| sessions := ∅; panes := ∅; next_pane := 0;
     files := {[ py "/root/docker/apps/demo" ]}; uuids := 0;
     tokens := {[ py "tok" := ann ]}; exhausted := false |}.

Definition demo_ready : World server :=
  serve (CreateProjectSession (py "tok") (py "demo")) (init_world demo_server).

(** The keys the pane of a session has received. *)
Definition pane_keys (name : str) (tm : server) : list str :=
  default [] (keys <$> (sessions tm !! name ≫= λ p, panes tm !! p)).

(** The tmux session of a project is closed from outside the application
    ([tmux kill-session] typed by an operator). *)
Definition killed_outside (name : str) (w : World server) : World server :=
  set_env (exec_tmux (KillSession name) (env w)).2 w.

(** A tmux session is opened from outside the application ([tmux
    new-session -d -s name] typed by an operator). *)
Definition opened_outside (name : str) (w : World server) : World server :=
  set_env (exec_tmux (NewSession name None) (env w)).2 w.

Definition join_demo : join_project_data :=
  {| jp_session_id := py "uuid-0"; jp_project_id := py "demo"; jp_token := py "tok" |}.

(** Session ["s1"] is registered and no process can be spawned. *)
Definition broken : World server :=
  set_active_sessions {[ py "s1" := py "u1" ]} (init_world exhausted_server).

(** Session ["s1"] was created and its assistant has printed [text]. *)
Definition s1_at_work (text : str) : World server :=
  let w := (create_tmux_session (py "s1") (init_world fresh_server)).2 in
  set_env (print MAIN text (env w)) w.

End Scenarios.

(** ** Checks of the string and shell models *)

Example lstrip_ex : lstrip (py "  a b ") = py "a b ".
Proof. reflexivity. Qed.

Example strip_ex : strip (py " 	a b
") = py "a b".
Proof. reflexivity. Qed.

Example words_ex :
  Shell.words (py "tmux kill-session -t claude_x 2>/dev/null || true")
  = Some [Shell.bare "tmux"; Shell.bare "kill-session"; Shell.bare "-t";
          Shell.bare "claude_x"; Shell.Operator (py "2>"); Shell.bare "/dev/null";
          Shell.Operator (py "||"); Shell.bare "true"].
Proof. reflexivity. Qed.

(** An unquoted operator ends the word before it; a lone [|] is outside
    the model. *)
Example words_operator_ex :
  Shell.words (py "cd a&&tmux kill-session -t b")
  = Some [Shell.bare "cd"; Shell.bare "a"; Shell.Operator (py "&&");
          Shell.bare "tmux"; Shell.bare "kill-session"; Shell.bare "-t";
          Shell.bare "b"]
  ∧ Shell.words (py "tmux send-keys -t a|b") = None.
Proof. split; reflexivity. Qed.

Example words_quote_ex :
  Shell.words (py "send-keys 'it'\''s' C-m")
  = Some [Shell.bare "send-keys"; Shell.Word true (py "it's"); Shell.bare "C-m"].
Proof. reflexivity. Qed.

(** ** Properties of the string functions *)

Lemma lstrip_length (s : str) : length (lstrip s) ≤ length s.
Proof.
  induction s as [|c s IH]; simpl; [lia|].
  destruct (isspace c); simpl; lia.
Qed.

Lemma strip_le_rstrip (s : str) : len (strip s) ≤ len (rstrip s).
Proof. unfold strip, len. apply lstrip_length. Qed.

Lemma rstrip_length (s : str) : len (rstrip s) ≤ len s.
Proof.
  unfold rstrip, len. rewrite length_reverse.
  etrans; [apply lstrip_length|]. by rewrite length_reverse.
Qed.

(** A text with ten visible characters is not trimmed to nothing. *)
Lemma rstrip_nonempty (s : str) : 10 ≤ len (strip s) → rstrip s ≠ [].
Proof.
  intros Hlen Hnil. pose proof (strip_le_rstrip s) as Hle.
  rewrite Hnil in Hle. simpl in Hle. lia.
Qed.

Lemma lstrip_app_visible (s t : str) (c : char) :
  isspace c = false → lstrip (s ++ c :: t) ≠ [].
Proof.
  intros Hc. induction s as [|d s IH]; simpl.
  - by rewrite Hc.
  - by destruct (isspace d).
Qed.

(** Trimming the right end keeps a visible first character. *)
Lemma rstrip_cons_visible (c : char) (s : str) :
  isspace c = false → rstrip (c :: s) ≠ [].
Proof.
  intros Hc Hnil. unfold rstrip in Hnil.
  apply (f_equal reverse) in Hnil. rewrite reverse_involutive in Hnil.
  rewrite reverse_cons in Hnil. change (reverse []) with (@nil N) in Hnil.
  change (reverse s ++ [c]) with (reverse s ++ c :: []) in Hnil.
  by eapply lstrip_app_visible.
Qed.

(** ** How the snapshot functions answer *)

Section Snapshots.

Context {E : Type} `{Env E}.
Implicit Types (w : World E) (cmd e out : str) (cp : CompletedProcess).

Lemma bind_ok {S A B} (m : M S A) (f : A → M S B) (s s' : S) (a : A) :
  m s = (Ok a, s') → (m ≫= f) s = f a s'.
Proof. intros Hm. unfold mbind, M_bind. by rewrite Hm. Qed.

Lemma bind_raise {S A B} (m : M S A) (f : A → M S B) (s s' : S) e :
  m s = (Raise e, s') → (m ≫= f) s = (Raise e, s').
Proof. intros Hm. unfold mbind, M_bind. by rewrite Hm. Qed.

Lemma run_ok cmd w cp (e' : E) :
  subprocess_run cmd (env w) = (Ok cp, e') →
  run cmd w = (Ok cp, set_env e' (log (Run cmd) w)).
Proof. intros Hr. unfold run. by rewrite Hr. Qed.

Lemma run_raise cmd w e (e' : E) :
  subprocess_run cmd (env w) = (Raise e, e') →
  run cmd w = (Raise e, set_env e' (log (Run cmd) w)).
Proof. intros Hr. unfold run. by rewrite Hr. Qed.

(** [get_tmux_output] never raises; its answer follows the two captures. *)
Lemma get_tmux_output_spec (session_id : str) w :
  get_tmux_output session_id w =
    match subprocess_run capture_main_cmd (env w) with
    | (Raise e, e1) =>
        (Ok (terminal_error e), set_env e1 (log (Run capture_main_cmd) w))
    | (Ok cp1, e1) =>
        let w1 := set_env e1 (log (Run capture_main_cmd) w) in
        match subprocess_run (capture_user_cmd session_id) e1 with
        | (Raise e, e2) =>
            (Ok (terminal_error e),
             set_env e2 (log (Run (capture_user_cmd session_id)) w1))
        | (Ok cp2, e2) =>
            (Ok (get_tmux_output_text (stdout cp1) (stdout cp2)),
             set_env e2 (log (Run (capture_user_cmd session_id)) w1))
        end
    end.
Proof.
  unfold get_tmux_output, try_except, mbind, M_bind, run.
  destruct (subprocess_run capture_main_cmd (env w)) as [[cp1|e] e1]; [|done].
  simpl.
  by destruct (subprocess_run (capture_user_cmd session_id) e1) as [[cp2|e] e2].
Qed.

Lemma get_project_tmux_output_spec (session_name : str) w :
  get_project_tmux_output session_name w =
    match subprocess_run (project_capture_cmd session_name) (env w) with
    | (Raise e, e1) =>
        (Ok (project_terminal_error e),
         set_env e1 (log (Run (project_capture_cmd session_name)) w))
    | (Ok cp, e1) =>
        (Ok (rstrip (if len (strip (stdout cp)) <? 10
                     then project_placeholder session_name else stdout cp)),
         set_env e1 (log (Run (project_capture_cmd session_name)) w))
    end.
Proof.
  unfold get_project_tmux_output, try_except, mbind, M_bind, run.
  by destruct (subprocess_run (project_capture_cmd session_name) (env w))
    as [[cp|e] e1].
Qed.

Lemma terminal_error_nonempty e : terminal_error e ≠ [].
Proof. done. Qed.

Lemma project_terminal_error_nonempty e : project_terminal_error e ≠ [].
Proof. done. Qed.

Lemma default_message_visible : rstrip default_message ≠ [].
Proof. by vm_compute. Qed.

Lemma project_placeholder_visible (session_name : str) :
  rstrip (project_placeholder session_name) ≠ [].
Proof. by apply rstrip_cons_visible. Qed.

Lemma get_tmux_output_text_nonempty (main_output user_output : str) :
  get_tmux_output_text main_output user_output ≠ [].
Proof.
  unfold get_tmux_output_text.
  set (chosen := if len (strip user_output) <? len (strip main_output)
                 then main_output else user_output).
  destruct (len (strip chosen) <? 10) eqn:Hshort.
  - apply default_message_visible.
  - apply rstrip_nonempty. apply Nat.ltb_ge in Hshort. lia.
Qed.

(** The rule of [get_tmux_output_text] once a side has ten visible
    characters. *)
Lemma get_tmux_output_text_select (main_output user_output : str) :
  10 ≤ len (strip main_output) ∨ 10 ≤ len (strip user_output) →
  get_tmux_output_text main_output user_output =
    if len (strip user_output) <? len (strip main_output)
    then rstrip main_output else rstrip user_output.
Proof.
  intros Hten. unfold get_tmux_output_text.
  destruct (len (strip user_output) <? len (strip main_output)) eqn:Hcmp.
  - apply Nat.ltb_lt in Hcmp.
    assert ((len (strip main_output) <? 10) = false) as ->
      by (apply Nat.ltb_ge; lia).
    done.
  - apply Nat.ltb_ge in Hcmp.
    assert ((len (strip user_output) <? 10) = false) as ->
      by (apply Nat.ltb_ge; lia).
    done.
Qed.

End Snapshots.

(** ** C1: which of the two snapshots is returned *)

(** C1 (as amended).  When both captures of [get_tmux_output] succeed and
    at least one side has ten visible characters, the main snapshot is
    returned only if it is strictly longer than the mirror after trimming;
    otherwise, a tie included, the mirror is returned.  The chosen text is
    returned without its trailing whitespace.  The poller applies the same
    rule once more, to the lengths as they are: it takes the main snapshot
    only if it is strictly longer than what [get_tmux_output] returned, and
    that answer otherwise. *)
Theorem C1_main_only_if_strictly_longer {E : Type} `{Env E}
    (w : World E) (session_id : str) (cp1 cp2 : CompletedProcess) (e1 e2 : E) :
  subprocess_run capture_main_cmd (env w) = (Ok cp1, e1) →
  subprocess_run (capture_user_cmd session_id) e1 = (Ok cp2, e2) →
  10 ≤ len (strip (stdout cp1)) ∨ 10 ≤ len (strip (stdout cp2)) →
  (get_tmux_output session_id w).1 =
    Ok (if len (strip (stdout cp2)) <? len (strip (stdout cp1))
        then rstrip (stdout cp1) else rstrip (stdout cp2))
  ∧ (∀ (v v1 : World E) (cp : CompletedProcess) (e : E) (user_output : str),
       subprocess_run capture_main_cmd (env v) = (Ok cp, e) →
       get_tmux_output session_id (set_env e (log (Run capture_main_cmd) v))
       = (Ok user_output, v1) →
       monitor_capture session_id v
       = (Ok (if len user_output <? len (stdout cp) then stdout cp else user_output),
          v1)).
Proof.
  intros Hmain Huser Hten. split.
  - rewrite get_tmux_output_spec, Hmain. simpl. rewrite Huser. simpl.
    f_equal. by apply get_tmux_output_text_select.
  - intros v v1 cp e user_output Hcapture Hget. unfold monitor_capture.
    rewrite (bind_ok _ _ _ _ _ (run_ok _ _ _ _ Hcapture)).
    by rewrite (bind_ok _ _ _ _ _ Hget).
Qed.

(** The example of the specification: main ["AAAAA"], mirror
    ["AAAAAAAAAA"]; the mirror is returned, by [get_tmux_output] and by the
    capture of the poller. *)
Lemma C1_main_only_if_strictly_longer_witness :
  let w := init_world (Scenarios.two_panes (py "AAAAA") (py "AAAAAAAAAA")) in
  (get_tmux_output (py "s1") w).1 = Ok (py "AAAAAAAAAA")
  ∧ (monitor_capture (py "s1") w).1 = Ok (py "AAAAAAAAAA").
Proof.
  intros w.
  assert (subprocess_run capture_main_cmd (env w)
          = (Ok {| returncode := 0; stdout := py "AAAAA" |}, env w)) as Hmain
    by (vm_compute; reflexivity).
  assert (subprocess_run (capture_user_cmd (py "s1")) (env w)
          = (Ok {| returncode := 0; stdout := py "AAAAAAAAAA" |}, env w)) as Huser
    by (vm_compute; reflexivity).
  destruct (C1_main_only_if_strictly_longer w (py "s1") _ _ _ _ Hmain Huser)
    as [Hget Hpoll].
  { right. vm_compute. lia. }
  split.
  - rewrite Hget. vm_compute. reflexivity.
  - destruct (get_tmux_output (py "s1") (set_env (env w) (log (Run capture_main_cmd) w)))
      as [r v1] eqn:Hcall.
    assert (r = Ok (py "AAAAAAAAAA")) as ->
      by (apply (f_equal fst) in Hcall; vm_compute in Hcall; by subst r).
    rewrite (Hpoll w v1 _ _ _ Hmain Hcall). vm_compute. reflexivity.
Defined.

(** C1, the tie: two snapshots of equal trimmed length and different text;
    the mirror is returned, not the main snapshot. *)
Lemma C1_tie_returns_mirror :
  let main := py "AAAAAAAAAA" in
  let mirror := py "BBBBBBBBBB" in
  len (strip main) = len (strip mirror)
  ∧ (get_tmux_output (py "s1") (init_world (Scenarios.two_panes main mirror))).1
    = Ok mirror
  ∧ mirror ≠ main.
Proof. vm_compute. by repeat split. Qed.

(** ** C3: what a failed capture returns *)

(** C3 (as amended).  Neither snapshot function raises and neither ever
    returns the empty string.  When a capture command raises, the answer is
    the error text of the function, which carries the exception; when the
    capture has fewer than ten visible characters (for a user session: when
    both captures have), as it has for a session that does not exist, where
    tmux prints nothing, the answer is the trimmed placeholder text. *)
Theorem C3_snapshot_never_empty {E : Type} `{Env E} (w : World E) (name : str) :
  (∃ out, (get_project_tmux_output name w).1 = Ok out ∧ out ≠ [])
  ∧ (∃ out, (get_tmux_output name w).1 = Ok out ∧ out ≠ [])
  ∧ (∀ e e1, subprocess_run (project_capture_cmd name) (env w) = (Raise e, e1) →
       (get_project_tmux_output name w).1 = Ok (project_terminal_error e))
  ∧ (∀ cp e1, subprocess_run (project_capture_cmd name) (env w) = (Ok cp, e1) →
       len (strip (stdout cp)) < 10 →
       (get_project_tmux_output name w).1 = Ok (rstrip (project_placeholder name)))
  ∧ (∀ e e1, subprocess_run capture_main_cmd (env w) = (Raise e, e1) →
       (get_tmux_output name w).1 = Ok (terminal_error e))
  ∧ (∀ cp1 e1 e e2,
       subprocess_run capture_main_cmd (env w) = (Ok cp1, e1) →
       subprocess_run (capture_user_cmd name) e1 = (Raise e, e2) →
       (get_tmux_output name w).1 = Ok (terminal_error e))
  ∧ (∀ cp1 e1 cp2 e2,
       subprocess_run capture_main_cmd (env w) = (Ok cp1, e1) →
       subprocess_run (capture_user_cmd name) e1 = (Ok cp2, e2) →
       len (strip (stdout cp1)) < 10 → len (strip (stdout cp2)) < 10 →
       (get_tmux_output name w).1 = Ok (rstrip default_message))
  ∧ (∀ e, project_terminal_error e
          = py "Erreur de connexion au terminal du projet." ++ nl ++
            py "D" ++ e_acute ++ py "tails: " ++ e)
  ∧ (∀ e, terminal_error e
          = py "Erreur de connexion au terminal." ++ nl ++
            py "D" ++ e_acute ++ py "tails: " ++ e ++ nl ++ nl ++
            py "R" ++ e_acute ++ py "essayez ou rechargez la page.").
Proof.
  repeat split.
  - rewrite get_project_tmux_output_spec.
    destruct (subprocess_run _ _) as [[cp|e] e1]; simpl.
    + eexists; split; [done|].
      destruct (len (strip (stdout cp)) <? 10) eqn:Hshort.
      * apply project_placeholder_visible.
      * apply rstrip_nonempty. apply Nat.ltb_ge in Hshort. lia.
    + eexists; split; [done|]. apply project_terminal_error_nonempty.
  - rewrite get_tmux_output_spec.
    destruct (subprocess_run _ _) as [[cp1|e] e1]; simpl.
    + destruct (subprocess_run _ _) as [[cp2|e] e2]; simpl.
      * eexists; split; [done|]. apply get_tmux_output_text_nonempty.
      * eexists; split; [done|]. apply terminal_error_nonempty.
    + eexists; split; [done|]. apply terminal_error_nonempty.
  - intros e e1 Hr. by rewrite get_project_tmux_output_spec, Hr.
  - intros cp e1 Hr Hshort. rewrite get_project_tmux_output_spec, Hr. simpl.
    by apply Nat.ltb_lt in Hshort as ->.
  - intros e e1 Hr. by rewrite get_tmux_output_spec, Hr.
  - intros cp1 e1 e e2 Hr1 Hr2. rewrite get_tmux_output_spec, Hr1. simpl.
    by rewrite Hr2.
  - intros cp1 e1 cp2 e2 Hr1 Hr2 Hshort1 Hshort2.
    rewrite get_tmux_output_spec, Hr1. simpl. rewrite Hr2. simpl.
    unfold get_tmux_output_text.
    apply Nat.ltb_lt in Hshort1, Hshort2.
    destruct (len (strip (stdout cp2)) <? len (strip (stdout cp1)));
      by rewrite ?Hshort1, ?Hshort2.
Qed.

(** A raising capture (no process can be spawned) and a capture of a
    session that does not exist, on the reference server. *)
Lemma C3_snapshot_never_empty_witness :
  (get_project_tmux_output (py "claude_project_demo")
     (init_world Scenarios.exhausted_server)).1
  = Ok (project_terminal_error (py "[Errno 12] Cannot allocate memory"))
  ∧ (get_project_tmux_output (py "claude_project_demo")
       (init_world Scenarios.fresh_server)).1
    = Ok (rstrip (project_placeholder (py "claude_project_demo")))
  ∧ (get_tmux_output (py "s1") (init_world Scenarios.exhausted_server)).1
    = Ok (terminal_error (py "[Errno 12] Cannot allocate memory"))
  ∧ (get_tmux_output (py "s1") (init_world Scenarios.fresh_server)).1
    = Ok (rstrip default_message).
Proof.
  destruct (C3_snapshot_never_empty (init_world Scenarios.exhausted_server)
              (py "claude_project_demo")) as (_ & _ & Hraise & _).
  destruct (C3_snapshot_never_empty (init_world Scenarios.fresh_server)
              (py "claude_project_demo")) as (_ & _ & _ & Hshort & _).
  destruct (C3_snapshot_never_empty (init_world Scenarios.exhausted_server)
              (py "s1")) as (_ & _ & _ & _ & Hraise_user & _).
  destruct (C3_snapshot_never_empty (init_world Scenarios.fresh_server)
              (py "s1")) as (_ & _ & _ & _ & _ & _ & Hshort_user & _).
  split; [|split; [|split]].
  - eapply Hraise. vm_compute. reflexivity.
  - eapply Hshort; [vm_compute; reflexivity|vm_compute; lia].
  - eapply Hraise_user. vm_compute. reflexivity.
  - eapply Hshort_user;
      [vm_compute; reflexivity|vm_compute; reflexivity
      |vm_compute; lia|vm_compute; lia].
Defined.

(** C3, the claim refuted: capturing a session that does not exist returns
    the placeholder text, and a raising capture returns an error text;
    neither is the empty string. *)
Lemma C3_failed_capture_not_empty :
  (get_project_tmux_output (py "claude_project_demo")
     (init_world Scenarios.fresh_server)).1
  ≠ Ok []
  ∧ (get_project_tmux_output (py "claude_project_demo")
       (init_world Scenarios.exhausted_server)).1
    ≠ Ok []
  ∧ (get_tmux_output (py "s1") (init_world Scenarios.exhausted_server)).1
    ≠ Ok [].
Proof. vm_compute. by repeat split. Qed.

(** ** Quoting: what the shell makes of an escaped message *)

Section Quoting.
Import Shell.

(** A run of plain characters joins the word being read. *)
Lemma lex_plain (s rest : str) (q : bool) (t : str) :
  Forall (λ c, is_plain c = true) s →
  lex false (Some (q, t)) (s ++ rest) = lex false (Some (q, t ++ s)) rest.
Proof.
  revert t. induction s as [|c s IH]; intros t Hs; simpl.
  - by rewrite app_nil_r.
  - inversion Hs as [|? ? Hc Hs']; subst.
    unfold is_plain in Hc. apply negb_true_iff in Hc.
    apply orb_false_iff in Hc as [Hc Hop].
    apply orb_false_iff in Hc as [Hc Hmeta].
    apply orb_false_iff in Hc as [Hc Hblank].
    apply orb_false_iff in Hc as [Hsq Hbs].
    rewrite Hsq, Hbs, Hblank, Hmeta, Hop. simpl.
    rewrite orb_false_r, IH by done. by rewrite <- app_assoc.
Qed.

(** A plain word read from between two words. *)
Lemma lex_plain_word (s rest : str) :
  s ≠ [] → Forall (λ c, is_plain c = true) s →
  lex false None (s ++ rest) = lex false (Some (false, s)) rest.
Proof.
  intros Hne Hs. destruct s as [|c s]; [done|].
  inversion Hs as [|? ? Hc Hs']; subst. simpl.
  unfold is_plain in Hc. apply negb_true_iff in Hc.
  apply orb_false_iff in Hc as [Hc Hop].
  apply orb_false_iff in Hc as [Hc Hmeta].
  apply orb_false_iff in Hc as [Hc Hblank].
  apply orb_false_iff in Hc as [Hsq Hbs].
  rewrite Hsq, Hbs, Hblank, Hmeta, Hop. simpl.
  exact (lex_plain s rest false [c] Hs').
Qed.

(** Inside single quotes, the escaped form of [msg] reads as [msg]: every
    character stands for itself, and a quote of [msg], written as the four
    characters quote, backslash, quote, quote, leaves the quotes, adds
    one quote character and enters them again. *)
Lemma lex_escape (msg rest t : str) :
  lex true (Some (true, t)) (escape msg ++ rest)
  = lex true (Some (true, t ++ msg)) rest.
Proof.
  revert t. induction msg as [|c msg IH]; intros t.
  - by rewrite app_nil_r.
  - unfold escape, replace_char in *. simpl.
    destruct (c =? sq)%N eqn:Hc.
    + apply N.eqb_eq in Hc as ->. simpl.
      rewrite IH. by rewrite <- app_assoc.
    + simpl. rewrite Hc. simpl. rewrite IH. by rewrite <- app_assoc.
Qed.

(** The command line of [send_to_project_tmux] for a session name of plain
    characters: six words, the fifth being the message with the four
    characters [ C-m] after it. *)
Lemma send_to_project_words (session_name command : str) :
  session_name ≠ [] → Forall (λ c, is_plain c = true) session_name →
  words (py "tmux send-keys -t " ++ session_name ++ py " '" ++
         escape command ++ py " C-m' C-m")
  = Some [bare "tmux"; bare "send-keys"; bare "-t"; Word false session_name;
          Word true (command ++ py " C-m"); bare "C-m"].
Proof.
  intros Hne Hplain. unfold words. simpl.
  rewrite (lex_plain_word session_name) by done. simpl.
  rewrite (lex_escape command _ []). simpl.
  by rewrite <- !app_assoc.
Qed.

(** The command lines of [send_to_tmux]: the quoted word is the message
    itself. *)
Lemma send_to_tmux_words (command : str) :
  words (MAIN_KEYS ++ py "'" ++ escape command ++ py "' C-m")
  = Some [bare "tmux"; bare "-S"; bare "/tmp/tmux-0/default"; bare "send-keys";
          bare "-t"; bare "claude-code-session"; Word true command; bare "C-m"].
Proof.
  unfold words. simpl.
  rewrite (lex_escape command _ []). by simpl.
Qed.

(** *** The command lines that name a user session *)

Lemma is_name_plain s : is_name s → Forall (λ c, is_plain c = true) s.
Proof. intros Hs. eapply Forall_impl; [exact Hs|]. by intros c [Hc _]%andb_true_iff. Qed.

Lemma words_kill_user (sid : str) :
  is_name sid →
  words (py "tmux kill-session -t claude_" ++ sid ++ py " 2>/dev/null || true")
  = Some [bare "tmux"; bare "kill-session"; bare "-t"; Word false (py "claude_" ++ sid);
          Operator (py "2>"); bare "/dev/null";
          Operator (py "||"); bare "true"].
Proof.
  intros Hs%is_name_plain. unfold words.
  transitivity
    ((bare "tmux" ::.) <$> ((bare "kill-session" ::.) <$> ((bare "-t" ::.) <$> (lex false (Some (false, py "claude_"))
       (sid ++ py " 2>/dev/null || true"))))); [by vm_compute|].
  rewrite lex_plain by done. by vm_compute.
Qed.

Lemma words_new_user (sid : str) :
  is_name sid →
  words (py "TMUX= tmux -S /tmp/tmux-0/default new-session -d -s claude_" ++ sid ++
         py " -t claude-code-session")
  = Some [bare "TMUX="; bare "tmux"; bare "-S"; bare "/tmp/tmux-0/default";
          bare "new-session"; bare "-d"; bare "-s"; Word false (py "claude_" ++ sid);
          bare "-t"; bare "claude-code-session"].
Proof.
  intros Hs%is_name_plain. unfold words.
  transitivity
    ((bare "TMUX=" ::.) <$> ((bare "tmux" ::.) <$> ((bare "-S" ::.) <$> ((bare "/tmp/tmux-0/default" ::.) <$> ((bare "new-session" ::.) <$> ((bare "-d" ::.) <$> ((bare "-s" ::.) <$> (lex false (Some (false, py "claude_"))
       (sid ++ py " -t claude-code-session"))))))))); [by vm_compute|].
  rewrite lex_plain by done. by vm_compute.
Qed.

Lemma words_keys_user (sid : str) :
  is_name sid →
  words (py "tmux -S /tmp/tmux-0/default send-keys -t claude_" ++ sid ++ py " ' ' C-h")
  = Some [bare "tmux"; bare "-S"; bare "/tmp/tmux-0/default"; bare "send-keys";
          bare "-t"; Word false (py "claude_" ++ sid); Word true (py " "); bare "C-h"].
Proof.
  intros Hs%is_name_plain. unfold words.
  transitivity
    ((bare "tmux" ::.) <$> ((bare "-S" ::.) <$> ((bare "/tmp/tmux-0/default" ::.) <$> ((bare "send-keys" ::.) <$> ((bare "-t" ::.) <$> (lex false (Some (false, py "claude_")) (sid ++ py " ' ' C-h")))))));
    [by vm_compute|].
  rewrite lex_plain by done. by vm_compute.
Qed.

Lemma words_capture_user (sid : str) :
  is_name sid →
  words (capture_user_cmd sid)
  = Some [bare "tmux"; bare "-S"; bare "/tmp/tmux-0/default"; bare "capture-pane";
          bare "-p"; bare "-S"; bare "-1000"; bare "-t"; Word false (py "claude_" ++ sid)].
Proof.
  intros Hs%is_name_plain. unfold words.
  transitivity
    ((bare "tmux" ::.) <$> ((bare "-S" ::.) <$> ((bare "/tmp/tmux-0/default" ::.) <$> ((bare "capture-pane" ::.) <$> ((bare "-p" ::.) <$> ((bare "-S" ::.) <$> ((bare "-1000" ::.) <$> ((bare "-t" ::.) <$> (lex false (Some (false, py "claude_")) sid))))))))); [by vm_compute|].
  rewrite <- (app_nil_r sid) at 1. rewrite lex_plain by done. by vm_compute.
Qed.

Lemma parse_kill_user (sid : str) :
  is_name sid →
  TmuxModel.parse_line (py "tmux kill-session -t claude_" ++ sid ++ py " 2>/dev/null || true")
  = Some ([py "tmux"; py "kill-session"; py "-t"; user_session sid],
          [(TmuxModel.OrIf, [py "true"])]).
Proof.
  intros Hs. unfold TmuxModel.parse_line. rewrite words_kill_user by done. simpl.
  done.
Qed.

Lemma parse_new_user (sid : str) :
  is_name sid →
  TmuxModel.parse_line (py "TMUX= tmux -S /tmp/tmux-0/default new-session -d -s claude_" ++ sid ++
              py " -t claude-code-session")
  = Some ([py "tmux"; py "-S"; py "/tmp/tmux-0/default"; py "new-session"; py "-d";
           py "-s"; user_session sid; py "-t"; py "claude-code-session"], []).
Proof.
  intros Hs. unfold TmuxModel.parse_line. rewrite words_new_user by done. simpl.
  done.
Qed.

Lemma parse_keys_user (sid : str) :
  is_name sid →
  TmuxModel.parse_line (py "tmux -S /tmp/tmux-0/default send-keys -t claude_" ++ sid ++ py " ' ' C-h")
  = Some ([py "tmux"; py "-S"; py "/tmp/tmux-0/default"; py "send-keys"; py "-t";
           user_session sid; py " "; py "C-h"], []).
Proof.
  intros Hs. unfold TmuxModel.parse_line. rewrite words_keys_user by done. simpl.
  done.
Qed.

Lemma parse_capture_user (sid : str) :
  is_name sid →
  TmuxModel.parse_line (capture_user_cmd sid)
  = Some ([py "tmux"; py "-S"; py "/tmp/tmux-0/default"; py "capture-pane"; py "-p";
           py "-S"; py "-1000"; py "-t"; user_session sid], []).
Proof.
  intros Hs. unfold TmuxModel.parse_line. rewrite words_capture_user by done. simpl.
  done.
Qed.

End Quoting.

(** From here on the literals of the source are kept as written. *)
Arguments py : simpl never.

(** ** Relating the world before and after a call

    [rel R m]: whatever [m] returns or raises, the world it leaves is
    related by [R] to the world it started in.  The classes below say which
    kinds of update a relation does not see; a call built from such updates
    is then related by [R] as a whole. *)

Section Rel.

Context {E : Type} `{Env E}.
Implicit Types (w : World E).

Definition rel (R : relation (World E)) {A} (m : M (World E) A) : Prop :=
  ∀ w, R w (m w).2.

(** The same for a function with a local variable. *)
Definition rel_l (R : relation (World E)) {L A} (m : M (World E * L) A) : Prop :=
  ∀ s, R s.1 (m s).2.1.

(** Process calls, sleeps and the environment. *)
Class EnvBlind (R : relation (World E)) := {
  blind_env : ∀ e w, R w (set_env e w);
  blind_run : ∀ cmd w, R w (log (Run cmd) w);
  blind_sleep : ∀ ms w, R w (log (Sleep ms) w);
}.
(** A message [ev] sent to [room]; any message sent. *)
Class SendBlind (R : relation (World E)) (ev room : str) :=
  blind_send : ∀ d w, R w (log (Emit ev d room (members room w)) w).
Class EmitBlind (R : relation (World E)) :=
  blind_emit : ∀ ev room, SendBlind R ev room.
(** Connection [sid] entering [room]; any change of the rooms. *)
Class EnterBlind (R : relation (World E)) (sid room : str) :=
  blind_enter : ∀ w,
    R w (set_rooms (<[room := members room w ∪ {[sid]}]> (rooms w)) w).
Class RoomsBlind (R : relation (World E)) :=
  blind_rooms : ∀ m w, R w (set_rooms m w).
(** The session registries. *)
Class RegistryBlind (R : relation (World E)) := {
  blind_active : ∀ m w, R w (set_active_sessions m w);
  blind_projects : ∀ m w, R w (set_project_sessions m w);
}.
(** Starting the thread [t] under [key] when the poller registry has no
    [key]. *)
Class StartGuard (R : relation (World E)) (key : str) (t : thread) :=
  start_guard : ∀ w,
    has_key (output_threads w) key = false →
    R w (log (Start key t) (set_output_threads (<[key := t]> (output_threads w)) w)).

#[export] Instance emit_send_blind R ev room : EmitBlind R → SendBlind R ev room.
Proof. intros HR. apply HR. Qed.

#[export] Instance rooms_enter_blind R sid room : RoomsBlind R → EnterBlind R sid room.
Proof. intros HR w. apply HR. Qed.

Section Rules.

Context (R : relation (World E)) `{!PreOrder R}.

Lemma rel_ret {A} (a : A) : rel R (mret a).
Proof. intros w. simpl. reflexivity. Qed.

Lemma rel_raise {A} (e : str) : rel R (raise (A:=A) e).
Proof. intros w. simpl. reflexivity. Qed.

Lemma rel_gets {A} (f : World E → A) : rel R (gets f).
Proof. intros w. simpl. reflexivity. Qed.

Lemma rel_bind {A B} (m : M (World E) A) (k : A → M (World E) B) :
  rel R m → (∀ a, rel R (k a)) → rel R (m ≫= k).
Proof.
  intros Hm Hk w. unfold mbind, M_bind. specialize (Hm w).
  destruct (m w) as [[a|e] w1]; simpl in *; [|done].
  etrans; [exact Hm|apply Hk].
Qed.

Lemma rel_try {A} (body : M (World E) A) (handler : str → M (World E) A) :
  rel R body → (∀ e, rel R (handler e)) → rel R (try_except body handler).
Proof.
  intros Hm Hk w. unfold try_except. specialize (Hm w).
  destruct (body w) as [[a|e] w1]; simpl in *; [done|].
  etrans; [exact Hm|apply Hk].
Qed.

Lemma rel_run `{!EnvBlind R} (cmd : str) : rel R (run cmd).
Proof.
  intros w. unfold run. destruct (subprocess_run cmd (env w)) as [r e].
  simpl. etrans; [apply (blind_run cmd)|apply blind_env].
Qed.

Lemma rel_sleep `{!EnvBlind R} (ms : N) : rel R (sleep ms).
Proof. intros w. apply blind_sleep. Qed.

Lemma rel_makedirs `{!EnvBlind R} (path : str) : rel R (makedirs path).
Proof.
  intros w. unfold makedirs. destruct (os_makedirs path (env w)) as [r e].
  apply blind_env.
Qed.

Lemma rel_new_uuid `{!EnvBlind R} : rel R new_uuid.
Proof.
  intros w. unfold new_uuid. destruct (uuid4 (env w)) as [u e].
  apply blind_env.
Qed.

Lemma rel_socketio_emit (ev : str) d (room : str) `{!SendBlind R ev room} :
  rel R (socketio_emit ev d room).
Proof. intros w. apply blind_send. Qed.

Lemma rel_join_room (sid room : str) `{!EnterBlind R sid room} :
  rel R (join_room sid room).
Proof. intros w. apply blind_enter. Qed.

Lemma rel_active_sessions_set `{!RegistryBlind R} (session_id user_id : str) :
  rel R (active_sessions_set session_id user_id).
Proof. intros w. apply blind_active. Qed.

Lemma rel_project_sessions_set `{!RegistryBlind R} (session_name session_id : str) :
  rel R (project_sessions_set session_name session_id).
Proof. intros w. apply blind_projects. Qed.

Lemma rel_project_sessions_del `{!RegistryBlind R} (session_name : str) :
  rel R (project_sessions_del session_name).
Proof. intros w. apply blind_projects. Qed.

(** The guarded start at the end of [handle_join] and
    [handle_join_project]. *)
Lemma rel_start_once (key : str) (t : thread) `{!StartGuard R key t} :
  rel R (polled ← gets (λ w, has_key (output_threads w) key);
         if polled : bool then mret tt else start_thread key t).
Proof.
  intros w. unfold mbind, M_bind, gets. simpl.
  destruct (has_key (output_threads w) key) eqn:Hkey; simpl.
  - reflexivity.
  - by apply start_guard.
Qed.

Lemma rel_l_ret {L A} (a : A) : rel_l R (L:=L) (mret a).
Proof. intros s. simpl. reflexivity. Qed.

Lemma rel_l_gets {L A} (f : World E * L → A) : rel_l R (gets f).
Proof. intros s. simpl. reflexivity. Qed.

Lemma rel_l_set_local {L} (l : L) : rel_l R (set_local l).
Proof. intros s. simpl. reflexivity. Qed.

Lemma rel_l_global {L A} (m : M (World E) A) : rel R m → rel_l R (L:=L) (global m).
Proof.
  intros Hm [w l]. unfold global. specialize (Hm w).
  by destruct (m w) as [r w1].
Qed.

Lemma rel_l_bind {L A B} (m : M (World E * L) A) (k : A → M (World E * L) B) :
  rel_l R m → (∀ a, rel_l R (k a)) → rel_l R (m ≫= k).
Proof.
  intros Hm Hk s. unfold mbind, M_bind. specialize (Hm s).
  destruct (m s) as [[a|e] s1]; simpl in *; [|done].
  etrans; [exact Hm|apply Hk].
Qed.

Lemma rel_l_try {L A} (body : M (World E * L) A)
    (handler : str → M (World E * L) A) :
  rel_l R body → (∀ e, rel_l R (handler e)) → rel_l R (try_except body handler).
Proof.
  intros Hm Hk s. unfold try_except. specialize (Hm s).
  destruct (body s) as [[a|e] s1]; simpl in *; [done|].
  etrans; [exact Hm|apply Hk].
Qed.

End Rules.

Lemma rel_weaken (R R' : relation (World E)) {A} (m : M (World E) A) :
  (∀ w w', R w w' → R' w w') → rel R m → rel R' m.
Proof. intros HR Hm w. apply HR, Hm. Qed.

(** The relation "the view [f] of the world is unchanged". *)
Definition same {X} (f : World E → X) : relation (World E) :=
  λ w w', f w' = f w.

#[export] Instance same_preorder {X} (f : World E → X) : PreOrder (same f).
Proof.
  split.
  - by intros w.
  - intros w1 w2 w3 H12 H23. unfold same in *. congruence.
Qed.

End Rel.

(** One step in proving [rel R m] by the structure of [m]. *)
Ltac rel_step :=
  lazymatch goal with
  | |- rel _ (mret _) => apply rel_ret; tc_solve
  | |- rel _ (raise _) => apply rel_raise; tc_solve
  | |- rel _ (gets (λ w, has_key (output_threads w) _) ≫= _) =>
      apply rel_start_once; tc_solve
  | |- rel _ (gets _) => apply rel_gets; tc_solve
  | |- rel _ (_ ≫= _) => apply rel_bind; [tc_solve| |intros ?]
  | |- rel _ (try_except _ _) => apply rel_try; [tc_solve| |intros ?]
  | |- rel _ (if ?b then _ else _) => destruct b
  | |- rel _ (match ?o with Some _ => _ | None => _ end) => destruct o
  | |- rel _ (run _) => apply rel_run; tc_solve
  | |- rel _ (sleep _) => apply rel_sleep; tc_solve
  | |- rel _ (makedirs _) => apply rel_makedirs; tc_solve
  | |- rel _ new_uuid => apply rel_new_uuid; tc_solve
  | |- rel _ (path_exists _) => apply rel_gets; tc_solve
  | |- rel _ (verify_token _) => apply rel_gets; tc_solve
  | |- rel _ (socketio_emit _ _ _) => apply rel_socketio_emit; tc_solve
  | |- rel _ (emit _ _ _) => apply rel_socketio_emit; tc_solve
  | |- rel _ (join_room _ _) => apply rel_join_room; tc_solve
  | |- rel _ (handle_connect _) => apply rel_join_room; tc_solve
  | |- rel _ (handle_disconnect _) => apply rel_ret; tc_solve
  | |- rel _ (active_sessions_set _ _) => apply rel_active_sessions_set; tc_solve
  | |- rel _ (project_sessions_set _ _) => apply rel_project_sessions_set; tc_solve
  | |- rel _ (project_sessions_del _) => apply rel_project_sessions_del; tc_solve
  | |- rel _ (get_tmux_output _) => unfold get_tmux_output
  | |- rel _ (create_tmux_session _) => unfold create_tmux_session
  | |- rel _ (send_to_tmux _ _) => unfold send_to_tmux
  | |- rel _ (monitor_capture _) => unfold monitor_capture
  | |- rel _ (configure_project _ _ _) => unfold configure_project
  | |- rel _ (get_or_create_project_session _) => unfold get_or_create_project_session
  | |- rel _ (cleanup_project_session _) => unfold cleanup_project_session
  | |- rel _ (get_project_tmux_output _) => unfold get_project_tmux_output
  | |- rel _ (send_to_project_tmux _ _) => unfold send_to_project_tmux
  | |- rel _ (stop_project_services _) => unfold stop_project_services
  | |- rel _ (handle_join _ _) => unfold handle_join
  | |- rel _ (handle_message _ _) => unfold handle_message
  | |- rel _ (handle_join_project _ _) => unfold handle_join_project
  | |- rel _ (handle_project_message _ _) => unfold handle_project_message
  | |- rel _ (new_session _) => unfold new_session
  | |- rel _ (create_project_session _ _) => unfold create_project_session
  | |- rel _ (delete_project _ _) => unfold delete_project
  | |- rel_l _ (mret _) => apply rel_l_ret; tc_solve
  | |- rel_l _ (gets _) => apply rel_l_gets; tc_solve
  | |- rel_l _ get_local => apply rel_l_gets; tc_solve
  | |- rel_l _ (set_local _) => apply rel_l_set_local; tc_solve
  | |- rel_l _ (global _) => apply rel_l_global
  | |- rel_l _ (_ ≫= _) => apply rel_l_bind; [tc_solve| |intros ?]
  | |- rel_l _ (try_except _ _) => apply rel_l_try; [tc_solve| |intros ?]
  | |- rel_l _ (if ?b then _ else _) => destruct b
  | |- rel_l _ (monitor_tmux_output_first _ _) => unfold monitor_tmux_output_first
  | |- rel_l _ (monitor_tmux_output_tick _ _) => unfold monitor_tmux_output_tick
  | |- rel_l _ (monitor_project_tmux_output_tick _ _ _) =>
      unfold monitor_project_tmux_output_tick
  end.

Ltac rel_auto := repeat (cbv zeta; rel_step).

Section RelFacts.

Context {E : Type} `{Env E}.
Context (R : relation (World E)) `{!PreOrder R, !EnvBlind R}.

(** Calls that only run processes and sleep. *)
Lemma rel_get_tmux_output (session_id : str) : rel R (get_tmux_output session_id).
Proof. rel_auto. Qed.

Lemma rel_create_tmux_session (session_id : str) :
  rel R (create_tmux_session session_id).
Proof. rel_auto. Qed.

Lemma rel_send_to_tmux (session_id command : str) :
  rel R (send_to_tmux session_id command).
Proof. rel_auto. Qed.

Lemma rel_monitor_capture (session_id : str) : rel R (monitor_capture session_id).
Proof. rel_auto. Qed.

Lemma rel_get_project_tmux_output (session_name : str) :
  rel R (get_project_tmux_output session_name).
Proof. rel_auto. Qed.

(** The handlers: every update they make is one of the kinds above. *)
Lemma rel_handle_join (sid : str) (data : join_data)
    `{!EmitBlind R, !EnterBlind R sid sid, !RegistryBlind R,
      !StartGuard R (j_session_id data) (MonitorTmux (j_session_id data) sid)} :
  rel R (handle_join sid data).
Proof. rel_auto. Qed.

Lemma rel_handle_join_project (sid : str) (data : join_project_data)
    `{!EmitBlind R, !EnterBlind R sid (project_room (jp_project_id data)),
      !StartGuard R (project_session_name (jp_project_id data))
         (MonitorProject (project_session_name (jp_project_id data))
            (jp_project_id data) sid)} :
  rel R (handle_join_project sid data).
Proof. rel_auto. Qed.

Lemma rel_handle_message (sid : str) (data : message_data) `{!EmitBlind R} :
  rel R (handle_message sid data).
Proof. rel_auto. Qed.

Lemma rel_handle_project_message (sid : str) (data : project_message_data)
    `{!EmitBlind R} :
  rel R (handle_project_message sid data).
Proof. rel_auto. Qed.

Lemma rel_new_session (token : str) `{!RegistryBlind R} : rel R (new_session token).
Proof. rel_auto. Qed.

Lemma rel_create_project_session (token project_id : str) `{!RegistryBlind R} :
  rel R (create_project_session token project_id).
Proof. rel_auto. Qed.

Lemma rel_delete_project (token project_id : str) `{!RegistryBlind R} :
  rel R (delete_project token project_id).
Proof. rel_auto. Qed.

(** The pollers. *)
Lemma rel_monitor_tmux_output_tick (session_id client_id : str)
    `{!SendBlind R (py "tmux_output") client_id} :
  rel_l R (monitor_tmux_output_tick session_id client_id).
Proof. rel_auto. Qed.

Lemma rel_monitor_tmux_output_loop (ticks : nat) (session_id client_id : str)
    `{!SendBlind R (py "tmux_output") client_id} :
  rel_l R (monitor_tmux_output_loop ticks session_id client_id).
Proof. induction ticks as [|n IH]; simpl; rel_auto; apply IH. Qed.

Lemma rel_monitor_tmux_output (ticks : nat) (session_id client_id : str)
    `{!SendBlind R (py "tmux_output") client_id} :
  rel_l R (monitor_tmux_output ticks session_id client_id).
Proof.
  unfold monitor_tmux_output. rel_auto.
  by apply rel_monitor_tmux_output_loop.
Qed.

End RelFacts.

(** ** Views of the world and the updates they do not see *)

Section Views.

Context {E : Type} `{Env E}.
Implicit Types (w : World E).

Lemma starts_snoc (t : list effect) (x : effect) :
  starts (t ++ [x]) = starts t ++ match x with Start key _ => [key] | _ => [] end.
Proof. unfold starts. rewrite omap_app. by destruct x. Qed.

Lemma published_snoc (event : str) (t : list effect) (x : effect) :
  published event (t ++ [x])
  = published event t ++
    match x with
    | Emit ev data _ _ => if decide (ev = event) then [data] else []
    | _ => []
    end.
Proof.
  unfold published. rewrite omap_app. destruct x; try done.
  simpl. by destruct (decide (event0 = event)).
Qed.

Lemma sent_elsewhere_snoc (room : str) (t : list effect) (x : effect) :
  sent_elsewhere room (t ++ [x])
  = sent_elsewhere room t ++
    match x with
    | Emit _ _ r _ => if decide (r = room) then [] else [x]
    | _ => []
    end.
Proof.
  unfold sent_elsewhere. rewrite omap_app. destruct x; try done.
  simpl. by destruct (decide (room0 = room)).
Qed.

(** A relation coarser than one that does not see an update does not see
    it either. *)
Lemma env_blind_coarser (R R' : relation (World E)) :
  (∀ w w', R w w' → R' w w') → EnvBlind R → EnvBlind R'.
Proof. intros HR HB. split; intros; apply HR, HB. Qed.

Lemma emit_blind_coarser (R R' : relation (World E)) :
  (∀ w w', R w w' → R' w w') → EmitBlind R → EmitBlind R'.
Proof. intros HR HB ev room d w. apply HR, HB. Qed.

Lemma rooms_blind_coarser (R R' : relation (World E)) :
  (∀ w w', R w w' → R' w w') → RoomsBlind R → RoomsBlind R'.
Proof. intros HR HB m w. apply HR, HB. Qed.

Lemma registry_blind_coarser (R R' : relation (World E)) :
  (∀ w w', R w w' → R' w w') → RegistryBlind R → RegistryBlind R'.
Proof. intros HR HB. split; intros; apply HR, HB. Qed.

(** *** The pollers started *)

#[export] Instance threads_view_env : EnvBlind (same threads_view).
Proof.
  split; intros; unfold same, threads_view; simpl; try done.
  all: by rewrite starts_snoc, app_nil_r.
Qed.

#[export] Instance threads_view_emit : EmitBlind (same threads_view).
Proof.
  intros ev room d w. unfold same, threads_view. simpl.
  by rewrite starts_snoc, app_nil_r.
Qed.

#[export] Instance threads_view_rooms : RoomsBlind (same threads_view).
Proof. by intros m w. Qed.

#[export] Instance threads_view_registry : RegistryBlind (same threads_view).
Proof. by split. Qed.

Lemma threads_inv_view w w' :
  threads_view w' = threads_view w → threads_inv w → threads_inv w'.
Proof.
  unfold threads_view, threads_inv. intros [= Hthreads Hstarts].
  by rewrite Hthreads, Hstarts.
Qed.

(** "The invariant holds after if it held before." *)
Definition keeps_threads_inv : relation (World E) :=
  λ w w', threads_inv w → threads_inv w'.

#[export] Instance keeps_threads_inv_preorder : PreOrder keeps_threads_inv.
Proof.
  split.
  - intros w Hinv. exact Hinv.
  - intros w1 w2 w3 H12 H23 Hinv. by apply H23, H12.
Qed.

Lemma same_view_keeps_inv w w' : same threads_view w w' → keeps_threads_inv w w'.
Proof. intros Hsame Hinv. by eapply threads_inv_view. Qed.

#[export] Instance keeps_threads_inv_env : EnvBlind keeps_threads_inv :=
  env_blind_coarser _ _ same_view_keeps_inv _.
#[export] Instance keeps_threads_inv_emit : EmitBlind keeps_threads_inv :=
  emit_blind_coarser _ _ same_view_keeps_inv _.
#[export] Instance keeps_threads_inv_rooms : RoomsBlind keeps_threads_inv :=
  rooms_blind_coarser _ _ same_view_keeps_inv _.
#[export] Instance keeps_threads_inv_registry : RegistryBlind keeps_threads_inv :=
  registry_blind_coarser _ _ same_view_keeps_inv _.

Lemma has_key_insert {V} (d : gmap str V) (k k' : str) (v : V) :
  has_key (<[k := v]> d) k' = if decide (k = k') then true else has_key d k'.
Proof.
  unfold has_key. destruct (decide (k = k')) as [->|Hne].
  - by rewrite lookup_insert_eq.
  - by rewrite lookup_insert_ne.
Qed.

#[export] Instance keeps_threads_inv_start key t :
  StartGuard keeps_threads_inv key t.
Proof.
  intros w Hfree [Hnodup Hkeys]. unfold threads_inv. simpl.
  rewrite starts_snoc. split.
  - apply NoDup_app. split; [done|]. split; [|apply NoDup_singleton].
    intros k Hk ->%list_elem_of_singleton.
    apply Hkeys in Hk. congruence.
  - intros k. rewrite elem_of_app, list_elem_of_singleton, has_key_insert.
    destruct (decide (key = k)) as [->|Hne].
    + split; [done|by right].
    + rewrite Hkeys. split; [by intros [?|?]|by left].
Qed.

(** "If the registry had [key], nothing about the pollers changed." *)
Definition polled_already (key : str) : relation (World E) :=
  λ w w', has_key (output_threads w) key = true → threads_view w' = threads_view w.

#[export] Instance polled_already_preorder key : PreOrder (polled_already key).
Proof.
  split.
  - intros w Hkey. reflexivity.
  - intros w1 w2 w3 H12 H23 Hkey. specialize (H12 Hkey).
    rewrite <- H12. apply H23.
    unfold threads_view in H12. injection H12 as Hthreads _.
    by rewrite Hthreads.
Qed.

Lemma same_view_polled_already key w w' :
  same threads_view w w' → polled_already key w w'.
Proof. by intros Hsame _. Qed.

#[export] Instance polled_already_env key : EnvBlind (polled_already key) :=
  env_blind_coarser _ _ (same_view_polled_already key) _.
#[export] Instance polled_already_emit key : EmitBlind (polled_already key) :=
  emit_blind_coarser _ _ (same_view_polled_already key) _.
#[export] Instance polled_already_rooms key : RoomsBlind (polled_already key) :=
  rooms_blind_coarser _ _ (same_view_polled_already key) _.
#[export] Instance polled_already_registry key : RegistryBlind (polled_already key) :=
  registry_blind_coarser _ _ (same_view_polled_already key) _.

#[export] Instance polled_already_start key t :
  StartGuard (polled_already key) key t.
Proof. intros w Hfree Hkey. congruence. Qed.

(** Every request keeps the invariant of the pollers. *)
Lemma serve_threads_inv (r : request) w : threads_inv w → threads_inv (serve r w).
Proof.
  destruct r; simpl.
  - apply (rel_join_room keeps_threads_inv sid sid); tc_solve.
  - intros Hinv. exact Hinv.
  - apply (rel_handle_join keeps_threads_inv); tc_solve.
  - apply (rel_handle_message keeps_threads_inv); tc_solve.
  - apply (rel_handle_join_project keeps_threads_inv); tc_solve.
  - apply (rel_handle_project_message keeps_threads_inv); tc_solve.
  - apply (rel_new_session keeps_threads_inv); tc_solve.
  - apply (rel_create_project_session keeps_threads_inv); tc_solve.
  - apply (rel_delete_project keeps_threads_inv); tc_solve.
Qed.

Lemma serve_all_threads_inv (rs : list request) w :
  threads_inv w → threads_inv (serve_all rs w).
Proof.
  revert w. induction rs as [|r rs IH]; intros w Hinv; simpl; [done|].
  by apply IH, serve_threads_inv.
Qed.

Lemma init_world_threads_inv (e : E) : threads_inv (init_world e).
Proof.
  split; simpl.
  - apply NoDup_nil_2.
  - intros key. unfold has_key. rewrite lookup_empty.
    split; [by intros ?%elem_of_nil|done].
Qed.

End Views.

(** ** Handlers on threads

    Socket.IO is set up with [async_mode='threading'] (line 41): every
    event is handled on a thread of its own, and the handlers share
    [output_threads] without a lock.  A join handler tests the registry
    (lines 818 and 895) and, some instructions later, writes it and starts
    the poller (lines 819-823, 896-900).  Each handler is cut there in two
    steps, and another thread may run between the two. *)

Section Threads.
Context {E : Type} `{Env E}.
Implicit Types (w : World E).

(** [handle_join] up to its test of [output_threads], with what the test
    says: whether a poller is to be started. *)
Definition handle_join_test (sid : str) (data : join_data) : M (World E) bool :=
  let session_id := j_session_id data in
  let token := j_token data in
  payload ← verify_token token;
  match payload with
  | None => emit sid (py "error") (error_data (py "Token invalide"));; mret false
  | Some payload =>
      let user_id := user_id payload in
      registered ← gets (λ w, has_key (active_sessions w) session_id);
      ready ← (if registered : bool then mret true
               else
                 try_except
                   (create_tmux_session session_id;;
                    active_sessions_set session_id user_id;;
                    mret true)
                   (λ e, emit sid (py "error")
                           (error_data (py "Erreur lors de la cr" ++ e_acute ++
                                        py "ation de la session: " ++ e));;
                         mret false));
      if ready : bool then
        output ← get_tmux_output session_id;
        join_room sid sid;;
        emit sid (py "joined")
          [(py "session_id", session_id); (py "initial_output", output)];;
        polled ← gets (λ w, has_key (output_threads w) session_id);
        mret (negb polled)
      else mret false
  end.

(** The rest of [handle_join] when the test found no poller. *)
Definition handle_join_start (sid : str) (data : join_data) : M (World E) unit :=
  let session_id := j_session_id data in
  start_thread session_id (MonitorTmux session_id sid).

(** The same two steps of [handle_join_project]; the [except] of the
    handler covers both. *)
Definition handle_join_project_test (sid : str) (data : join_project_data)
  : M (World E) bool :=
  let session_id := jp_session_id data in
  let project_id := jp_project_id data in
  let token := jp_token data in
  payload ← verify_token token;
  match payload with
  | None => emit sid (py "error") (error_data (py "Token invalide"));; mret false
  | Some payload =>
      try_except
        (let project_path := DOCKER_PATH ++ py "/apps/" ++ project_id in
         found ← path_exists project_path;
         if found : bool then
           join_room sid (project_room project_id);;
           let session_name := project_session_name project_id in
           initial_output ← get_project_tmux_output session_name;
           emit sid (py "joined")
             [(py "session_id", session_id); (py "project_id", project_id);
              (py "initial_output", initial_output)];;
           polled ← gets (λ w, has_key (output_threads w) session_name);
           mret (negb polled)
         else
           emit sid (py "error") (error_data (py "Projet non trouv" ++ e_acute));;
           mret false)
        (λ e, emit sid (py "error")
                (error_data (py "Erreur lors de la connexion au projet: " ++ e));;
              mret false)
  end.

Definition handle_join_project_start (sid : str) (data : join_project_data)
  : M (World E) unit :=
  let project_id := jp_project_id data in
  let session_name := project_session_name project_id in
  try_except
    (start_thread session_name (MonitorProject session_name project_id sid))
    (λ e, emit sid (py "error")
            (error_data (py "Erreur lors de la connexion au projet: " ++ e))).

(** The two steps, one right after the other, are the handler. *)
Lemma handle_join_steps (sid : str) (data : join_data) w :
  handle_join sid data w
  = (go ← handle_join_test sid data;
     if go : bool then handle_join_start sid data else mret tt) w.
Proof.
  unfold handle_join, handle_join_test, handle_join_start.
  unfold mbind, M_bind, verify_token, gets. cbv zeta.
  destruct (jwt_decode (j_token data) (env w)) as [payload|e]; [|done].
  destruct (has_key (active_sessions w) (j_session_id data)).
  - cbn [mret M_ret].
    destruct (get_tmux_output (j_session_id data) w) as [[out|e] w1]; [|done].
    cbn. by destruct (has_key _ _).
  - unfold try_except.
    destruct (create_tmux_session (j_session_id data) w) as [[out|e] w1]; [|done].
    cbn.
    destruct (get_tmux_output (j_session_id data) _) as [[out'|e] w2]; [|done].
    cbn. by destruct (has_key _ _).
Qed.

Lemma handle_join_project_steps (sid : str) (data : join_project_data) w :
  handle_join_project sid data w
  = (go ← handle_join_project_test sid data;
     if go : bool then handle_join_project_start sid data else mret tt) w.
Proof.
  unfold handle_join_project, handle_join_project_test, handle_join_project_start.
  unfold mbind, M_bind, verify_token, gets, path_exists. cbv zeta.
  destruct (jwt_decode (jp_token data) (env w)) as [payload|e]; [|done].
  unfold try_except, gets.
  destruct (os_path_exists _ (env w)); [|done].
  cbn.
  destruct (get_project_tmux_output _ _) as [[out|e] w1]; [|done].
  cbn. by destruct (has_key _ _).
Qed.

(** A join handler on its thread. *)
Inductive handler :=
| OnJoin (sid : str) (data : join_data)
| OnJoinProject (sid : str) (data : join_project_data).

Definition handler_test (h : handler) : M (World E) bool :=
  match h with
  | OnJoin sid data => handle_join_test sid data
  | OnJoinProject sid data => handle_join_project_test sid data
  end.

Definition handler_start (h : handler) : M (World E) unit :=
  match h with
  | OnJoin sid data => handle_join_start sid data
  | OnJoinProject sid data => handle_join_project_start sid data
  end.

Definition request_of (h : handler) : request :=
  match h with
  | OnJoin sid data => Join sid data
  | OnJoinProject sid data => JoinProject sid data
  end.

(** Where a handler is: before its test, after it (with its answer), or
    at its end. *)
Inductive stage := Entered | Tested (go : bool) | Left.

(** The next step of a handler. *)
Definition advance (h : handler) (st : stage) w : stage * World E :=
  match st with
  | Entered =>
      match handler_test h w with
      | (Ok go, w') => (Tested go, w')
      | (Raise _, w') => (Left, w')
      end
  | Tested true => (Left, (handler_start h w).2)
  | Tested false | Left => (Left, w)
  end.

(** Two handlers on two threads: [schedule] says which of them takes each
    step, [true] for the first. *)
Fixpoint threaded (schedule : list bool) (a b : handler) (sa sb : stage) w
  : World E :=
  match schedule with
  | [] => w
  | true :: rest => let '(sa', w') := advance a sa w in threaded rest a b sa' sb w'
  | false :: rest => let '(sb', w') := advance b sb w in threaded rest a b sa sb' w'
  end.

(** When the first handler ends before the second begins, the two requests
    are served one after the other. *)
Lemma threaded_in_turn (a b : handler) w :
  threaded [true; true; false; false] a b Entered Entered w
  = serve (request_of b) (serve (request_of a) w).
Proof.
  assert (∀ h v, (advance h (advance h Entered v).1 (advance h Entered v).2).2
                 = serve (request_of h) v
                 ∧ (advance h (advance h Entered v).1 (advance h Entered v).2).1
                   = Left) as Hturn.
  { intros h v. destruct h as [sid data|sid data]; cbn [serve request_of].
    - rewrite handle_join_steps. unfold advance, mbind, M_bind. cbn [handler_test].
      by destruct (handle_join_test sid data v) as [[[]|e] v1].
    - rewrite handle_join_project_steps. unfold advance, mbind, M_bind.
      cbn [handler_test].
      by destruct (handle_join_project_test sid data v) as [[[]|e] v1]. }
  cbn [threaded].
  destruct (advance a Entered w) as [sa1 w1] eqn:Ha1.
  destruct (advance a sa1 w1) as [sa2 w2] eqn:Ha2.
  destruct (advance b Entered w2) as [sb1 w3] eqn:Hb1.
  destruct (advance b sb1 w3) as [sb2 w4] eqn:Hb2.
  destruct (Hturn a w) as [Hw2 _]. rewrite Ha1 in Hw2. cbn in Hw2.
  rewrite Ha2 in Hw2. cbn in Hw2. subst w2.
  destruct (Hturn b (serve (request_of a) w)) as [Hw4 _]. rewrite Hb1 in Hw4.
  cbn in Hw4. rewrite Hb2 in Hw4. by cbn in Hw4.
Qed.

End Threads.

(** ** C8: one poller per session identifier *)

(** C8 (as amended).  In every state the server reaches by serving
    requests one after the other, each poller key was started at most once
    and the poller registry holds exactly the keys started; a [join] or
    [join_project] for an identifier the registry already holds starts no
    thread and leaves the registry as it was; and this is kept by two join
    handlers on two threads when the first ends before the second
    begins. *)
Theorem C8_one_poller_per_session_id {E : Type} `{Env E}
    (e : E) (rs : list request) :
  let w := serve_all rs (init_world e) in
  threads_inv w
  ∧ (∀ sid data,
       has_key (output_threads w) (j_session_id data) = true →
       threads_view (serve (Join sid data) w) = threads_view w)
  ∧ (∀ sid data,
       has_key (output_threads w) (project_session_name (jp_project_id data)) = true →
       threads_view (serve (JoinProject sid data) w) = threads_view w)
  ∧ (∀ a b, threads_inv (threaded [true; true; false; false] a b Entered Entered w)).
Proof.
  intros w. split; [|split; [|split]].
  - apply serve_all_threads_inv, init_world_threads_inv.
  - intros sid data. simpl.
    apply (rel_handle_join (polled_already (j_session_id data))); tc_solve.
  - intros sid data. simpl.
    apply (rel_handle_join_project
             (polled_already (project_session_name (jp_project_id data))));
      tc_solve.
  - intros a b. rewrite threaded_in_turn.
    change (threads_inv (serve_all [request_of a; request_of b] w)).
    apply serve_all_threads_inv, serve_all_threads_inv, init_world_threads_inv.
Qed.

(** Two joins of the same session: the second finds the poller of the
    first and starts nothing. *)
Lemma C8_one_poller_per_session_id_witness :
  let w := serve_all Scenarios.first_joined (init_world Scenarios.fresh_server) in
  has_key (output_threads w) (py "s1") = true
  ∧ threads_view (serve (Join Scenarios.conn_b Scenarios.join_s1) w) = threads_view w.
Proof.
  intros w. assert (has_key (output_threads w) (py "s1") = true) as Hkey
    by (vm_compute; reflexivity).
  split; [exact Hkey|].
  exact (proj1 (proj2 (C8_one_poller_per_session_id
                         Scenarios.fresh_server Scenarios.first_joined))
           Scenarios.conn_b Scenarios.join_s1 Hkey).
Defined.

(** C8, the claim refuted for handlers that overlap.  Two connections
    join session ["s1"] on two threads, and both handlers test
    [output_threads] before either writes it: each starts a poller, so two
    pollers of ["s1"] run, and the registry holds the one started last. *)
Lemma C8_overlapping_joins_start_two_pollers :
  let w :=
    serve_all [Connect Scenarios.conn_a; Connect Scenarios.conn_b]
      (init_world Scenarios.fresh_server) in
  let w' :=
    threaded [true; false; true; false]
      (OnJoin Scenarios.conn_a Scenarios.join_s1)
      (OnJoin Scenarios.conn_b Scenarios.join_s1) Entered Entered w in
  trace w = []
  ∧ omap (λ x, match x with Start key t => Some (key, t) | _ => None end) (trace w')
    = [(py "s1", MonitorTmux (py "s1") Scenarios.conn_a);
       (py "s1", MonitorTmux (py "s1") Scenarios.conn_b)]
  ∧ output_threads w' = {[ py "s1" := MonitorTmux (py "s1") Scenarios.conn_b ]}
  ∧ ¬ threads_inv w'.
Proof.
  intros w w'.
  assert (starts (trace w') = [py "s1"; py "s1"]) as Hstarts
    by (vm_compute; reflexivity).
  split; [reflexivity|]. split; [vm_compute; reflexivity|].
  split; [vm_compute; reflexivity|].
  intros [Hnodup _]. rewrite Hstarts in Hnodup.
  apply NoDup_cons in Hnodup as [Hin _]. apply Hin. by left.
Qed.

(** ** C2: who receives the snapshot of a user session *)

Section Rooms.

Context {E : Type} `{Env E}.
Implicit Types (w : World E).

Lemma emits_snoc (t : list effect) (x : effect) :
  emits (t ++ [x]) = emits t ++ match x with Emit _ _ _ _ => [x] | _ => [] end.
Proof. unfold emits. rewrite omap_app. by destruct x. Qed.

(** "Since then, the rooms are as they were and every message sent was a
    [tmux_output] addressed to the room [client_id]." *)
Definition poller_sends (client_id : str) : relation (World E) :=
  λ w w',
    rooms w' = rooms w
    ∧ ∃ ds, emits (trace w')
            = emits (trace w) ++
              ((λ d, Emit (py "tmux_output") d client_id (members client_id w))
                 <$> ds).

#[export] Instance poller_sends_preorder client_id : PreOrder (poller_sends client_id).
Proof.
  split.
  - intros w. split; [done|]. exists []. by rewrite app_nil_r.
  - intros w1 w2 w3 [Hr12 [ds1 H12]] [Hr23 [ds2 H23]]. split; [congruence|].
    exists (ds1 ++ ds2). rewrite H23, H12, fmap_app, <- app_assoc.
    unfold members. by rewrite Hr12.
Qed.

#[export] Instance poller_sends_env client_id : EnvBlind (poller_sends client_id).
Proof.
  split; intros; (split; [done|]); exists []; simpl;
    by rewrite ?emits_snoc, ?app_nil_r.
Qed.

#[export] Instance poller_sends_send client_id :
  SendBlind (poller_sends client_id) (py "tmux_output") client_id.
Proof.
  intros d w. split; [done|]. exists [d]. simpl. by rewrite emits_snoc.
Qed.

(** "The rooms other than [sid] are as they were." *)
Definition other_rooms (sid : str) : relation (World E) :=
  same (λ w, delete sid (rooms w)).

#[export] Instance other_rooms_env sid : EnvBlind (other_rooms sid).
Proof. by split. Qed.
#[export] Instance other_rooms_emit sid : EmitBlind (other_rooms sid).
Proof. by intros ev room d w. Qed.
#[export] Instance other_rooms_registry sid : RegistryBlind (other_rooms sid).
Proof. by split. Qed.
#[export] Instance other_rooms_start sid key t : StartGuard (other_rooms sid) key t.
Proof. by intros w _. Qed.
#[export] Instance other_rooms_enter sid : EnterBlind (other_rooms sid) sid sid.
Proof. intros w. unfold other_rooms, same. simpl. by rewrite delete_insert_eq. Qed.

(** "The poller registry is as it was, or it gained the poller of
    [session_id] for the connection [sid]." *)
Definition poller_for (session_id sid : str) : relation (World E) :=
  λ w w',
    output_threads w' = output_threads w
    ∨ output_threads w'
      = <[session_id := MonitorTmux session_id sid]> (output_threads w).

#[export] Instance poller_for_preorder session_id sid :
  PreOrder (poller_for session_id sid).
Proof.
  split.
  - intros w. by left.
  - intros w1 w2 w3 [H12|H12] [H23|H23]; unfold poller_for;
      rewrite H23, H12, ?insert_insert_eq; auto.
Qed.

#[export] Instance poller_for_env session_id sid : EnvBlind (poller_for session_id sid).
Proof. split; intros; by left. Qed.
#[export] Instance poller_for_emit session_id sid : EmitBlind (poller_for session_id sid).
Proof. intros ev room d w. by left. Qed.
#[export] Instance poller_for_rooms session_id sid : RoomsBlind (poller_for session_id sid).
Proof. intros m w. by left. Qed.
#[export] Instance poller_for_registry session_id sid :
  RegistryBlind (poller_for session_id sid).
Proof. split; intros; by left. Qed.
#[export] Instance poller_for_start session_id sid :
  StartGuard (poller_for session_id sid) session_id (MonitorTmux session_id sid).
Proof. intros w _. by right. Qed.

End Rooms.

(** C2 (as amended).  A [join] enters the connection in no room but the one
    named by its own connection id, and the poller it may start is the
    poller of that connection.  Every message of a user-session poller is a
    [tmux_output] addressed to the room named by the connection id the
    poller was started with, and is received by the members of that room:
    not by the other connections that joined the session. *)
Theorem C2_snapshot_goes_to_starting_connection {E : Type} `{Env E} (w : World E) :
  (∀ sid data room,
     room ≠ sid → members room (serve (Join sid data) w) = members room w)
  ∧ (∀ sid data,
       poller_for (j_session_id data) sid w (serve (Join sid data) w))
  ∧ (∀ ticks session_id client_id last_output,
       poller_sends client_id w
         (monitor_tmux_output ticks session_id client_id (w, last_output)).2.1).
Proof.
  split; [|split].
  - intros sid data room Hroom.
    assert (other_rooms sid w (serve (Join sid data) w)) as Hsame
      by (apply (rel_handle_join (other_rooms sid)); tc_solve).
    unfold other_rooms, same in Hsame. unfold members.
    apply (f_equal (λ m, m !! room)) in Hsame.
    by rewrite !lookup_delete_ne in Hsame by done; rewrite Hsame.
  - intros sid data.
    apply (rel_handle_join (poller_for (j_session_id data) sid)); tc_solve.
  - intros ticks session_id client_id last_output.
    apply (rel_monitor_tmux_output (poller_sends client_id) ticks session_id
             client_id (w, last_output)).
Qed.

(** Joining session ["s1"] from [conn_b] does not enter [conn_b] in a room
    named after the session. *)
Lemma C2_snapshot_goes_to_starting_connection_witness :
  let w := serve_all Scenarios.first_joined (init_world Scenarios.fresh_server) in
  py "s1" ≠ Scenarios.conn_b
  ∧ members (py "s1") (serve (Join Scenarios.conn_b Scenarios.join_s1) w)
    = members (py "s1") w.
Proof.
  intros w. assert (py "s1" ≠ Scenarios.conn_b) as Hne by done.
  split; [exact Hne|].
  exact (proj1 (C2_snapshot_goes_to_starting_connection w)
           Scenarios.conn_b Scenarios.join_s1 (py "s1") Hne).
Defined.

(** C2, the claim refuted: [conn_a] and [conn_b] have both joined session
    ["s1"]; the session has one poller, started for [conn_a]; its first
    snapshot and the changed snapshot that follows are received by [conn_a]
    alone. *)
Lemma C2_second_client_receives_nothing :
  let w := serve_all Scenarios.both_joined (init_world Scenarios.fresh_server) in
  let w' := Scenarios.poll_print_poll (py "A new line of output") w in
  output_threads w !! py "s1" = Some (MonitorTmux (py "s1") Scenarios.conn_a)
  ∧ length (published (py "joined") (trace w)) = 2
  ∧ receivers (py "tmux_output") (trace w') = [{[Scenarios.conn_a]}; {[Scenarios.conn_a]}]
  ∧ Scenarios.conn_b ∉ ({[Scenarios.conn_a]} : gset str).
Proof.
  intros w w'. split; [|split; [|split]].
  - vm_compute. reflexivity.
  - vm_compute. reflexivity.
  - vm_compute. reflexivity.
  - by apply not_elem_of_singleton.
Qed.

(** ** Stepping through a call that returned *)

Section Steps.

Context {E : Type} `{Env E}.
Implicit Types (w : World E).

Lemma bind_ok_inv {S A B} (m : M S A) (f : A → M S B) (s s' : S) (b : B) :
  (m ≫= f) s = (Ok b, s') → ∃ a s1, m s = (Ok a, s1) ∧ f a s1 = (Ok b, s').
Proof.
  unfold mbind, M_bind. destruct (m s) as [[a|e] s1]; [eauto|done].
Qed.

Lemma try_reraise_ok {S A} (body : M S A) (s s' : S) (a : A) :
  try_except body (λ e, raise e) s = (Ok a, s') → body s = (Ok a, s').
Proof. unfold try_except, raise. by destruct (body s) as [[a'|e] s1]. Qed.

Lemma run_trace cmd w r w1 : run cmd w = (r, w1) → trace w1 = trace w ++ [Run cmd] ∧ ∃ e, subprocess_run cmd (env w) = (r, e) ∧ env w1 = e.
Proof.
  unfold run. destruct (subprocess_run cmd (env w)) as [r' e].
  intros [= <- <-]. eauto.
Qed.

Lemma sleep_trace ms w r w1 : sleep ms w = (r, w1) → trace w1 = trace w ++ [Sleep ms].
Proof. by intros [= <- <-]. Qed.

Lemma new_uuid_trace w r w1 : new_uuid w = (r, w1) → trace w1 = trace w.
Proof. unfold new_uuid. destruct (uuid4 (env w)). by intros [= <- <-]. Qed.

(** The commands [configure_project] runs are not the launch command. *)
Lemma configure_project_trace session_name project_id project_path w w1 :
  configure_project session_name project_id project_path w = (Ok tt, w1) →
  ∃ setup, trace w1 = trace w ++ setup ∧ Run (launch_cmd session_name) ∉ setup.
Proof.
  unfold configure_project. intros Hc.
  apply bind_ok_inv in Hc as (r1 & w2 & [Ht1 _]%run_trace & Hc).
  apply bind_ok_inv in Hc as (r2 & w3 & [Ht2 _]%run_trace & Hc).
  apply bind_ok_inv in Hc as (r3 & w4 & [Ht3 _]%run_trace & Hc).
  apply bind_ok_inv in Hc as (present & w5 & [= _ <-] & Hc).
  assert (∀ rest : str,
            Run (launch_cmd session_name)
            = Run (py "tmux send-keys -t " ++ session_name ++ rest) →
            rest = py " '/root/.npm-global/bin/claude' C-m") as Hdiff.
  { intros rest [= Heq]. unfold launch_cmd in Heq. by simplify_list_eq. }
  destruct present.
  - apply bind_ok_inv in Hc as (r4 & w6 & [Ht4 _]%run_trace & [= <-]).
    eexists. rewrite Ht4, Ht3, Ht2, Ht1, <- !app_assoc. split; [done|].
    simpl. rewrite !elem_of_cons, elem_of_nil.
    intros [Hx|[Hx|[Hx|[Hx|[]]]]]; by apply Hdiff in Hx.
  - injection Hc as <-.
    eexists. rewrite Ht3, Ht2, Ht1, <- !app_assoc. split; [done|].
    simpl. rewrite !elem_of_cons, elem_of_nil.
    intros [Hx|[Hx|[Hx|[]]]]; by apply Hdiff in Hx.
Qed.

End Steps.

Lemma commands_snoc (t : list effect) (x : effect) :
  commands (t ++ [x]) = commands t ++ match x with Run cmd => [cmd] | _ => [] end.
Proof. unfold commands. rewrite omap_app. by destruct x. Qed.


(** ** C5: what a project message sends to the pane *)

(** C5 (as amended).  For every [project_message] with a valid token, the
    handler runs one [send-keys] command line and nothing else but the
    capture that follows it; the line holds the session name of the project
    as it is and, between single quotes, the escaped message followed by the
    four characters [ C-m].  When the project id is made of name characters
    (the handler does not check it), the shell splits that line into six
    words: [tmux], [send-keys], [-t], the session name, the message
    followed by [ C-m] as one literal argument, and one key [C-m].  The
    escaping makes the message itself arrive unchanged; the literal suffix
    [ C-m] is appended to it. *)
Theorem C5_project_message_sent_with_suffix {E : Type} `{Env E}
    (w : World E) (sid : str) (data : project_message_data) (payload : Payload) :
  jwt_decode (pm_token data) (env w) = Ok payload →
  let session_name := project_session_name (pm_project_id data) in
  let cmd := py "tmux send-keys -t " ++ session_name ++ py " '" ++
             escape (pm_message data) ++ py " C-m' C-m" in
  let w' := serve (ProjectMessage sid data) w in
  (∃ rest, commands (trace w') = commands (trace w) ++ cmd :: rest
           ∧ ∀ c, c ∈ rest → c = project_capture_cmd session_name)
  ∧ (Shell.is_name (pm_project_id data) →
     Shell.words cmd
     = Some [Shell.bare "tmux"; Shell.bare "send-keys"; Shell.bare "-t";
             Shell.Word false session_name;
             Shell.Word true (pm_message data ++ py " C-m"); Shell.bare "C-m"]).
Proof.
  intros Htoken session_name cmd w'. split.
  - subst w'. simpl. unfold handle_project_message.
    erewrite bind_ok; last by (unfold verify_token, gets; rewrite Htoken).
    fold session_name. unfold try_except, send_to_project_tmux. fold cmd.
    unfold try_except, raise.
    destruct (subprocess_run cmd (env w)) as [[cp|e] e1] eqn:Hrun.
    + erewrite bind_ok; last first.
      { erewrite bind_ok; last by apply run_ok. reflexivity. }
      unfold mbind at 1, M_bind at 1. rewrite get_project_tmux_output_spec. simpl.
      exists [project_capture_cmd session_name].
      split; [|by intros c ->%list_elem_of_singleton].
      destruct (subprocess_run (project_capture_cmd session_name) e1)
        as [[cp2|e2] e3]; simpl;
        repeat (case_bool_decide; simpl);
        by rewrite ?commands_snoc, ?app_nil_r, <- ?app_assoc.
    + erewrite bind_raise; last first.
      { erewrite bind_raise; last by apply run_raise. reflexivity. }
      exists []. split; [|by intros c ?%elem_of_nil].
      simpl. by rewrite !commands_snoc, app_nil_r.
  - intros Hname%is_name_plain. apply send_to_project_words; [done|].
    apply Forall_app. split; [|done].
    by repeat constructor.
Qed.

(** Project ["demo"], message ["ls"]. *)
Lemma C5_project_message_sent_with_suffix_witness :
  jwt_decode (pm_token Scenarios.say_ls) (env Scenarios.demo_ready) = Ok Scenarios.ann
  ∧ Shell.is_name (pm_project_id Scenarios.say_ls)
  ∧ Shell.words (py "tmux send-keys -t claude_project_demo 'ls C-m' C-m")
    = Some [Shell.bare "tmux"; Shell.bare "send-keys"; Shell.bare "-t";
            Shell.bare "claude_project_demo"; Shell.Word true (py "ls C-m");
            Shell.bare "C-m"].
Proof.
  assert (jwt_decode (pm_token Scenarios.say_ls) (env Scenarios.demo_ready)
          = Ok Scenarios.ann) as Htoken by (vm_compute; reflexivity).
  assert (Shell.is_name (pm_project_id Scenarios.say_ls)) as Hname
    by (by repeat constructor).
  split; [exact Htoken|]. split; [exact Hname|].
  exact (proj2 (C5_project_message_sent_with_suffix Scenarios.demo_ready
                  Scenarios.conn_a Scenarios.say_ls Scenarios.ann Htoken) Hname).
Defined.

(** The project id is written into the line as it is: for the project id
    [x'y] the quotes of the line no longer pair up, and for [a|b] the shell
    reads a pipeline, which is outside the model; neither line is split
    into the six words. *)
Example project_id_is_not_quoted :
  let line project_id :=
    py "tmux send-keys -t " ++ project_session_name project_id ++ py " '" ++
    escape (py "ls") ++ py " C-m' C-m" in
  Shell.words (line (py "x'y")) = None ∧ Shell.words (line (py "a|b")) = None.
Proof. split; reflexivity. Qed.

(** C5, the claim refuted: the message ["ls"] is handled; the pane of the
    project receives the literal text ["ls C-m"], which is not the message,
    and then the key [C-m]. *)
Lemma C5_pane_receives_message_with_suffix :
  let w := Scenarios.demo_ready in
  let w' := serve (ProjectMessage Scenarios.conn_a Scenarios.say_ls) w in
  Scenarios.pane_keys (py "claude_project_demo") (env w')
  = Scenarios.pane_keys (py "claude_project_demo") (env w) ++ [py "ls C-m"; py "C-m"]
  ∧ py "ls C-m" ≠ pm_message Scenarios.say_ls.
Proof. vm_compute. by split. Qed.

(** ** C9: the health check of a project session *)

(** C9.  In a health check that finds the tmux session of the project
    (exit status 0 of [has-session]) and captures its snapshot: if a
    liveness marker is present, the check returns and has run nothing beyond
    [has-session] and the capture; if the snapshot holds neither marker and
    the check returns, the launch command was run exactly once, as the last
    command, followed by a sleep of 3 seconds, the last effect of the
    check. *)
Theorem C9_relaunch_once_when_marker_absent {E : Type} `{Env E}
    (w : World E) (project_id : str) (cp out : CompletedProcess) (e1 e2 : E) :
  let session_name := project_session_name project_id in
  subprocess_run (has_session_cmd session_name) (env w) = (Ok cp, e1) →
  returncode cp = 0%Z →
  subprocess_run (project_probe_cmd session_name) e1 = (Ok out, e2) →
  if claude_active (stdout out)
  then ∃ session_id w',
         get_or_create_project_session project_id w = (Ok session_id, w')
         ∧ trace w' = trace w ++ [Run (has_session_cmd session_name);
                                  Run (project_probe_cmd session_name)]
  else ∀ session_id w',
         get_or_create_project_session project_id w = (Ok session_id, w') →
         ∃ before,
           trace w' = trace w ++ before ++
                      [Run (launch_cmd session_name); Sleep 3000]
           ∧ Run (launch_cmd session_name) ∉ before.
Proof.
  intros session_name Hhas Hzero Hprobe.
  set (w2 := set_env e2 (log (Run (project_probe_cmd session_name))
                           (set_env e1 (log (Run (has_session_cmd session_name)) w)))).
  assert (run (project_probe_cmd session_name)
            (set_env e1 (log (Run (has_session_cmd session_name)) w))
          = (Ok out, w2)) as Hrun by (apply run_ok; exact Hprobe).
  unfold claude_active.
  destruct (contains marker_try (stdout out) || contains marker_cwd (stdout out))
    eqn:Hactive.
  - (* a marker is there: nothing more is run, and the check returns *)
    unfold get_or_create_project_session. fold session_name. unfold try_except.
    rewrite (bind_ok _ _ _ _ _ (run_ok _ _ _ _ Hhas)).
    rewrite bool_decide_eq_true_2 by done.
    fold (project_probe_cmd session_name).
    rewrite (bind_ok _ _ _ _ _ Hrun).
    rewrite <- negb_orb, Hactive.
    unfold mbind, M_bind, mret, M_ret, gets, new_uuid, project_sessions_set, modify.
    simpl.
    destruct (project_sessions w !! session_name) as [sid|].
    + eexists _, _. split; [reflexivity|]. simpl. by rewrite <- app_assoc.
    + destruct (uuid4 (env w2)) as [u e3]. eexists _, _. split; [reflexivity|].
      simpl. by rewrite <- app_assoc.
  - (* no marker *)
    intros session_id w' Hcall.
    unfold get_or_create_project_session in Hcall. fold session_name in Hcall.
    apply try_reraise_ok in Hcall.
    rewrite (bind_ok _ _ _ _ _ (run_ok _ _ _ _ Hhas)) in Hcall.
    rewrite bool_decide_eq_true_2 in Hcall by done.
    fold (project_probe_cmd session_name) in Hcall.
    rewrite (bind_ok _ _ _ _ _ Hrun) in Hcall.
    rewrite <- negb_orb, Hactive in Hcall.
    apply bind_ok_inv in Hcall as ([] & w1 & Hheal & Hcall).
    assert (trace w' = trace w1) as ->.
    { apply bind_ok_inv in Hcall as (known & w3 & [= _ <-] & Hcall).
      destruct known as [sid|].
      - by injection Hcall as _ <-.
      - apply bind_ok_inv in Hcall as (u & w4 & Hu%new_uuid_trace & Hcall).
        apply bind_ok_inv in Hcall as ([] & w5 & [= <-] & [= _ <-]).
        done. }
    simpl in Hheal.
    apply bind_ok_inv in Hheal
      as ([] & w3 & (setup & Hsetup & Hnot)%configure_project_trace & Hheal).
    apply bind_ok_inv in Hheal as (r & w4 & [Hlaunch _]%run_trace & Hsleep%sleep_trace).
    exists ([Run (has_session_cmd session_name); Run (project_probe_cmd session_name)]
            ++ setup).
    split.
    + rewrite Hsleep, Hlaunch, Hsetup. simpl. by rewrite <- !app_assoc.
    + rewrite elem_of_app, !elem_of_cons, elem_of_nil.
      intros [[Hx|[Hx|[]]]|Hx]; [| |done].
      * injection Hx as Hx. unfold launch_cmd, has_session_cmd in Hx. done.
      * injection Hx as Hx. unfold launch_cmd, project_probe_cmd in Hx. done.
Qed.

(** Project ["demo"], checked again after its creation.  The pane shows
    nothing yet: the assistant is launched again, once.  When the pane shows
    the working directory line of the assistant, the check returns without
    running anything more. *)
Lemma C9_relaunch_once_when_marker_absent_witness :
  let name := py "claude_project_demo" in
  let w := Scenarios.demo_ready in
  let v := set_env (TmuxModel.print name (py "cwd: /root/docker/apps/demo") (env w)) w in
  (∃ before,
     trace (get_or_create_project_session (py "demo") w).2
     = trace w ++ before ++ [Run (launch_cmd name); Sleep 3000]
     ∧ Run (launch_cmd name) ∉ before)
  ∧ (∃ session_id v',
       get_or_create_project_session (py "demo") v = (Ok session_id, v')
       ∧ trace v' = trace v ++ [Run (has_session_cmd name); Run (project_probe_cmd name)]).
Proof.
  intros name w v. split.
  - assert (subprocess_run (has_session_cmd (project_session_name (py "demo"))) (env w)
            = (Ok {| returncode := 0; stdout := [] |}, env w)) as Hhas
      by (vm_compute; reflexivity).
    assert (subprocess_run (project_probe_cmd (project_session_name (py "demo"))) (env w)
            = (Ok {| returncode := 0; stdout := [] |}, env w)) as Hprobe
      by (vm_compute; reflexivity).
    pose proof (C9_relaunch_once_when_marker_absent w (py "demo") _ _ _ _
                  Hhas eq_refl Hprobe) as Hcheck.
    apply (Hcheck (py "uuid-0")). vm_compute. reflexivity.
  - assert (subprocess_run (has_session_cmd (project_session_name (py "demo"))) (env v)
            = (Ok {| returncode := 0; stdout := [] |}, env v)) as Hhas
      by (vm_compute; reflexivity).
    assert (subprocess_run (project_probe_cmd (project_session_name (py "demo"))) (env v)
            = (Ok {| returncode := 0; stdout := py "cwd: /root/docker/apps/demo" |},
                env v)) as Hprobe
      by (vm_compute; reflexivity).
    exact (C9_relaunch_once_when_marker_absent v (py "demo") _ _ _ _
             Hhas eq_refl Hprobe).
Defined.

(** ** The user-session poller, step by step *)

Section Poller.

Context {E : Type} `{Env E}.
Implicit Types (w : World E).

#[export] Instance published_env ev : EnvBlind (same (λ w : World E, published ev (trace w))).
Proof.
  split; intros; unfold same; simpl; try done.
  all: by rewrite published_snoc, app_nil_r.
Qed.

#[export] Instance active_sessions_env : EnvBlind (same (active_sessions (E:=E))).
Proof. by split. Qed.

Lemma monitor_capture_published ev session_id w r w1 :
  monitor_capture session_id w = (r, w1) →
  published ev (trace w1) = published ev (trace w).
Proof.
  intros Hc.
  pose proof (rel_monitor_capture (same (λ w, published ev (trace w))) session_id w) as Hr.
  by rewrite Hc in Hr.
Qed.

Lemma monitor_capture_active session_id w r w1 :
  monitor_capture session_id w = (r, w1) → active_sessions w1 = active_sessions w.
Proof.
  intros Hc.
  pose proof (rel_monitor_capture (same active_sessions) session_id w) as Hr.
  by rewrite Hc in Hr.
Qed.

Lemma monitor_first_spec session_id client_id w last cur w1 :
  monitor_capture session_id w = (Ok cur, w1) →
  monitor_tmux_output_first session_id client_id (w, last)
  = (Ok tt, (log (Emit (py "tmux_output") (tmux_output_data session_id cur)
                    client_id (members client_id w1)) w1, cur)).
Proof.
  intros Hc. unfold monitor_tmux_output_first, try_except, mbind, M_bind, global.
  by rewrite Hc.
Qed.

Lemma monitor_tick_spec session_id client_id w last cur w1 :
  has_key (active_sessions w) session_id = true →
  monitor_capture session_id w = (Ok cur, w1) →
  ∃ w', monitor_tmux_output_tick session_id client_id (w, last) = (Ok true, (w', cur))
        ∧ active_sessions w' = active_sessions w
        ∧ published (py "tmux_output") (trace w')
          = published (py "tmux_output") (trace w) ++
            (if decide (cur = last) then [] else [tmux_output_data session_id cur]).
Proof.
  intros Hreg Hc.
  pose proof (monitor_capture_published (py "tmux_output") _ _ _ _ Hc) as Hpub.
  pose proof (monitor_capture_active _ _ _ _ Hc) as Hact.
  unfold monitor_tmux_output_tick, try_except, mbind, M_bind, gets, global,
    get_local, set_local, modify, sleep, socketio_emit, run.
  simpl. rewrite Hreg, Hc. simpl.
  destruct (decide (cur = last)) as [->|Hne].
  - rewrite bool_decide_eq_false_2 by (by intros ?). simpl.
    eexists. split; [done|]. simpl. rewrite published_snoc, Hpub. done.
  - rewrite bool_decide_eq_true_2 by done. simpl.
    destruct (subprocess_run (refresh_user_cmd session_id) (env w1)) as [[cp1|e1] e1'];
      simpl; [destruct (subprocess_run refresh_main_cmd e1') as [[cp2|e2] e2']; simpl|].
    all: eexists; split; [done|]; simpl; split; [done|].
    all: rewrite !published_snoc, Hpub; simpl; by rewrite ?app_nil_r.
Qed.

Lemma monitor_tick_unregistered session_id client_id w last :
  has_key (active_sessions w) session_id = false →
  monitor_tmux_output_tick session_id client_id (w, last) = (Ok false, (w, last)).
Proof.
  intros Hreg. unfold monitor_tmux_output_tick, mbind, M_bind, gets. simpl.
  by rewrite Hreg.
Qed.

Lemma monitor_tick_unchanged session_id client_id w cur w1 :
  has_key (active_sessions w) session_id = true →
  monitor_capture session_id w = (Ok cur, w1) →
  monitor_tmux_output_tick session_id client_id (w, cur)
  = (Ok true, (log (Sleep 300) w1, cur)).
Proof.
  intros Hreg Hc.
  unfold monitor_tmux_output_tick, try_except, mbind, M_bind, gets, global,
    get_local, set_local, modify, sleep.
  simpl. rewrite Hreg, Hc. simpl.
  by rewrite bool_decide_eq_false_2 by (by intros ?).
Qed.

Lemma static_capture session_id (e : E) :
  static_source session_id e →
  ∃ cur, ∀ w, env w = e →
    ∃ w1, monitor_capture session_id w = (Ok cur, w1) ∧ env w1 = e.
Proof.
  intros [[cp Hmain] [r Huser]].
  exists (let user_output :=
            match r with
            | Ok cp2 => get_tmux_output_text (stdout cp) (stdout cp2)
            | Raise e => terminal_error e
            end in
          if len user_output <? len (stdout cp) then stdout cp else user_output).
  intros w <-. unfold monitor_capture.
  erewrite bind_ok; last by apply run_ok.
  unfold mbind at 1, M_bind at 1. rewrite get_tmux_output_spec. simpl.
  rewrite Hmain. simpl. rewrite Huser.
  destruct r as [cp2|e2]; simpl; eexists; (split; [reflexivity|done]).
Qed.

Lemma static_loop session_id client_id (e : E) cur (ticks : nat) w :
  (∀ w, env w = e → ∃ w1, monitor_capture session_id w = (Ok cur, w1) ∧ env w1 = e) →
  env w = e →
  ∃ status w',
    monitor_tmux_output_loop ticks session_id client_id (w, cur)
    = (Ok status, (w', cur))
    ∧ published (py "tmux_output") (trace w') = published (py "tmux_output") (trace w).
Proof.
  intros Hcap. revert w. induction ticks as [|n IH]; intros w Hw; simpl.
  - by exists Running, w.
  - destruct (has_key (active_sessions w) session_id) eqn:Hreg.
    + destruct (Hcap w Hw) as (w1 & Hc & Hw1).
      erewrite bind_ok; last by apply monitor_tick_unchanged.
      destruct (IH (log (Sleep 300) w1) Hw1) as (status & w' & Hloop & Hpub).
      exists status, w'. split; [done|]. rewrite Hpub. simpl.
      rewrite published_snoc, app_nil_r.
      by eapply monitor_capture_published.
    + erewrite bind_ok; last by apply monitor_tick_unregistered.
      by exists Exited, w.
Qed.

Lemma static_monitor session_id client_id (ticks : nat) w last :
  static_source session_id (env w) →
  ∃ cur status w',
    monitor_tmux_output ticks session_id client_id (w, last)
    = (Ok status, (w', cur))
    ∧ published (py "tmux_output") (trace w')
      = published (py "tmux_output") (trace w) ++ [tmux_output_data session_id cur].
Proof.
  intros (cur & Hcap)%static_capture.
  destruct (Hcap w eq_refl) as (w1 & Hc & Hw1).
  destruct (static_loop session_id client_id (env w) cur ticks
              (log (Emit (py "tmux_output") (tmux_output_data session_id cur)
                      client_id (members client_id w1)) w1) Hcap Hw1)
    as (status & w' & Hloop & Hpub).
  exists cur, status, w'. split.
  - unfold monitor_tmux_output.
    erewrite bind_ok; last reflexivity.
    erewrite bind_ok; last by apply monitor_first_spec.
    exact Hloop.
  - rewrite Hpub. simpl. rewrite published_snoc. simpl.
    f_equal. by eapply monitor_capture_published.
Qed.

End Poller.

(** ** C6: when the user-session poller publishes *)

(** C6.  With a capture that succeeds, the poller of a user session first
    publishes the snapshot it captured and keeps it as the last one
    broadcast; a tick of a registered session publishes the snapshot it
    captured exactly when it differs from the last one broadcast, and keeps
    it; and when the snapshot source does not change, the whole run, over
    any number of ticks, publishes exactly one message, the first. *)
Theorem C6_publish_on_start_then_on_change {E : Type} `{Env E}
    (w : World E) (session_id client_id : str) :
  (∀ last cur w1,
     monitor_capture session_id w = (Ok cur, w1) →
     monitor_tmux_output_first session_id client_id (w, last)
     = (Ok tt, (log (Emit (py "tmux_output") (tmux_output_data session_id cur)
                       client_id (members client_id w1)) w1, cur)))
  ∧ (∀ last cur w1,
       has_key (active_sessions w) session_id = true →
       monitor_capture session_id w = (Ok cur, w1) →
       ∃ w', monitor_tmux_output_tick session_id client_id (w, last)
             = (Ok true, (w', cur))
             ∧ published (py "tmux_output") (trace w')
               = published (py "tmux_output") (trace w) ++
                 (if decide (cur = last) then []
                  else [tmux_output_data session_id cur]))
  ∧ (∀ ticks last,
       static_source session_id (env w) →
       ∃ cur status w',
         monitor_tmux_output ticks session_id client_id (w, last)
         = (Ok status, (w', cur))
         ∧ published (py "tmux_output") (trace w')
           = published (py "tmux_output") (trace w) ++
             [tmux_output_data session_id cur]).
Proof.
  split; [|split].
  - intros last cur w1. apply monitor_first_spec.
  - intros last cur w1 Hreg Hc.
    destruct (monitor_tick_spec session_id client_id w last cur w1 Hreg Hc)
      as (w' & Htick & _ & Hpub).
    by exists w'.
  - intros ticks last. apply static_monitor.
Qed.

(** The test of the specification: a source that does not change, five
    ticks, one publish. *)
Lemma C6_publish_on_start_then_on_change_witness :
  let w := serve_all Scenarios.both_joined (init_world Scenarios.fresh_server) in
  let w' := (monitor_tmux_output 5 (py "s1") Scenarios.conn_a (w, [] : str)).2.1 in
  static_source (py "s1") (env w)
  ∧ length (published (py "tmux_output") (trace w'))
    = length (published (py "tmux_output") (trace w)) + 1.
Proof.
  intros w w'.
  assert (static_source (py "s1") (env w)) as Hstatic
    by (split; eexists; vm_compute; reflexivity).
  split; [exact Hstatic|].
  destruct (proj2 (proj2 (C6_publish_on_start_then_on_change w (py "s1")
                            Scenarios.conn_a)) 5 [] Hstatic)
    as (cur & status & w'' & Hrun & Hpub).
  assert (w' = w'') as -> by (unfold w'; by rewrite Hrun).
  rewrite Hpub, length_app. reflexivity.
Defined.

(** ** When the pollers go on and when they stop *)

Section Exit.

Context {E : Type} `{Env E}.
Implicit Types (w : World E).

#[export] Instance active_sessions_emit : EmitBlind (same (active_sessions (E:=E))).
Proof. by intros ev room d w. Qed.

(** [returns P m]: a value [m] returns satisfies [P].  [total P m]: [m]
    does not raise, and returns a value satisfying [P]. *)
Definition returns {S A} (P : A → Prop) (m : M S A) : Prop :=
  ∀ s a s', m s = (Ok a, s') → P a.
Definition total {S A} (P : A → Prop) (m : M S A) : Prop :=
  ∀ s, ∃ a s', m s = (Ok a, s') ∧ P a.

Lemma returns_ret {S A} (P : A → Prop) (a : A) : P a → returns (S:=S) P (mret a).
Proof. by intros HP s a' s' [= <- _]. Qed.

Lemma returns_bind {S A B} (P : B → Prop) (m : M S A) (k : A → M S B) :
  (∀ a, returns P (k a)) → returns P (m ≫= k).
Proof.
  intros Hk s b s' Hb. apply bind_ok_inv in Hb as (a & s1 & _ & Hb).
  by eapply Hk.
Qed.

Lemma total_ret {S A} (P : A → Prop) (a : A) : P a → total (S:=S) P (mret a).
Proof. intros HP s. by exists a, s. Qed.

Lemma total_bind {S A B} (P : B → Prop) (m : M S A) (k : A → M S B) :
  total (λ _, True) m → (∀ a, total P (k a)) → total P (m ≫= k).
Proof.
  intros Hm Hk s. destruct (Hm s) as (a & s1 & Hms & _).
  destruct (Hk a s1) as (b & s2 & Hks & HP).
  exists b, s2. split; [|done]. by erewrite bind_ok.
Qed.

Lemma total_try {S A} (P : A → Prop) (body : M S A) (handler : str → M S A) :
  returns P body → (∀ e, total P (handler e)) → total P (try_except body handler).
Proof.
  intros Hbody Hhandler s. unfold try_except.
  destruct (body s) as [[a|e] s1] eqn:Hb.
  - exists a, s1. split; [done|]. by eapply Hbody.
  - apply Hhandler.
Qed.

Lemma total_global_sleep {L} (ms : N) :
  total (S:=World E * L) (λ _, True) (global (sleep ms)).
Proof. intros [w l]. by eexists _, _. Qed.

Lemma monitor_tick_continues session_id client_id w last :
  (monitor_tmux_output_tick session_id client_id (w, last)).1
  = Ok (has_key (active_sessions w) session_id).
Proof.
  unfold monitor_tmux_output_tick, mbind at 1, M_bind at 1, gets. simpl.
  destruct (has_key (active_sessions w) session_id); [|done].
  match goal with |- (?m (w, last)).1 = _ =>
    assert (total (λ go, go = true) m) as Htotal end.
  { apply total_bind; [|intros []; by apply total_ret].
    apply total_try; [done|]. intros e. apply total_global_sleep. }
  by destruct (Htotal (w, last)) as (go & s' & -> & ->).
Qed.

Lemma monitor_tick_backoff session_id client_id w last e w1 :
  has_key (active_sessions w) session_id = true →
  monitor_capture session_id w = (Raise e, w1) →
  monitor_tmux_output_tick session_id client_id (w, last)
  = (Ok true, (log (Sleep 1000) w1, last)).
Proof.
  intros Hreg Hc.
  unfold monitor_tmux_output_tick, try_except, mbind, M_bind, gets, global, sleep,
    modify.
  simpl. by rewrite Hreg, Hc.
Qed.

Lemma monitor_loop_running session_id client_id (ticks : nat) w last :
  has_key (active_sessions w) session_id = true →
  (monitor_tmux_output_loop ticks session_id client_id (w, last)).1 = Ok Running.
Proof.
  revert w last. induction ticks as [|n IH]; intros w last Hreg; simpl; [done|].
  pose proof (monitor_tick_continues session_id client_id w last) as Hgo.
  pose proof (rel_monitor_tmux_output_tick (same active_sessions) session_id
                client_id (w, last)) as Hact.
  unfold mbind, M_bind.
  destruct (monitor_tmux_output_tick session_id client_id (w, last))
    as [[go|e] [w1 last1]]; simpl in *; [|done].
  injection Hgo as ->. rewrite Hreg. apply IH.
  unfold same in Hact. by rewrite Hact.
Qed.

Lemma project_tick_continues session_name project_id client_id w previous :
  (monitor_project_tmux_output_tick session_name project_id client_id (w, previous)).1
  = Ok match (subprocess_run (has_session_cmd session_name) (env w)).1 with
       | Ok cp => bool_decide (returncode cp = 0%Z)
       | Raise _ => true
       end.
Proof.
  unfold monitor_project_tmux_output_tick, get_project_tmux_output, try_except,
    mbind, M_bind, global, run, get_local, set_local, gets, modify, sleep,
    socketio_emit.
  destruct (subprocess_run (has_session_cmd session_name) (env w)) as [[cp|e] e1];
    cbn; [|done].
  destruct (decide (returncode cp = 0%Z)) as [Hz|Hnz].
  - rewrite bool_decide_eq_false_2 by (by intros ?).
    rewrite (bool_decide_eq_true_2 _ Hz).
    cbn.
    destruct (subprocess_run (project_capture_cmd session_name) e1)
      as [[cp2|e2] e3]; cbn; by repeat case_bool_decide.
  - rewrite bool_decide_eq_true_2 by done.
    by rewrite bool_decide_eq_false_2.
Qed.

Lemma project_tick_backoff session_name project_id client_id w previous e e1 :
  subprocess_run (has_session_cmd session_name) (env w) = (Raise e, e1) →
  monitor_project_tmux_output_tick session_name project_id client_id (w, previous)
  = (Ok true, (log (Sleep 1000)
                 (set_env e1 (log (Run (has_session_cmd session_name)) w)),
               previous)).
Proof.
  intros Hr.
  unfold monitor_project_tmux_output_tick, try_except, mbind, M_bind, global, run,
    sleep, modify.
  by rewrite Hr.
Qed.

End Exit.

(** ** C7: what ends a poller *)

(** C7 (as amended).  The loop of a user-session poller goes on after a
    tick exactly when the session id is in [active_sessions]; while it is
    there the loop is never left, whatever raises; a capture that raises is
    followed by a sleep of one second and the next tick.  The loop of a
    project poller does not look at any registry: it goes on after a tick
    exactly when [tmux has-session] raised or returned exit status 0, and
    is left when it returned another status; when [has-session] raises, the
    tick sleeps one second and the loop goes on. *)
Theorem C7_what_ends_a_poller {E : Type} `{Env E} (w : World E) :
  (∀ session_id client_id last,
     (monitor_tmux_output_tick session_id client_id (w, last)).1
     = Ok (has_key (active_sessions w) session_id))
  ∧ (∀ session_id client_id last ticks,
       has_key (active_sessions w) session_id = true →
       (monitor_tmux_output_loop ticks session_id client_id (w, last)).1
       = Ok Running)
  ∧ (∀ session_id client_id last e w1,
       has_key (active_sessions w) session_id = true →
       monitor_capture session_id w = (Raise e, w1) →
       monitor_tmux_output_tick session_id client_id (w, last)
       = (Ok true, (log (Sleep 1000) w1, last)))
  ∧ (∀ session_name project_id client_id previous,
       (monitor_project_tmux_output_tick session_name project_id client_id
          (w, previous)).1
       = Ok match (subprocess_run (has_session_cmd session_name) (env w)).1 with
            | Ok cp => bool_decide (returncode cp = 0%Z)
            | Raise _ => true
            end)
  ∧ (∀ session_name project_id client_id previous e e1,
       subprocess_run (has_session_cmd session_name) (env w) = (Raise e, e1) →
       monitor_project_tmux_output_tick session_name project_id client_id
         (w, previous)
       = (Ok true, (log (Sleep 1000)
                      (set_env e1 (log (Run (has_session_cmd session_name)) w)),
                    previous))).
Proof.
  repeat split.
  - intros. apply monitor_tick_continues.
  - intros. by apply monitor_loop_running.
  - intros. by eapply monitor_tick_backoff.
  - intros. apply project_tick_continues.
  - intros. by eapply project_tick_backoff.
Qed.

(** No process can be spawned: the tick of either poller sleeps one second
    and the loop goes on. *)
Lemma C7_what_ends_a_poller_witness :
  let w := Scenarios.broken in
  (monitor_tmux_output_loop 3 (py "s1") Scenarios.conn_a (w, [])).1 = Ok Running
  ∧ (∃ w1, monitor_tmux_output_tick (py "s1") Scenarios.conn_a (w, [])
           = (Ok true, (log (Sleep 1000) w1, [])))
  ∧ (∃ w1, monitor_project_tmux_output_tick (py "claude_project_demo") (py "demo")
             Scenarios.conn_a (w, [])
           = (Ok true, (log (Sleep 1000) w1, []))).
Proof.
  intros w.
  assert (has_key (active_sessions w) (py "s1") = true) as Hreg
    by (vm_compute; reflexivity).
  pose proof (C7_what_ends_a_poller w) as (_ & Hloop & Huser & _ & Hproject).
  split; [|split].
  - by apply Hloop.
  - eexists. apply (Huser _ _ _ (py "[Errno 12] Cannot allocate memory")); [done|].
    vm_compute. reflexivity.
  - eexists. apply (Hproject _ _ _ _ (py "[Errno 12] Cannot allocate memory")).
    vm_compute. reflexivity.
Defined.

(** C7, the claim refuted for project pollers.  The project session is in
    the registries ([project_sessions] and [output_threads]) and its tmux
    session has been closed from outside: the poller stops.  And when the
    tmux session of the project was opened from outside, so that the
    project is in no session registry, the poller a [join_project] starts
    goes on. *)
Lemma C7_project_poller_ignores_the_registry :
  let name := py "claude_project_demo" in
  let joined :=
    serve (JoinProject Scenarios.conn_a Scenarios.join_demo) Scenarios.demo_ready in
  let closed := Scenarios.killed_outside name joined in
  let again :=
    serve (JoinProject Scenarios.conn_a Scenarios.join_demo)
      (Scenarios.opened_outside name (init_world Scenarios.demo_server)) in
  (has_key (project_sessions closed) name = true
   ∧ has_key (output_threads closed) name = true
   ∧ (monitor_project_tmux_output 3 name (py "demo") Scenarios.conn_a
        (closed, [])).1 = Ok Exited)
  ∧ (has_key (project_sessions again) name = false
     ∧ has_key (active_sessions again) name = false
     ∧ (monitor_project_tmux_output 3 name (py "demo") Scenarios.conn_a
          (again, [])).1 = Ok Running).
Proof. vm_compute. by repeat split. Qed.

(** ** [create_tmux_session] on the reference server *)

Section TmuxFacts.
Import TmuxModel.
Implicit Types (tm : server) (w : World server).

(** A line that is one tmux command, alone, followed by [|| true] or
    preceded by [cd dir &&]: it does not raise, and the server after it is
    the server after the tmux command. *)
Lemma sh_tmux tm cmd args c :
  exhausted tm = false →
  parse_line cmd = Some (lit "tmux" :: args, [])
  ∨ parse_line cmd = Some (lit "tmux" :: args, [(OrIf, [lit "true"])])
  ∨ (∃ dir, parse_line cmd = Some ([lit "cd"; dir], [(AndIf, lit "tmux" :: args)])) →
  parse_tmux args = Some c →
  ∃ cp, sh cmd tm = (Ok cp, (exec_tmux c tm).2).
Proof.
  intros Hex Hline Hc. unfold sh. rewrite Hex.
  destruct Hline as [->|[->|[dir ->]]].
  - unfold exec_simple. rewrite decide_True by done. rewrite Hc.
    destruct (exec_tmux c tm) as [[rc out] tm']. by eexists.
  - unfold exec_simple at 1. rewrite decide_True by done. rewrite Hc.
    destruct (exec_tmux c tm) as [[rc out] tm']. simpl.
    case_bool_decide; by eexists.
  - change (exec_simple [lit "cd"; dir] tm) with (0%Z, @nil N, tm).
    unfold exec_rest. rewrite bool_decide_eq_true_2 by done.
    unfold exec_simple. rewrite decide_True by done. rewrite Hc.
    destruct (exec_tmux c tm) as [[rc out] tm']. by eexists.
Qed.

Lemma run_tmux w cmd args c :
  exhausted (env w) = false →
  parse_line cmd = Some (lit "tmux" :: args, [])
  ∨ parse_line cmd = Some (lit "tmux" :: args, [(OrIf, [lit "true"])])
  ∨ (∃ dir, parse_line cmd = Some ([lit "cd"; dir], [(AndIf, lit "tmux" :: args)])) →
  parse_tmux args = Some c →
  ∃ cp, run cmd w = (Ok cp, set_env (exec_tmux c (env w)).2 (log (Run cmd) w)).
Proof.
  intros Hex Hline Hc.
  destruct (sh_tmux (env w) cmd args c Hex Hline Hc) as [cp Hsh].
  exists cp. by apply run_ok.
Qed.

(** The other programs of the command lines leave the tmux server as it
    was. *)
Lemma run_other_then (Q : server → Prop) w cmd prog args :
  exhausted (env w) = false →
  parse_line cmd = Some (prog :: args, []) →
  prog = lit "chmod" ∨ (prog = lit "mkdir" ∧ ∃ path, args = [lit "-p"; path]) →
  (∀ tm', exhausted tm' = exhausted (env w) → sessions tm' = sessions (env w) →
          panes tm' = panes (env w) → next_pane tm' = next_pane (env w) → Q tm') →
  ∃ cp w1, run cmd w = (Ok cp, w1) ∧ Q (env w1).
Proof.
  intros Hex Hline Hprog HQ. unfold run. simpl. unfold sh. rewrite Hex, Hline.
  destruct Hprog as [->|[-> [path ->]]]; eexists _, _; (split; [done|]);
    by apply HQ.
Qed.

Lemma sleep_then (Q : server → Prop) w ms :
  Q (env w) → ∃ a w1, sleep ms w = (Ok a, w1) ∧ Q (env w1).
Proof. intros HQ. by eexists _, _. Qed.

(** *** The server while [create_tmux_session] runs *)

(** The main session and the mirror are gone. *)
Definition cleared (user : str) (n : nat) tm : Prop :=
  exhausted tm = false ∧ sessions tm !! MAIN = None ∧ sessions tm !! user = None
  ∧ next_pane tm = n.

(** The main session shows the new pane [p], which has received [ks]; the
    mirror, once created, shows it too. *)
Definition shared (user : str) (p : nat) (ks : list str) (mirror : bool) tm : Prop :=
  exhausted tm = false ∧ sessions tm !! MAIN = Some p
  ∧ sessions tm !! user = (if mirror then Some p else None)
  ∧ panes tm !! p = Some {| screen := []; keys := ks |}
  ∧ next_pane tm = S p.

Lemma user_session_not_main sid : user_session sid ≠ MAIN.
Proof. intros Heq. vm_compute in Heq. discriminate. Qed.

Lemma exec_kill_main tm :
  exhausted tm = false →
  let tm' := (exec_tmux (KillSession MAIN) tm).2 in
  exhausted tm' = false ∧ sessions tm' !! MAIN = None ∧ next_pane tm' = next_pane tm.
Proof.
  intros Hex. simpl. destruct (sessions tm !! MAIN) as [p|] eqn:Hmain; simpl.
  - by rewrite lookup_delete_eq.
  - done.
Qed.

Lemma exec_kill_user user tm n :
  user ≠ MAIN →
  exhausted tm = false → sessions tm !! MAIN = None → next_pane tm = n →
  cleared user n (exec_tmux (KillSession user) tm).2.
Proof.
  intros Hne Hex Hmain Hn. unfold cleared. simpl.
  destruct (sessions tm !! user) as [p|] eqn:Huser; simpl.
  - by rewrite lookup_delete_eq, lookup_delete_ne.
  - done.
Qed.

Lemma exec_new_main user tm n :
  user ≠ MAIN →
  cleared user n tm → shared user n [] false (exec_tmux (NewSession MAIN None) tm).2.
Proof.
  intros Hne (Hex & Hmain & Huser & Hn). unfold shared. simpl.
  rewrite Hmain. simpl. rewrite Hn.
  by rewrite !lookup_insert_eq, lookup_insert_ne.
Qed.

Lemma exec_send_main user p ks mirror k tm :
  shared user p ks mirror tm →
  shared user p (ks ++ k) mirror (exec_tmux (SendKeys MAIN k) tm).2.
Proof.
  intros (Hex & Hmain & Huser & Hpane & Hn). unfold shared. simpl.
  rewrite Hmain. simpl. rewrite Hpane. simpl.
  by rewrite lookup_insert_eq.
Qed.

Lemma exec_new_user user p ks tm :
  shared user p ks false tm →
  shared user p ks true (exec_tmux (NewSession user (Some MAIN)) tm).2.
Proof.
  intros (Hex & Hmain & Huser & Hpane & Hn). unfold shared. simpl.
  rewrite Huser. simpl. rewrite Hmain. simpl.
  rewrite lookup_insert_eq.
  destruct (decide (user = MAIN)) as [->|Hne]; [congruence|].
  by rewrite lookup_insert_ne.
Qed.

Lemma exec_send_user user p ks k tm :
  shared user p ks true tm →
  shared user p (ks ++ k) true (exec_tmux (SendKeys user k) tm).2.
Proof.
  intros (Hex & Hmain & Huser & Hpane & Hn). unfold shared. simpl.
  rewrite Huser. simpl. rewrite Hpane. simpl.
  by rewrite lookup_insert_eq.
Qed.

Lemma exec_capture t tm : (exec_tmux (CapturePane t) tm).2 = tm.
Proof. simpl. by destruct (_ ≫= _). Qed.


Lemma run_tmux_then (Q : server → Prop) w cmd args c :
  exhausted (env w) = false →
  parse_line cmd = Some (lit "tmux" :: args, [])
  ∨ parse_line cmd = Some (lit "tmux" :: args, [(OrIf, [lit "true"])])
  ∨ (∃ dir, parse_line cmd = Some ([lit "cd"; dir], [(AndIf, lit "tmux" :: args)])) →
  parse_tmux args = Some c →
  Q (exec_tmux c (env w)).2 →
  ∃ cp w1, run cmd w = (Ok cp, w1) ∧ Q (env w1).
Proof.
  intros Hex Hline Hc HQ.
  destruct (run_tmux w cmd args c Hex Hline Hc) as [cp Hrun]. by eexists _, _.
Qed.

Lemma cleared_ext user n tm tm' :
  exhausted tm' = exhausted tm → sessions tm' = sessions tm →
  next_pane tm' = next_pane tm → cleared user n tm → cleared user n tm'.
Proof. unfold cleared. by intros -> -> ->. Qed.

Lemma shared_ext user p ks m tm tm' :
  exhausted tm' = exhausted tm → sessions tm' = sessions tm →
  panes tm' = panes tm → next_pane tm' = next_pane tm →
  shared user p ks m tm → shared user p ks m tm'.
Proof. unfold shared. by intros -> -> -> ->. Qed.

Lemma shared_exhausted user p ks m tm : shared user p ks m tm → exhausted tm = false.
Proof. by intros [? _]. Qed.

Lemma cleared_exhausted user n tm : cleared user n tm → exhausted tm = false.
Proof. by intros [? _]. Qed.

Ltac line_args cmd :=
  let r := eval vm_compute in (parse_line cmd) in
  lazymatch r with
  | Some ([_; _], [(_, _ :: ?args)]) => args
  | Some (_ :: ?args, _) => args
  end.

Ltac line_command args :=
  let r := eval vm_compute in (parse_tmux args) in
  lazymatch r with Some ?c => c end.

Ltac solve_line :=
  first [ left; vm_compute; reflexivity
        | right; left; vm_compute; reflexivity
        | right; right; eexists; vm_compute; reflexivity ].

(** The call in the goal runs [m] next; [step] says that [m] returns and
    that a fact holds of the server it leaves.  The world reached takes the
    name [w] and the fact the name [H]. *)
Ltac advance w H step :=
  let a := fresh "a" in
  let w1 := fresh "w" in
  let Hrun := fresh "Hrun" in
  let Hst := fresh "Hst" in
  destruct step as (a & w1 & Hrun & Hst);
  rewrite (bind_ok _ _ _ _ _ Hrun); clear Hrun;
  clear dependent w; try clear a; rename w1 into w; rename Hst into H.

(** The next command line, a closed one, is a tmux command after which [Q]
    holds, by [tac]. *)
Ltac run_line w H Q Hex tac :=
  lazymatch goal with
  | |- ∃ w', (run ?cmd ≫= _) _ = _ ∧ _ =>
      let args := line_args cmd in
      let c := line_command args in
      let Hstep := fresh "Hstep" in
      assert (∃ cp w1, run cmd w = (Ok cp, w1) ∧ Q (env w1)) as Hstep
        by (apply (run_tmux_then Q w cmd args c Hex);
            [solve_line|vm_compute; reflexivity|tac]);
      advance w H Hstep
  end.

(** The next command line sends keys to the main session. *)
Ltac send_main w H :=
  lazymatch type of H with
  | shared ?u ?p ?ks ?m (env w) =>
      lazymatch goal with
      | |- ∃ w', (run ?cmd ≫= _) _ = _ ∧ _ =>
          let args := line_args cmd in
          let c := line_command args in
          lazymatch c with
          | SendKeys _ ?k =>
              let ks' := eval vm_compute in (ks ++ k) in
              run_line w H (shared u p ks' m) (shared_exhausted _ _ _ _ _ H)
                ltac:(apply (exec_send_main u p ks m k); exact H)
          end
      end
  end.

(** The next command line runs another program; [Q] stays true, by
    [tac]. *)
Ltac other_line w H Q Hex tac :=
  lazymatch goal with
  | |- ∃ w', (run ?cmd ≫= _) _ = _ ∧ _ =>
      let r := eval vm_compute in (parse_line cmd) in
      lazymatch r with
      | Some (?prog :: ?args, []) =>
          let Hstep := fresh "Hstep" in
          assert (∃ cp w1, run cmd w = (Ok cp, w1) ∧ Q (env w1)) as Hstep
            by (apply (run_other_then Q w cmd prog args Hex);
                [vm_compute; reflexivity
                |first [left; vm_compute; reflexivity
                       |right; split;
                        [vm_compute; reflexivity|eexists; vm_compute; reflexivity]]
                |intros; tac]);
          advance w H Hstep
      end
  end.

Lemma makedirs_tmux w path :
  ∃ w1, makedirs path w = (Ok tt, w1)
        ∧ exhausted (env w1) = exhausted (env w) ∧ sessions (env w1) = sessions (env w)
        ∧ panes (env w1) = panes (env w) ∧ next_pane (env w1) = next_pane (env w).
Proof. by eexists. Qed.

Lemma get_tmux_output_tmux w sid :
  exhausted (env w) = false → Shell.is_name sid →
  ∃ out w1, get_tmux_output sid w = (Ok out, w1) ∧ env w1 = env w.
Proof.
  intros Hex Hsafe. rewrite get_tmux_output_spec.
  destruct (sh_tmux (env w) capture_main_cmd
              [lit "-S"; lit "/tmp/tmux-0/default"; lit "capture-pane"; lit "-p";
               lit "-S"; lit "-1000"; lit "-t"; MAIN]
              (CapturePane MAIN) Hex) as [cp1 Hmain];
    [left; vm_compute; reflexivity|vm_compute; reflexivity|].
  rewrite exec_capture in Hmain.
  destruct (sh_tmux (env w) (capture_user_cmd sid)
              [lit "-S"; lit "/tmp/tmux-0/default"; lit "capture-pane"; lit "-p";
               lit "-S"; lit "-1000"; lit "-t"; user_session sid]
              (CapturePane (user_session sid)) Hex) as [cp2 Huser];
    [left; by apply parse_capture_user|vm_compute; reflexivity|].
  rewrite exec_capture in Huser.
  change (subprocess_run capture_main_cmd (env w)) with (sh capture_main_cmd (env w)).
  rewrite Hmain. simpl.
  change (subprocess_run (capture_user_cmd sid) (env w))
    with (sh (capture_user_cmd sid) (env w)).
  rewrite Huser. by eexists _, _.
Qed.

Lemma create_tmux_session_tmux (w : World server) (sid : str) :
  exhausted (env w) = false → Shell.is_name sid →
  ∃ w', create_tmux_session sid w = (Ok sid, w')
        ∧ shared (user_session sid) (next_pane (env w)) create_keys true (env w').
Proof.
  intros Hex Hsafe. unfold create_tmux_session.
  pose proof (user_session_not_main sid) as Hne.
  set (user := user_session sid) in *.
  remember (next_pane (env w)) as n eqn:Hn.
  assert (exhausted (env w) = false ∧ next_pane (env w) = n) as H by done.
  clear Hex Hn.
  assert (∃ a w1, makedirs (SESSIONS_DIR ++ py "/" ++ sid) w = (Ok a, w1)
                  ∧ exhausted (env w1) = false ∧ next_pane (env w1) = n) as Hstep
    by (by eexists _, _).
  advance w H Hstep.
  (* the main session and the mirror are killed *)
  run_line w H
    (λ tm, exhausted tm = false ∧ sessions tm !! MAIN = None ∧ next_pane tm = n)
    (proj1 H)
    ltac:(rewrite <- (proj2 H); apply exec_kill_main; exact (proj1 H)).
  assert (∃ cp w1,
            run (py "tmux kill-session -t claude_" ++ sid ++ py " 2>/dev/null || true") w
            = (Ok cp, w1) ∧ cleared user n (env w1)) as Hstep.
  { destruct H as (Hex & Hmain & Hn).
    apply (run_tmux_then _ w _ [lit "kill-session"; lit "-t"; user]
             (KillSession user) Hex);
      [right; left; by apply parse_kill_user|vm_compute; reflexivity
      |by apply exec_kill_user]. }
  advance w H Hstep.
  other_line w H (cleared user n) (cleared_exhausted _ _ _ H)
    ltac:(by eapply cleared_ext).
  other_line w H (cleared user n) (cleared_exhausted _ _ _ H)
    ltac:(by eapply cleared_ext).
  (* the main session is created anew, on a new pane *)
  run_line w H (shared user n [] false) (cleared_exhausted _ _ _ H)
    ltac:(by apply exec_new_main).
  other_line w H (shared user n [] false) (shared_exhausted _ _ _ _ _ H)
    ltac:(by eapply shared_ext).
  do 11 send_main w H.
  advance w H (sleep_then _ w 3000 H).
  (* the mirror joins the group of the main session *)
  lazymatch type of H with
  | shared _ _ ?ks _ _ =>
      assert (∃ cp w1,
                run (py "TMUX= tmux -S /tmp/tmux-0/default new-session -d -s claude_" ++
                     sid ++ py " -t claude-code-session") w
                = (Ok cp, w1) ∧ shared user n ks true (env w1)) as Hstep
  end.
  { apply (run_tmux_then _ w _
             [lit "-S"; lit "/tmp/tmux-0/default"; lit "new-session"; lit "-d";
              lit "-s"; user; lit "-t"; lit "claude-code-session"]
             (NewSession user (Some MAIN)) (shared_exhausted _ _ _ _ _ H));
      [left; by apply parse_new_user|vm_compute; reflexivity
      |by apply exec_new_user]. }
  advance w H Hstep.
  do 2 send_main w H.
  advance w H (sleep_then _ w 2000 H).
  lazymatch type of H with
  | shared _ _ ?ks _ _ =>
      let ks' := eval vm_compute in (ks ++ [lit " "; lit "C-h"]) in
      assert (∃ cp w1,
                run (py "tmux -S /tmp/tmux-0/default send-keys -t claude_" ++ sid ++
                     py " ' ' C-h") w
                = (Ok cp, w1) ∧ shared user n ks' true (env w1)) as Hstep;
      [apply (run_tmux_then _ w _
                [lit "-S"; lit "/tmp/tmux-0/default"; lit "send-keys"; lit "-t"; user;
                 lit " "; lit "C-h"]
                (SendKeys user [lit " "; lit "C-h"]) (shared_exhausted _ _ _ _ _ H));
       [left; by apply parse_keys_user|vm_compute; reflexivity
       |by apply (exec_send_user user n ks [lit " "; lit "C-h"])]|]
  end.
  advance w H Hstep.
  lazymatch type of H with
  | shared _ _ ?ks _ _ =>
      run_line w H (shared user n ks true) (shared_exhausted _ _ _ _ _ H)
        ltac:(exact H);
      replace create_keys with ks by (vm_compute; reflexivity)
  end.
  (* the capture at the end changes nothing *)
  destruct (get_tmux_output_tmux w sid (shared_exhausted _ _ _ _ _ H) Hsafe)
    as (out & w1 & Hrun & Henv).
  rewrite (bind_ok _ _ _ _ _ Hrun).
  exists w1. split; [done|]. by rewrite Henv.
Qed.

End TmuxFacts.

(** ** What the calls run first *)

Section Traces.
Context {E : Type} `{Env E}.
Implicit Types (w : World E).

(** "The trace has only grown." *)
Definition extends : relation (World E) := λ w w', ∃ t, trace w' = trace w ++ t.

#[export] Instance extends_preorder : PreOrder extends.
Proof.
  split.
  - intros w. exists []. by rewrite app_nil_r.
  - intros w1 w2 w3 [t1 H1] [t2 H2]. exists (t1 ++ t2).
    by rewrite H2, H1, app_assoc.
Qed.

#[export] Instance extends_env : EnvBlind extends.
Proof.
  split; intros.
  - exists []. by rewrite app_nil_r.
  - by eexists.
  - by eexists.
Qed.

Lemma run_first (cmd : str) {A} (k : CompletedProcess → M (World E) A) w :
  (∀ cp, rel extends (k cp)) →
  ∃ rest, trace ((run cmd ≫= k) w).2 = trace w ++ Run cmd :: rest.
Proof.
  intros Hk. unfold mbind, M_bind, run.
  destruct (subprocess_run cmd (env w)) as [[cp|e] e1]; simpl.
  - destruct (Hk cp (set_env e1 (log (Run cmd) w))) as [t Ht].
    exists t. rewrite Ht. simpl. by rewrite <- app_assoc.
  - by exists [].
Qed.

(** Both snapshot functions start with the capture of the main session,
    whatever the session id. *)
Lemma get_tmux_output_reads_main (session_id : str) w :
  ∃ rest, trace (get_tmux_output session_id w).2
          = trace w ++ Run capture_main_cmd :: rest.
Proof.
  rewrite get_tmux_output_spec.
  destruct (subprocess_run capture_main_cmd (env w)) as [[cp1|e] e1]; simpl.
  - destruct (subprocess_run (capture_user_cmd session_id) e1) as [[cp2|e] e2];
      simpl; eexists; by rewrite <- app_assoc.
  - by eexists.
Qed.

Lemma monitor_capture_reads_main (session_id : str) w :
  ∃ rest, trace (monitor_capture session_id w).2
          = trace w ++ Run capture_main_cmd :: rest.
Proof. apply run_first. intros cp. rel_auto. Qed.

(** A call of [create_tmux_session] that returns has first killed the main
    session and the mirror, and then created the main session. *)
Lemma create_tmux_session_trace (session_id r : str) w w' :
  create_tmux_session session_id w = (Ok r, w') →
  r = session_id
  ∧ ∃ rest,
      commands (trace w')
      = commands (trace w) ++
        kill_main_cmd :: kill_user_cmd session_id :: py "mkdir -p /tmp/tmux-0"
        :: py "chmod -R 777 /tmp/tmux-0" :: new_main_cmd :: rest.
Proof.
  unfold create_tmux_session. intros Hc.
  apply bind_ok_inv in Hc as ([] & w0 & Hmk & Hc).
  assert (trace w0 = trace w) as Hw0.
  { unfold makedirs in Hmk. destruct (os_makedirs _ _). by injection Hmk as _ <-. }
  apply bind_ok_inv in Hc as (r1 & w1 & [Ht1 _]%run_trace & Hc).
  apply bind_ok_inv in Hc as (r2 & w2 & [Ht2 _]%run_trace & Hc).
  apply bind_ok_inv in Hc as (r3 & w3 & [Ht3 _]%run_trace & Hc).
  apply bind_ok_inv in Hc as (r4 & w4 & [Ht4 _]%run_trace & Hc).
  apply bind_ok_inv in Hc as (r5 & w5 & [Ht5 _]%run_trace & Hc).
  match type of Hc with ?m w5 = _ =>
    assert (rel extends m) as Hrest by rel_auto;
    destruct (Hrest w5) as [t Ht]; rewrite Hc in Ht; simpl in Ht
  end.
  split.
  - repeat (apply bind_ok_inv in Hc as (? & ? & _ & Hc)). by injection Hc as <-.
  - exists (commands t). rewrite Ht, Ht5, Ht4, Ht3, Ht2, Ht1, Hw0.
    unfold commands. rewrite !omap_app. simpl. by rewrite <- !app_assoc.
Qed.

End Traces.

(** ** A project session that is found is kept *)

Section Reuse.
Context {E : Type} `{Env E}.
Implicit Types (w : World E).

(** "Every command run since satisfies [P]." *)
Definition only_runs (P : str → Prop) : relation (World E) :=
  λ w w', ∃ cs, commands (trace w') = commands (trace w) ++ cs ∧ Forall P cs.

#[export] Instance only_runs_preorder P : PreOrder (only_runs P).
Proof.
  split.
  - intros w. exists []. by rewrite app_nil_r.
  - intros w1 w2 w3 (cs1 & H1 & Hcs1) (cs2 & H2 & Hcs2). exists (cs1 ++ cs2).
    split; [by rewrite H2, H1, app_assoc|by apply Forall_app].
Qed.

Lemma only_runs_run P (cmd : str) : P cmd → rel (only_runs P) (run cmd).
Proof.
  intros HP w. unfold run. destruct (subprocess_run cmd (env w)) as [r e].
  exists [cmd]. simpl. rewrite commands_snoc. split; [done|by constructor].
Qed.

(** What runs no command. *)
Lemma only_runs_quiet P {A} (m : M (World E) A) :
  (∀ w, commands (trace (m w).2) = commands (trace w)) → rel (only_runs P) m.
Proof. intros Hm w. exists []. by rewrite Hm, app_nil_r. Qed.

Lemma only_runs_sleep P ms : rel (only_runs P) (sleep ms).
Proof. apply only_runs_quiet. intros w. simpl. by rewrite commands_snoc, app_nil_r. Qed.

Lemma only_runs_new_uuid P : rel (only_runs P) new_uuid.
Proof.
  apply only_runs_quiet. intros w. unfold new_uuid. by destruct (uuid4 (env w)).
Qed.

Lemma only_runs_configure_project session_name project_id project_path :
  rel (only_runs (sends_keys_to session_name))
    (configure_project session_name project_id project_path).
Proof.
  unfold configure_project.
  repeat first
    [apply rel_bind; [tc_solve| |intros ?]
    |apply only_runs_run; by eexists
    |apply rel_gets; tc_solve
    |apply rel_ret; tc_solve
    |match goal with |- rel _ (if ?b then _ else _) => destruct b end].
Qed.

(** A health check that finds the session runs, after [has-session] and the
    capture, only [send-keys] commands to the session, whether it returns or
    raises: it neither kills nor creates a session. *)
Lemma found_project_session_commands
    (w : World E) (project_id : str) (cp : CompletedProcess) (e1 : E) :
  let session_name := project_session_name project_id in
  subprocess_run (has_session_cmd session_name) (env w) = (Ok cp, e1) →
  returncode cp = 0%Z →
  ∃ sends,
    commands (trace (get_or_create_project_session project_id w).2)
    = commands (trace w) ++
      has_session_cmd session_name :: project_probe_cmd session_name :: sends
    ∧ Forall (sends_keys_to session_name) sends.
Proof.
  intros session_name Hhas Hzero.
  unfold get_or_create_project_session. fold session_name.
  match goal with |- context [try_except ?body _ w] =>
    assert (∀ w0, (try_except body (λ e, raise e) w0).2 = (body w0).2) as ->
      by (intros w0; unfold try_except; by destruct (body w0) as [[a|e] w1])
  end.
  rewrite (bind_ok _ _ _ _ _ (run_ok _ _ _ _ Hhas)).
  rewrite bool_decide_eq_true_2 by done.
  match goal with |- context [(run ?cmd ≫= ?k) ?w0] =>
    assert (∀ out, rel (only_runs (sends_keys_to session_name)) (k out)) as Hk;
    [|unfold mbind at 1, M_bind at 1, run at 1;
      destruct (subprocess_run cmd (env w0)) as [[out|e] e2]; simpl]
  end.
  - intros out.
    repeat first
      [apply rel_bind; [tc_solve| |intros ?]
      |apply only_runs_configure_project
      |apply only_runs_run; by eexists
      |apply only_runs_sleep
      |apply only_runs_new_uuid
      |apply rel_gets; tc_solve
      |apply rel_ret; tc_solve
      |apply only_runs_quiet; done
      |match goal with
       | |- rel _ (if ?b then _ else _) => destruct b
       | |- rel _ (match ?o with Some _ => _ | None => _ end) => destruct o
       end].
  - edestruct (Hk out) as (sends & Hsends & Hall).
    exists sends. split; [|done]. etrans; [exact Hsends|].
    simpl. rewrite !commands_snoc. by rewrite <- !app_assoc.
  - exists []. split; [|done]. rewrite !commands_snoc. by rewrite <- !app_assoc.
Qed.

End Reuse.
(** ** C4: what creating a session does to a session of the same name *)

(** C4 (as amended).  Creating a user session never answers that the session
    exists already.  On a tmux server that can spawn processes, for every
    identifier of name characters, [create_tmux_session] returns the
    identifier; it has first killed the main session and the session
    [claude_<id>], without asking whether they exist, and then created both
    anew: whatever [claude_<id>] showed before, it now shows the pane this
    call has created and set up.  A project session is created only when
    [tmux has-session] does not find it: when it does, in any environment,
    [get_or_create_project_session] runs after it one capture and then only
    [send-keys] commands addressed to the session, so it neither kills nor
    creates one. *)
Theorem C4_create_replaces_health_check_keeps
    (w : World TmuxModel.server) (session_id : str)
    {E : Type} `{Env E} (v : World E) (project_id : str)
    (cp : CompletedProcess) (e1 : E) :
  TmuxModel.exhausted (env w) = false →
  Shell.is_name session_id →
  subprocess_run (has_session_cmd (project_session_name project_id)) (env v)
  = (Ok cp, e1) →
  returncode cp = 0%Z →
  (∃ w',
     create_tmux_session session_id w = (Ok session_id, w')
     ∧ (∃ rest,
          commands (trace w')
          = commands (trace w) ++
            kill_main_cmd :: kill_user_cmd session_id :: py "mkdir -p /tmp/tmux-0"
            :: py "chmod -R 777 /tmp/tmux-0" :: new_main_cmd :: rest)
     ∧ TmuxModel.sessions (env w') !! user_session session_id
       = Some (TmuxModel.next_pane (env w))
     ∧ TmuxModel.panes (env w') !! TmuxModel.next_pane (env w)
       = Some {| TmuxModel.screen := []; TmuxModel.keys := create_keys |})
  ∧ (∃ sends,
       commands (trace (get_or_create_project_session project_id v).2)
       = commands (trace v) ++
         has_session_cmd (project_session_name project_id)
         :: project_probe_cmd (project_session_name project_id) :: sends
       ∧ Forall (sends_keys_to (project_session_name project_id)) sends).
Proof.
  intros Hex Hname Hhas Hzero. split.
  - destruct (create_tmux_session_tmux w session_id Hex Hname)
      as (w' & Hcall & _ & _ & Huser & Hpane & _).
    exists w'. split; [done|]. split; [|done].
    by destruct (create_tmux_session_trace _ _ _ _ Hcall) as [_ Hrest].
  - by apply found_project_session_commands with cp e1.
Qed.

(** Session ["s1"] created on a new server; project ["demo"] checked after
    its creation. *)
Lemma C4_create_replaces_health_check_keeps_witness :
  let w := init_world Scenarios.fresh_server in
  let v := Scenarios.demo_ready in
  let name := project_session_name (py "demo") in
  (∃ w',
     create_tmux_session (py "s1") w = (Ok (py "s1"), w')
     ∧ (∃ rest,
          commands (trace w')
          = commands (trace w) ++
            kill_main_cmd :: kill_user_cmd (py "s1") :: py "mkdir -p /tmp/tmux-0"
            :: py "chmod -R 777 /tmp/tmux-0" :: new_main_cmd :: rest)
     ∧ TmuxModel.sessions (env w') !! user_session (py "s1") = Some 0
     ∧ TmuxModel.panes (env w') !! 0
       = Some {| TmuxModel.screen := []; TmuxModel.keys := create_keys |})
  ∧ (∃ sends,
       commands (trace (get_or_create_project_session (py "demo") v).2)
       = commands (trace v) ++
         has_session_cmd name :: project_probe_cmd name :: sends
       ∧ Forall (sends_keys_to name) sends).
Proof.
  intros w v name.
  assert (Shell.is_name (py "s1")) as Hname by (by repeat constructor).
  assert (subprocess_run (has_session_cmd name) (env v)
          = (Ok {| returncode := 0; stdout := [] |}, env v)) as Hhas
    by (vm_compute; reflexivity).
  exact (C4_create_replaces_health_check_keeps w (py "s1") v (py "demo") _ _
           eq_refl Hname Hhas eq_refl).
Defined.

(** Session ["s1"] exists and its pane shows the assistant's answer.  A
    second creation under the same identifier returns the identifier as the
    first did; the pane and the answer are gone, and the name shows a new
    pane. *)
Lemma C4_second_create_replaces_the_session :
  let w := Scenarios.s1_at_work (py "The answer is 42.") in
  let '(r, w') := create_tmux_session (py "s1") w in
  TmuxModel.sessions (env w) !! py "claude_s1" = Some 0
  ∧ TmuxModel.screen <$> TmuxModel.panes (env w) !! 0 = Some (py "The answer is 42.")
  ∧ r = Ok (py "s1")
  ∧ TmuxModel.sessions (env w') !! py "claude_s1" = Some 1
  ∧ TmuxModel.panes (env w') !! 0 = None
  ∧ TmuxModel.screen <$> TmuxModel.panes (env w') !! 1 = Some [].
Proof. vm_compute. repeat split; reflexivity. Qed.

(** ** C10: user sessions share the main pane *)

Section Shared.
Import TmuxModel.

(** The capture of the main session right after a creation. *)
Lemma capture_main_shared (user : str) (p : nat) (ks : list str) (mirror : bool)
    (tm : server) :
  shared user p ks mirror tm →
  sh capture_main_cmd tm = (Ok {| returncode := 0; stdout := [] |}, tm).
Proof.
  intros (Hex & Hmain & _ & Hpane & _). unfold sh. rewrite Hex.
  replace (parse_line capture_main_cmd)
    with (Some ([lit "tmux"; lit "-S"; lit "/tmp/tmux-0/default"; lit "capture-pane";
                 lit "-p"; lit "-S"; lit "-1000"; lit "-t"; MAIN],
                @nil (connector * list str)))
    by (vm_compute; reflexivity).
  unfold exec_simple. rewrite decide_True by done.
  replace (parse_tmux _) with (Some (CapturePane MAIN)) by (vm_compute; reflexivity).
  simpl. rewrite Hmain. simpl. by rewrite Hpane.
Qed.

End Shared.

(** C10.  On a tmux server that can spawn processes, creating a user session
    for any identifier [new_id] of name characters returns, and the commands
    it runs start with the kill of the main session [claude-code-session],
    which it then creates again and sets up: afterwards the main session
    shows the pane this call has created, and a capture of the main session
    returns that pane's text and nothing of what the main session showed
    before.  The capture of the main session is the first thing the
    snapshot function and the poller of every session [other_id] run. *)
Theorem C10_create_replaces_the_shared_main_pane
    (w : World TmuxModel.server) (new_id other_id : str) :
  TmuxModel.exhausted (env w) = false →
  Shell.is_name new_id →
  ∃ w',
    create_tmux_session new_id w = (Ok new_id, w')
    ∧ (∃ rest,
         commands (trace w')
         = commands (trace w) ++
           kill_main_cmd :: kill_user_cmd new_id :: py "mkdir -p /tmp/tmux-0"
           :: py "chmod -R 777 /tmp/tmux-0" :: new_main_cmd :: rest)
    ∧ TmuxModel.sessions (env w') !! MAIN = Some (TmuxModel.next_pane (env w))
    ∧ TmuxModel.panes (env w') !! TmuxModel.next_pane (env w)
      = Some {| TmuxModel.screen := []; TmuxModel.keys := create_keys |}
    ∧ subprocess_run capture_main_cmd (env w')
      = (Ok {| returncode := 0; stdout := [] |}, env w')
    ∧ (∃ rest, trace (get_tmux_output other_id w').2
               = trace w' ++ Run capture_main_cmd :: rest)
    ∧ (∃ rest, trace (monitor_capture other_id w').2
               = trace w' ++ Run capture_main_cmd :: rest).
Proof.
  intros Hex Hname.
  destruct (create_tmux_session_tmux w new_id Hex Hname) as (w' & Hcall & Hshared).
  exists w'. split; [done|].
  split; [by destruct (create_tmux_session_trace _ _ _ _ Hcall) as [_ Hrest]|].
  pose proof (capture_main_shared _ _ _ _ _ Hshared) as Hcapture.
  destruct Hshared as (_ & Hmain & _ & Hpane & _).
  repeat split; try done.
  - apply get_tmux_output_reads_main.
  - apply monitor_capture_reads_main.
Qed.

(** Session ["s1"] is at work, the main pane shows the assistant's answer,
    and session ["s2"] is created. *)
Lemma C10_create_replaces_the_shared_main_pane_witness :
  let w := Scenarios.s1_at_work (py "The answer is 42.") in
  (∃ e, subprocess_run capture_main_cmd (env w)
        = (Ok {| returncode := 0; stdout := py "The answer is 42." |}, e))
  ∧ ∃ w',
      create_tmux_session (py "s2") w = (Ok (py "s2"), w')
      ∧ (∃ rest,
           commands (trace w')
           = commands (trace w) ++
             kill_main_cmd :: kill_user_cmd (py "s2") :: py "mkdir -p /tmp/tmux-0"
             :: py "chmod -R 777 /tmp/tmux-0" :: new_main_cmd :: rest)
      ∧ TmuxModel.sessions (env w') !! MAIN = Some 1
      ∧ TmuxModel.panes (env w') !! 1
        = Some {| TmuxModel.screen := []; TmuxModel.keys := create_keys |}
      ∧ subprocess_run capture_main_cmd (env w')
        = (Ok {| returncode := 0; stdout := [] |}, env w')
      ∧ (∃ rest, trace (get_tmux_output (py "s1") w').2
                 = trace w' ++ Run capture_main_cmd :: rest)
      ∧ (∃ rest, trace (monitor_capture (py "s1") w').2
                 = trace w' ++ Run capture_main_cmd :: rest).
Proof.
  intros w. split.
  - eexists. vm_compute. reflexivity.
  - assert (Shell.is_name (py "s2")) as Hname by (by repeat constructor).
    exact (C10_create_replaces_the_shared_main_pane w (py "s2") (py "s1")
             eq_refl Hname).
Defined.

(** * The rest of the request handling *)

(** ** Requests that are refused *)

(** X1.  A request whose token does not verify changes nothing: the four
    Socket.IO handlers answer the sender with one [error] message
    ["Token invalide"] and do nothing else, and the three routes that touch
    the session state answer an error and leave the world as it was.  No
    command is run, no registry is written, no room is entered and no
    poller is started. *)
Theorem X1_invalid_token_changes_nothing {E : Type} `{Env E}
    (w : World E) (token e : str) :
  jwt_decode token (env w) = Raise e →
  let refused sid :=
    (Ok tt, log (Emit (py "error") (error_data (py "Token invalide")) sid
                   (members sid w)) w) in
  (∀ sid data, j_token data = token → handle_join sid data w = refused sid)
  ∧ (∀ sid data, m_token data = token → handle_message sid data w = refused sid)
  ∧ (∀ sid data, jp_token data = token →
       handle_join_project sid data w = refused sid)
  ∧ (∀ sid data, pm_token data = token →
       handle_project_message sid data w = refused sid)
  ∧ new_session token w = (Ok None, w)
  ∧ (∀ project_id, create_project_session token project_id w = (Ok None, w))
  ∧ (∀ project_id, delete_project token project_id w = (Ok false, w)).
Proof.
  intros Hbad refused.
  assert (verify_token token w = (Ok None, w)) as Htoken
    by (unfold verify_token, gets; by rewrite Hbad).
  repeat split.
  - intros sid data <-. unfold handle_join.
    by rewrite (bind_ok _ _ _ _ _ Htoken).
  - intros sid data <-. unfold handle_message.
    by rewrite (bind_ok _ _ _ _ _ Htoken).
  - intros sid data <-. unfold handle_join_project.
    by rewrite (bind_ok _ _ _ _ _ Htoken).
  - intros sid data <-. unfold handle_project_message.
    by rewrite (bind_ok _ _ _ _ _ Htoken).
  - unfold new_session. by rewrite (bind_ok _ _ _ _ _ Htoken).
  - intros project_id. unfold create_project_session.
    by rewrite (bind_ok _ _ _ _ _ Htoken).
  - intros project_id. unfold delete_project.
    by rewrite (bind_ok _ _ _ _ _ Htoken).
Qed.

(** A server where no token verifies but ["tok"]. *)
Lemma X1_invalid_token_changes_nothing_witness :
  let w := init_world Scenarios.fresh_server in
  new_session (py "forged") w = (Ok None, w)
  ∧ delete_project (py "forged") (py "demo") w = (Ok false, w).
Proof.
  intros w.
  assert (jwt_decode (py "forged") (env w) = Raise (py "Invalid token")) as Hbad
    by (vm_compute; reflexivity).
  pose proof (X1_invalid_token_changes_nothing w (py "forged") _ Hbad)
    as (_ & _ & _ & _ & Hnew & _ & Hdelete).
  split; [exact Hnew|apply Hdelete].
Defined.

(** Decides the test a statement branches on, at a concrete input. *)
Ltac decide_branch H :=
  lazymatch type of H with
  | if ?b then _ else _ =>
      let v := eval vm_compute in b in
      let Hb := fresh "Hb" in
      assert (b = v) as Hb by (vm_compute; reflexivity);
      rewrite Hb in H; clear Hb
  | _ => idtac
  end.

Section Requests.
Context {E : Type} `{Env E}.
Implicit Types (w : World E).

#[export] Instance extends_emit : EmitBlind (extends (E:=E)).
Proof. intros ev room d w. by eexists. Qed.

#[export] Instance extends_rooms : RoomsBlind (extends (E:=E)).
Proof. intros m w. exists []. by rewrite app_nil_r. Qed.

#[export] Instance extends_registry : RegistryBlind (extends (E:=E)).
Proof. split; intros m w; exists []; by rewrite app_nil_r. Qed.

#[export] Instance extends_start key t : StartGuard (extends (E:=E)) key t.
Proof. intros w _. by eexists. Qed.

(** The commands of an extension of the trace. *)
Lemma extends_commands w w' (cmd : str) :
  extends (set_env (env w') (log (Run cmd) w)) w' →
  ∃ rest, commands (trace w') = commands (trace w) ++ cmd :: rest.
Proof.
  intros [t Ht]. exists (commands t). rewrite Ht. simpl.
  unfold commands. rewrite !omap_app. simpl. by rewrite <- app_assoc.
Qed.

Lemma gets_bind {S A B} (f : S → A) (k : A → M S B) (s : S) :
  (gets f ≫= k) s = k (f s) s.
Proof. reflexivity. Qed.

Lemma ret_bind {S A B} (a : A) (k : A → M S B) (s : S) : (mret a ≫= k) s = k a s.
Proof. reflexivity. Qed.

Lemma bind_assoc {S A B C} (m : M S A) (f : A → M S B) (g : B → M S C) (s : S) :
  ((m ≫= f) ≫= g) s = (m ≫= λ a, f a ≫= g) s.
Proof. unfold mbind, M_bind. by destruct (m s) as [[a|e] s1]. Qed.

(** What follows leaves the view [f] as it was. *)
Lemma bind_same_view {X A B} (f : World E → X) (m : M (World E) A)
    (k : A → M (World E) B) w :
  (∀ a, rel (same f) (k a)) → f ((m ≫= k) w).2 = f (m w).2.
Proof.
  intros Hk. unfold mbind, M_bind.
  destruct (m w) as [[a|e] w1]; [apply Hk|done].
Qed.

(** A handler that catches everything and answers. *)
Lemma try_except_unit {S} (body : M S unit) (handler : str → M S unit) (s : S) :
  (∀ e s1, (handler e s1).1 = Ok tt) → (try_except body handler s).1 = Ok tt.
Proof.
  intros Hh. unfold try_except. destruct (body s) as [[[]|e] s1]; [done|apply Hh].
Qed.

(** A protected block that starts with a command. *)
Lemma try_run_first (cmd : str) {A} (k : CompletedProcess → M (World E) A)
    (handler : str → M (World E) A) w :
  (∀ cp, rel extends (k cp)) → (∀ e, rel extends (handler e)) →
  ∃ rest, commands (trace (try_except (run cmd ≫= k) handler w).2)
          = commands (trace w) ++ cmd :: rest.
Proof.
  intros Hk Hh.
  assert (extends (log (Run cmd) w) (try_except (run cmd ≫= k) handler w).2)
    as [t Ht].
  { unfold try_except, mbind, M_bind, run.
    destruct (subprocess_run cmd (env w)) as [[cp|e] e1].
    - specialize (Hk cp (set_env e1 (log (Run cmd) w))).
      destruct (k cp _) as [[a|e] w1]; simpl in *; [done|].
      etrans; [exact Hk|apply Hh].
    - apply (Hh e (set_env e1 (log (Run cmd) w))). }
  exists (commands t). rewrite Ht. simpl.
  unfold commands. rewrite !omap_app. simpl. by rewrite <- app_assoc.
Qed.

End Requests.

(** X2.  A [message] with a valid token reaches tmux only for a registered
    session.  For a session id that is not in [active_sessions] the handler
    answers the sender with one [error] message and does nothing else; for a
    registered one it never raises, and the first command it runs is the
    [send-keys] of the escaped message to the main session. *)
Theorem X2_message_needs_a_registered_session {E : Type} `{Env E}
    (w : World E) (sid : str) (data : message_data) (payload : Payload) :
  jwt_decode (m_token data) (env w) = Ok payload →
  if has_key (active_sessions w) (m_session_id data)
  then (handle_message sid data w).1 = Ok tt
       ∧ ∃ rest,
           commands (trace (handle_message sid data w).2)
           = commands (trace w) ++
             (MAIN_KEYS ++ py "'" ++ escape (m_message data) ++ py "' C-m") :: rest
  else handle_message sid data w
       = (Ok tt, log (Emit (py "error")
                        (error_data (py "Session non trouv" ++ e_acute ++ py "e"))
                        sid (members sid w)) w).
Proof.
  intros Hgood.
  assert (verify_token (m_token data) w = (Ok (Some payload), w)) as Htoken
    by (unfold verify_token, gets; by rewrite Hgood).
  unfold handle_message. rewrite (bind_ok _ _ _ _ _ Htoken).
  rewrite gets_bind.
  destruct (has_key (active_sessions w) (m_session_id data)); [|reflexivity].
  split.
  - by apply try_except_unit.
  - unfold send_to_tmux, try_except. rewrite bind_assoc.
    apply (try_run_first _ _ (λ e, emit sid (py "error") _)).
    + intros cp. rel_auto.
    + intros e. rel_auto.
Qed.

Lemma X2_message_needs_a_registered_session_witness :
  let w := serve_all Scenarios.first_joined (init_world Scenarios.fresh_server) in
  let data := {| m_session_id := py "s2"; m_message := py "ls"; m_token := py "tok" |} in
  handle_message Scenarios.conn_a data w
  = (Ok tt, log (Emit (py "error")
                   (error_data (py "Session non trouv" ++ e_acute ++ py "e"))
                   Scenarios.conn_a (members Scenarios.conn_a w)) w).
Proof.
  intros w data.
  assert (jwt_decode (m_token data) (env w) = Ok Scenarios.ann) as Hgood
    by (vm_compute; reflexivity).
  pose proof (X2_message_needs_a_registered_session w Scenarios.conn_a data _ Hgood)
    as Hcheck.
  decide_branch Hcheck. exact Hcheck.
Defined.

Section MessageQuoting.
Import Shell.

Lemma words_send_user (sid command : str) :
  is_name sid →
  words (py "tmux -S /tmp/tmux-0/default send-keys -t claude_" ++ sid ++ py " '" ++
         escape command ++ py "' C-m")
  = Some [bare "tmux"; bare "-S"; bare "/tmp/tmux-0/default"; bare "send-keys";
          bare "-t"; Word false (py "claude_" ++ sid); Word true command; bare "C-m"].
Proof.
  intros Hs%is_name_plain. unfold words.
  transitivity
    ((bare "tmux" ::.) <$> ((bare "-S" ::.) <$> ((bare "/tmp/tmux-0/default" ::.) <$> ((bare "send-keys" ::.) <$> ((bare "-t" ::.) <$> (lex false (Some (false, py "claude_")) (sid ++ py " '" ++ escape command ++ py "' C-m")))))));
    [by vm_compute|].
  rewrite lex_plain by done.
  transitivity
    ((bare "tmux" ::.) <$> ((bare "-S" ::.) <$> ((bare "/tmp/tmux-0/default" ::.) <$> ((bare "send-keys" ::.) <$> ((bare "-t" ::.) <$> ((Word false (py "claude_" ++ sid) ::.) <$> (lex true (Some (true, [])) (escape command ++ py "' C-m"))))))));
    [reflexivity|].
  rewrite (lex_escape command _ []). reflexivity.
Qed.

End MessageQuoting.

(** X3.  The escaping of [send_to_tmux] is undone by the shell, whatever
    the message holds: a call that returns has run, first, the [send-keys]
    line for the main session and then the one for the mirror, followed by
    the two [refresh-client] lines and the capture; and the shell splits
    each [send-keys] line into the tmux words, the message itself as one
    literal argument, and the key [C-m]. *)
Theorem X3_send_to_tmux_passes_the_message_unchanged {E : Type} `{Env E}
    (w w' : World E) (session_id command out : str) :
  Shell.is_name session_id →
  send_to_tmux session_id command w = (Ok out, w') →
  let cmd_main := MAIN_KEYS ++ py "'" ++ escape command ++ py "' C-m" in
  let cmd := py "tmux -S /tmp/tmux-0/default send-keys -t claude_" ++ session_id ++
             py " '" ++ escape command ++ py "' C-m" in
  (∃ rest,
     commands (trace w')
     = commands (trace w) ++
       cmd_main :: cmd :: refresh_user_cmd session_id :: refresh_main_cmd
       :: capture_main_cmd :: rest)
  ∧ Shell.words cmd_main
    = Some [Shell.bare "tmux"; Shell.bare "-S"; Shell.bare "/tmp/tmux-0/default";
            Shell.bare "send-keys"; Shell.bare "-t"; Shell.bare "claude-code-session";
            Shell.Word true command; Shell.bare "C-m"]
  ∧ Shell.words cmd
    = Some [Shell.bare "tmux"; Shell.bare "-S"; Shell.bare "/tmp/tmux-0/default";
            Shell.bare "send-keys"; Shell.bare "-t";
            Shell.Word false (py "claude_" ++ session_id);
            Shell.Word true command; Shell.bare "C-m"].
Proof.
  intros Hname Hcall cmd_main cmd. split; [|split].
  - unfold send_to_tmux in Hcall.
    apply bind_ok_inv in Hcall as (r1 & w1 & [Ht1 _]%run_trace & Hcall).
    apply bind_ok_inv in Hcall as (r2 & w2 & [Ht2 _]%run_trace & Hcall).
    apply bind_ok_inv in Hcall as (r3 & w3 & [Ht3 _]%run_trace & Hcall).
    apply bind_ok_inv in Hcall as (r4 & w4 & [Ht4 _]%run_trace & Hcall).
    apply bind_ok_inv in Hcall as ([] & w5 & Ht5%sleep_trace & Hcall).
    apply bind_ok_inv in Hcall as (r6 & w6 & [Ht6 _]%run_trace & Hcall).
    match type of Hcall with ?m w6 = _ =>
      assert (rel extends m) as Hrest by rel_auto;
      destruct (Hrest w6) as [t Ht]; rewrite Hcall in Ht; simpl in Ht
    end.
    exists (commands t). rewrite Ht, Ht6, Ht5, Ht4, Ht3, Ht2, Ht1.
    unfold commands. rewrite !omap_app. simpl. by rewrite <- !app_assoc.
  - apply send_to_tmux_words.
  - by apply words_send_user.
Qed.

Lemma X3_send_to_tmux_passes_the_message_unchanged_witness :
  let w := (create_tmux_session (py "s1") (init_world Scenarios.fresh_server)).2 in
  let w' := (send_to_tmux (py "s1") (py "it's") w).2 in
  Shell.words (py "tmux -S /tmp/tmux-0/default send-keys -t claude_s1 'it'\''s' C-m")
  = Some [Shell.bare "tmux"; Shell.bare "-S"; Shell.bare "/tmp/tmux-0/default";
          Shell.bare "send-keys"; Shell.bare "-t"; Shell.bare "claude_s1";
          Shell.Word true (py "it's"); Shell.bare "C-m"]
  ∧ Scenarios.pane_keys MAIN (env w')
    = Scenarios.pane_keys MAIN (env w) ++ [py "it's"; py "C-m"; py "it's"; py "C-m"].
Proof.
  intros w w'.
  assert (Shell.is_name (py "s1")) as Hname by (by repeat constructor).
  assert (∃ out, (send_to_tmux (py "s1") (py "it's") w).1 = Ok out) as [out Hout]
    by (eexists; vm_compute; reflexivity).
  assert (send_to_tmux (py "s1") (py "it's") w = (Ok out, w')) as Hcall
    by (rewrite <- Hout; unfold w'; by destruct (send_to_tmux _ _ w)).
  split.
  - exact (proj2 (proj2 (X3_send_to_tmux_passes_the_message_unchanged
                           w w' (py "s1") (py "it's") out Hname Hcall))).
  - vm_compute. reflexivity.
Defined.

(** ** Sessions and their identifiers *)

Section State.
Context {E : Type} `{Env E}.
Implicit Types (w : World E).

(** The state of app.py: the three registries and the rooms. *)
Definition app_state w : gmap str str * gmap str thread * gmap str str
                         * gmap str (gset str) :=
  (active_sessions w, output_threads w, project_sessions w, rooms w).

#[export] Instance app_state_env : EnvBlind (same app_state).
Proof. by split. Qed.
#[export] Instance app_state_emit : EmitBlind (same app_state).
Proof. by intros ev room d w. Qed.

#[export] Instance project_sessions_env : EnvBlind (same (project_sessions (E:=E))).
Proof. by split. Qed.

Lemma new_uuid_spec w :
  new_uuid w = (Ok (uuid4 (env w)).1, set_env (uuid4 (env w)).2 w).
Proof. unfold new_uuid. by destruct (uuid4 (env w)). Qed.

(** A step that leaves the view [f] of the world as it was. *)
Lemma bind_ok_same {X A B} (f : World E → X) (m : M (World E) A)
    (k : A → M (World E) B) w w' (b : B) :
  rel (same f) m → (m ≫= k) w = (Ok b, w') →
  ∃ a w1, f w1 = f w ∧ k a w1 = (Ok b, w').
Proof.
  intros Hm Hcall. apply bind_ok_inv in Hcall as (a & w1 & Hrun & Hcall).
  exists a, w1. split; [|done]. specialize (Hm w). by rewrite Hrun in Hm.
Qed.

End State.

(** X4.  [new_session] with a valid token registers the session it names
    only once the tmux session has been created.  When it answers, the
    session id is the UUID drawn and [active_sessions] has gained exactly
    that id, under the user of the token; when the creation raises,
    [active_sessions] is as it was.  In both cases the other registries and
    the rooms are untouched. *)
Theorem X4_new_session_registers_what_it_created {E : Type} `{Env E}
    (w : World E) (token : str) (payload : Payload) :
  jwt_decode token (env w) = Ok payload →
  let r := (new_session token w).1 in
  let w' := (new_session token w).2 in
  output_threads w' = output_threads w
  ∧ project_sessions w' = project_sessions w
  ∧ rooms w' = rooms w
  ∧ match r with
    | Ok (Some session_id) =>
        session_id = (uuid4 (env w)).1
        ∧ active_sessions w'
          = <[session_id := user_id payload]> (active_sessions w)
    | Ok None => False
    | Raise _ => active_sessions w' = active_sessions w
    end.
Proof.
  intros Hgood.
  assert (verify_token token w = (Ok (Some payload), w)) as Htoken
    by (unfold verify_token, gets; by rewrite Hgood).
  unfold new_session. rewrite (bind_ok _ _ _ _ _ Htoken).
  rewrite (bind_ok _ _ _ _ _ (new_uuid_spec w)).
  set (session_id := (uuid4 (env w)).1).
  set (w0 := set_env (uuid4 (env w)).2 w).
  pose proof (rel_create_tmux_session (same app_state) session_id w0) as Hsame.
  unfold mbind, M_bind.
  destruct (create_tmux_session session_id w0) as [[out|e] w1]; simpl in *;
    unfold same, app_state in Hsame; simpl in Hsame;
    injection Hsame as -> -> -> ->; done.
Qed.

Lemma X4_new_session_registers_what_it_created_witness :
  let w := init_world Scenarios.fresh_server in
  let w' := (new_session (py "tok") w).2 in
  (new_session (py "tok") w).1 = Ok (Some (py "uuid-0"))
  ∧ output_threads w' = output_threads w
  ∧ project_sessions w' = project_sessions w
  ∧ rooms w' = rooms w.
Proof.
  intros w w'. split; [vm_compute; reflexivity|].
  assert (jwt_decode (py "tok") (env w) = Ok Scenarios.ann) as Hgood
    by (vm_compute; reflexivity).
  destruct (X4_new_session_registers_what_it_created w (py "tok") _ Hgood)
    as (Hthreads & Hprojects & Hrooms & _).
  by repeat split.
Defined.

(** X5.  The id [get_or_create_project_session] returns is the id it has
    registered: after a call that returns, [project_sessions] holds the
    returned id under the session name of the project, and the entries of the
    other projects are as they were.  When [has-session] finds the tmux
    session and an id was registered already, that id is returned again. *)
Theorem X5_project_session_id_is_the_registered_one {E : Type} `{Env E}
    (w w' : World E) (project_id session_id : str) :
  get_or_create_project_session project_id w = (Ok session_id, w') →
  let session_name := project_session_name project_id in
  project_sessions w' !! session_name = Some session_id
  ∧ (∀ name, name ≠ session_name →
       project_sessions w' !! name = project_sessions w !! name)
  ∧ (∀ cp e1 known,
       subprocess_run (has_session_cmd session_name) (env w) = (Ok cp, e1) →
       returncode cp = 0%Z →
       project_sessions w !! session_name = Some known →
       session_id = known ∧ project_sessions w' = project_sessions w).
Proof.
  intros Hcall session_name.
  unfold get_or_create_project_session in Hcall. fold session_name in Hcall.
  apply try_reraise_ok in Hcall.
  apply bind_ok_inv in Hcall as (cp0 & w0 & Hhas & Hcall).
  assert (project_sessions w0 = project_sessions w) as Hw0
    by (pose proof (rel_run (same project_sessions) (has_session_cmd session_name) w)
          as Hr; unfold same in Hr; by rewrite Hhas in Hr).
  assert (found_case :
    ∀ w1, project_sessions w1 = project_sessions w →
      (gets (λ w2 : World E, project_sessions w2 !! session_name)
       ≫= λ known : option str,
            match known with
            | Some session_id0 => mret session_id0
            | None =>
                new_uuid
                ≫= λ session_id0 : str,
                     project_sessions_set session_name session_id0
                     ≫= λ _ : (), mret session_id0
            end) w1 = (Ok session_id, w') →
      project_sessions w' !! session_name = Some session_id
      ∧ (∀ name, name ≠ session_name →
           project_sessions w' !! name = project_sessions w !! name)
      ∧ (∀ known, project_sessions w !! session_name = Some known →
           session_id = known ∧ project_sessions w' = project_sessions w)).
  { intros w1 Hw1 Hend. rewrite gets_bind, Hw1 in Hend.
    destruct (project_sessions w !! session_name) as [sid|] eqn:Hknown.
    - injection Hend as <- <-. rewrite Hw1.
      split; [done|]. split; [done|]. by intros known [= <-].
    - rewrite (bind_ok _ _ _ _ _ (new_uuid_spec w1)) in Hend.
      injection Hend as <- <-. simpl. rewrite Hw1.
      split; [by rewrite lookup_insert_eq|].
      split; [|done]. intros name Hne. by rewrite lookup_insert_ne. }
  destruct (bool_decide (returncode cp0 = 0%Z)) eqn:Hrc.
  - apply (bind_ok_same project_sessions) in Hcall
      as (out & w1 & Hw1 & Hcall); [|by rel_auto].
    apply (bind_ok_same project_sessions) in Hcall
      as ([] & w2 & Hw2 & Hcall); [|by rel_auto].
    rewrite Hw1, Hw0 in Hw2.
    destruct (found_case w2 Hw2 Hcall) as (Hreg & Hothers & Hknown).
    split; [done|]. split; [done|].
    intros cp e1 known _ _ Hk. by apply Hknown.
  - do 6 (let Hq := fresh "Hq" in
          apply (bind_ok_same project_sessions) in Hcall
            as (? & ? & Hq & Hcall); [|by rel_auto];
          rewrite Hw0 in Hq; clear Hw0; rename Hq into Hw0).
    rewrite (bind_ok _ _ _ _ _ (new_uuid_spec _)) in Hcall.
    injection Hcall as <- <-. simpl. rewrite Hw0.
    split; [by rewrite lookup_insert_eq|]. split.
    + intros name Hne. by rewrite lookup_insert_ne.
    + intros cp e1 known Hhas' Hzero _.
      apply run_trace in Hhas as [_ (e0 & Hhas & _)].
      rewrite Hhas' in Hhas. injection Hhas as -> _.
      apply bool_decide_eq_false in Hrc. done.
Qed.

Lemma X5_project_session_id_is_the_registered_one_witness :
  let w := init_world Scenarios.demo_server in
  let w' := (get_or_create_project_session (py "demo") w).2 in
  project_sessions w' !! py "claude_project_demo" = Some (py "uuid-0").
Proof.
  intros w w'.
  assert (get_or_create_project_session (py "demo") w = (Ok (py "uuid-0"), w'))
    as Hcall by (vm_compute; reflexivity).
  exact (proj1 (X5_project_session_id_is_the_registered_one w w' (py "demo")
                  (py "uuid-0") Hcall)).
Defined.

(** ** What the registries keep *)

Section Registries.
Context {E : Type} `{Env E}.
Implicit Types (w : World E).

(** "No session and no poller left the registries." *)
Definition registered_stay : relation (World E) :=
  λ w w',
    (∀ k, has_key (active_sessions w) k = true → has_key (active_sessions w') k = true)
    ∧ (∀ k, has_key (output_threads w) k = true → has_key (output_threads w') k = true).

#[export] Instance registered_stay_preorder : PreOrder registered_stay.
Proof.
  split.
  - by intros w.
  - intros w1 w2 w3 [Ha12 Ht12] [Ha23 Ht23]. split; auto.
Qed.

#[export] Instance registered_stay_env : EnvBlind registered_stay.
Proof. by split. Qed.
#[export] Instance registered_stay_emit : EmitBlind registered_stay.
Proof. by intros ev room d w. Qed.
#[export] Instance registered_stay_rooms : RoomsBlind registered_stay.
Proof. by intros m w. Qed.
#[export] Instance registered_stay_start key t : StartGuard registered_stay key t.
Proof.
  intros w _. split; [done|]. intros k Hk. simpl.
  rewrite has_key_insert. by destruct (decide (key = k)).
Qed.

Lemma registered_stay_active_set (session_id user_id : str) :
  rel registered_stay (active_sessions_set session_id user_id).
Proof.
  intros w. split; [|done]. intros k Hk. simpl.
  rewrite has_key_insert. by destruct (decide (session_id = k)).
Qed.

Lemma registered_stay_projects_set (session_name session_id : str) :
  rel registered_stay (project_sessions_set session_name session_id).
Proof. by intros w. Qed.

Lemma registered_stay_projects_del (session_name : str) :
  rel registered_stay (project_sessions_del session_name).
Proof. by intros w. Qed.

End Registries.

Ltac stay_auto :=
  repeat (cbv zeta;
          first [apply registered_stay_active_set
                |apply registered_stay_projects_set
                |apply registered_stay_projects_del
                |rel_step]).

Section RegistriesKept.
Context {E : Type} `{Env E}.
Implicit Types (w : World E).

Lemma serve_registered_stay (r : request) w : registered_stay w (serve r w).
Proof.
  destruct r; simpl.
  - apply (rel_join_room registered_stay sid sid); tc_solve.
  - reflexivity.
  - assert (rel registered_stay (handle_join sid data)) as Hr by stay_auto.
    apply Hr.
  - apply (rel_handle_message registered_stay); tc_solve.
  - apply (rel_handle_join_project registered_stay); tc_solve.
  - apply (rel_handle_project_message registered_stay); tc_solve.
  - assert (rel registered_stay (new_session token)) as Hr by stay_auto.
    apply Hr.
  - assert (rel registered_stay (create_project_session token project_id)) as Hr
      by stay_auto.
    apply Hr.
  - assert (rel registered_stay (delete_project token project_id)) as Hr
      by stay_auto.
    apply Hr.
Qed.

Lemma serve_all_registered_stay (rs : list request) w :
  registered_stay w (serve_all rs w).
Proof.
  revert w. induction rs as [|r rs IH]; intros w; simpl; [reflexivity|].
  etrans; [apply serve_registered_stay|apply IH].
Qed.

End RegistriesKept.

(** X6.  No request removes an entry from [active_sessions] or from
    [output_threads].  Whatever requests are served after a session [k] was
    registered, [k] is still registered, so the loop of its poller, run in
    the state reached for any number of ticks, has not ended; and whatever
    requests are served after a poller was started under the key [k], the
    key is still held, so a later [join] for [k] or [join_project] for the
    project of [k] starts no poller. *)
Theorem X6_registered_sessions_are_never_removed {E : Type} `{Env E}
    (w : World E) (rs : list request) (k : str) :
  let w' := serve_all rs w in
  (has_key (active_sessions w) k = true →
   has_key (active_sessions w') k = true
   ∧ ∀ ticks client_id last,
       (monitor_tmux_output_loop ticks k client_id (w', last)).1 = Ok Running)
  ∧ (has_key (output_threads w) k = true →
     has_key (output_threads w') k = true
     ∧ (∀ sid data, j_session_id data = k →
          starts (trace (serve (Join sid data) w')) = starts (trace w'))
     ∧ (∀ sid data, project_session_name (jp_project_id data) = k →
          starts (trace (serve (JoinProject sid data) w')) = starts (trace w'))).
Proof.
  intros w'. destruct (serve_all_registered_stay rs w) as [Hactive Hthreads].
  split.
  - intros Hk. split; [by apply Hactive|].
    intros ticks client_id last. by apply monitor_loop_running, Hactive.
  - intros Hk%Hthreads. split; [done|]. split.
    + intros sid data <-.
      pose proof (rel_handle_join (polled_already (j_session_id data)) sid data w'
                    Hk) as Hview.
      by injection Hview.
    + intros sid data <-.
      pose proof (rel_handle_join_project
                    (polled_already (project_session_name (jp_project_id data)))
                    sid data w' Hk) as Hview.
      by injection Hview.
Qed.

(** The project ["demo"] has a session and a poller; it is deleted, its
    session is created again and a second connection joins it: the poller
    registry still holds the key and no poller is started. *)
Lemma X6_registered_sessions_are_never_removed_witness :
  let w := serve (JoinProject Scenarios.conn_a Scenarios.join_demo) Scenarios.demo_ready in
  let rs := [DeleteProject (py "tok") (py "demo");
             CreateProjectSession (py "tok") (py "demo")] in
  let w' := serve_all rs w in
  has_key (output_threads w') (py "claude_project_demo") = true
  ∧ starts (trace (serve (JoinProject Scenarios.conn_b Scenarios.join_demo) w'))
    = starts (trace w').
Proof.
  intros w rs w'.
  assert (has_key (output_threads w) (py "claude_project_demo") = true) as Hkey
    by (vm_compute; reflexivity).
  destruct (proj2 (X6_registered_sessions_are_never_removed w rs
                     (py "claude_project_demo")) Hkey) as (Hheld & _ & Hjoin).
  split; [exact Hheld|]. by apply Hjoin.
Defined.

(** ** Deleting a project *)

(** X7.  [delete_project] with a valid token answers success whenever the
    folder of the project exists, whether or not its services and its tmux
    session could be stopped: it never raises.  It runs [docker-compose
    down] when the project has a compose file and then the [kill-session]
    of the project session, and nothing else; it leaves [active_sessions]
    and [output_threads] as they were, and of [project_sessions] it changes
    at most the entry of the project, which [cleanup_project_session]
    removes exactly when its [kill-session] command did not raise.  When
    the folder does not exist nothing happens. *)
Theorem X7_delete_project_answers_success {E : Type} `{Env E}
    (w : World E) (token project_id : str) (payload : Payload) :
  jwt_decode token (env w) = Ok payload →
  let project_path := DOCKER_PATH ++ py "/apps/" ++ project_id in
  let session_name := project_session_name project_id in
  let down := py "cd " ++ project_path ++ py " && docker-compose down" in
  let kill := py "tmux kill-session -t " ++ session_name ++
              py " 2>/dev/null || true" in
  let r := (delete_project token project_id w).1 in
  let w' := (delete_project token project_id w).2 in
  (if os_path_exists project_path (env w)
   then r = Ok true
        ∧ commands (trace w')
          = commands (trace w) ++
            (if os_path_exists (project_path ++ py "/docker-compose.yml") (env w)
             then [down] else []) ++ [kill]
        ∧ active_sessions w' = active_sessions w
        ∧ output_threads w' = output_threads w
        ∧ (project_sessions w' = project_sessions w
           ∨ project_sessions w' = delete session_name (project_sessions w))
   else delete_project token project_id w = (Ok false, w))
  ∧ (∀ v : World E,
       let v' := (cleanup_project_session project_id v).2 in
       (cleanup_project_session project_id v).1 = Ok tt
       ∧ project_sessions v'
         = match (subprocess_run kill (env v)).1 with
           | Ok _ => delete session_name (project_sessions v)
           | Raise _ => project_sessions v
           end).
Proof.
  intros Hgood project_path session_name down kill r w'.
  assert (cleanup :
    ∀ v : World E,
      (cleanup_project_session project_id v).1 = Ok tt
      ∧ commands (trace (cleanup_project_session project_id v).2)
        = commands (trace v) ++ [kill]
      ∧ active_sessions (cleanup_project_session project_id v).2 = active_sessions v
      ∧ output_threads (cleanup_project_session project_id v).2 = output_threads v
      ∧ project_sessions (cleanup_project_session project_id v).2
        = match (subprocess_run kill (env v)).1 with
          | Ok _ => delete session_name (project_sessions v)
          | Raise _ => project_sessions v
          end).
  { intros v. unfold cleanup_project_session, try_except, mbind, M_bind, run.
    fold session_name. fold kill.
    destruct (subprocess_run kill (env v)) as [[cp|e] e1]; simpl.
    - unfold has_key.
      destruct (project_sessions v !! session_name) eqn:Hknown; simpl;
        rewrite commands_snoc; repeat split; try done.
      symmetry. by apply delete_id.
    - by rewrite commands_snoc. }
  split; [|intros v; by destruct (cleanup v) as (? & _ & _ & _ & ?)].
  assert (verify_token token w = (Ok (Some payload), w)) as Htoken
    by (unfold verify_token, gets; by rewrite Hgood).
  subst r w'. unfold delete_project. rewrite (bind_ok _ _ _ _ _ Htoken).
  fold project_path.
  destruct (os_path_exists project_path (env w)) eqn:Hfound;
    unfold try_except, path_exists; rewrite !gets_bind, Hfound; [|reflexivity].
  assert (stop :
    ∃ v, stop_project_services project_id w = (Ok tt, v)
         ∧ commands (trace v)
           = commands (trace w) ++
             (if os_path_exists (project_path ++ py "/docker-compose.yml") (env w)
              then [down] else [])
         ∧ active_sessions v = active_sessions w
         ∧ output_threads v = output_threads w
         ∧ project_sessions v = project_sessions w).
  { unfold stop_project_services, try_except, path_exists. rewrite gets_bind.
    fold project_path. fold down.
    destruct (os_path_exists (project_path ++ py "/docker-compose.yml") (env w)).
    - unfold mbind, M_bind, run.
      destruct (subprocess_run down (env w)) as [[cp|e] e1]; simpl;
        eexists; (split; [reflexivity|]); simpl; by rewrite commands_snoc.
    - eexists. split; [reflexivity|]. by rewrite app_nil_r. }
  destruct stop as (v & Hstop & Hcmds & Hact & Hthr & Hproj).
  rewrite (bind_ok _ _ _ _ _ Hstop).
  destruct (cleanup v) as (Hok & Hcmds' & Hact' & Hthr' & Hproj').
  unfold mbind, M_bind.
  destruct (cleanup_project_session project_id v) as [[[]|e] v'] eqn:Hclean;
    simpl in *; [|done].
  split; [done|]. rewrite Hcmds', Hcmds, Hact', Hact, Hthr', Hthr, Hproj', Hproj.
  split; [by rewrite <- app_assoc|]. split; [done|]. split; [done|].
  destruct (subprocess_run kill (env v)).1; auto.
Qed.

Lemma X7_delete_project_answers_success_witness :
  let w := Scenarios.demo_ready in
  (delete_project (py "tok") (py "demo") w).1 = Ok true
  ∧ delete_project (py "tok") (py "other") w = (Ok false, w).
Proof.
  intros w.
  assert (jwt_decode (py "tok") (env w) = Ok Scenarios.ann) as Hgood
    by (vm_compute; reflexivity).
  pose proof (proj1 (X7_delete_project_answers_success w (py "tok") (py "demo") _
                       Hgood)) as Hdemo.
  pose proof (proj1 (X7_delete_project_answers_success w (py "tok") (py "other") _
                       Hgood)) as Hother.
  cbv zeta in Hdemo, Hother. decide_branch Hdemo. decide_branch Hother.
  split; [apply Hdemo|exact Hother].
Defined.

(** ** Joining *)

Section Joining.
Context {E : Type} `{Env E}.
Implicit Types (w : World E).

(** "Since then, the rooms are as they were and every message sent was an
    [ev] addressed to [room]." *)
Definition room_sends (ev room : str) : relation (World E) :=
  λ w w',
    rooms w' = rooms w
    ∧ ∃ ds, emits (trace w')
            = emits (trace w) ++ ((λ d, Emit ev d room (members room w)) <$> ds).

#[export] Instance room_sends_preorder ev room : PreOrder (room_sends ev room).
Proof.
  split.
  - intros w. split; [done|]. exists []. by rewrite app_nil_r.
  - intros w1 w2 w3 [Hr12 [ds1 H12]] [Hr23 [ds2 H23]]. split; [congruence|].
    exists (ds1 ++ ds2). rewrite H23, H12, fmap_app, <- app_assoc.
    unfold members. by rewrite Hr12.
Qed.

#[export] Instance room_sends_env ev room : EnvBlind (room_sends ev room).
Proof.
  split; intros; (split; [done|]); exists []; simpl;
    by rewrite ?emits_snoc, ?app_nil_r.
Qed.

#[export] Instance room_sends_send ev room : SendBlind (room_sends ev room) ev room.
Proof.
  intros d w. split; [done|]. exists [d]. simpl. by rewrite emits_snoc.
Qed.

Lemma rel_monitor_project_tmux_output_loop (R : relation (World E))
    `{!PreOrder R, !EnvBlind R}
    (ticks : nat) (session_name project_id client_id : str)
    `{!SendBlind R (py "output") (project_room project_id)} :
  rel_l R (monitor_project_tmux_output_loop ticks session_name project_id client_id).
Proof. induction ticks as [|n IH]; simpl; rel_auto; apply IH. Qed.

(** The commands run and the sessions registered. *)
Definition tmux_view w : list str * gmap str str :=
  (commands (trace w), active_sessions w).

#[export] Instance tmux_view_emit : EmitBlind (same tmux_view).
Proof.
  intros ev room d w. unfold same, tmux_view. simpl.
  by rewrite commands_snoc, app_nil_r.
Qed.
#[export] Instance tmux_view_rooms : RoomsBlind (same tmux_view).
Proof. by intros m w. Qed.
#[export] Instance tmux_view_start key t : StartGuard (same tmux_view) key t.
Proof.
  intros w _. unfold same, tmux_view. simpl. by rewrite commands_snoc, app_nil_r.
Qed.

#[export] Instance rooms_env : EnvBlind (same (rooms (E:=E))).
Proof. by split. Qed.
#[export] Instance rooms_emit : EmitBlind (same (rooms (E:=E))).
Proof. by intros ev room d w. Qed.
#[export] Instance rooms_start key t : StartGuard (same (rooms (E:=E))) key t.
Proof. by intros w _. Qed.

(** A computation that starts with a command, followed by more. *)
Lemma bind_first (c : str) {A B} (m : M (World E) A) (k : A → M (World E) B) w :
  (∃ rest, commands (trace (m w).2) = commands (trace w) ++ c :: rest) →
  (∀ a, rel extends (k a)) →
  ∃ rest, commands (trace ((m ≫= k) w).2) = commands (trace w) ++ c :: rest.
Proof.
  intros [rest Hm] Hk. unfold mbind, M_bind.
  destruct (m w) as [[a|e] w1]; simpl in *; [|by exists rest].
  destruct (Hk a w1) as [t Ht]. exists (rest ++ commands t).
  rewrite Ht. unfold commands in *. rewrite omap_app, Hm.
  by rewrite <- app_assoc.
Qed.

Lemma try_first (c : str) {A} (body : M (World E) A) (handler : str → M (World E) A) w :
  (∃ rest, commands (trace (body w).2) = commands (trace w) ++ c :: rest) →
  (∀ e, rel extends (handler e)) →
  ∃ rest, commands (trace (try_except body handler w).2)
          = commands (trace w) ++ c :: rest.
Proof.
  intros [rest Hm] Hh. unfold try_except.
  destruct (body w) as [[a|e] w1]; simpl in *; [by exists rest|].
  destruct (Hh e w1) as [t Ht]. exists (rest ++ commands t).
  rewrite Ht. unfold commands in *. rewrite omap_app, Hm.
  by rewrite <- app_assoc.
Qed.

Lemma run_first_commands (cmd : str) {A} (k : CompletedProcess → M (World E) A) w :
  (∀ cp, rel extends (k cp)) →
  ∃ rest, commands (trace ((run cmd ≫= k) w).2) = commands (trace w) ++ cmd :: rest.
Proof.
  intros Hk. destruct (run_first cmd k w Hk) as [rest Hrest].
  exists (commands rest). rewrite Hrest. unfold commands.
  by rewrite omap_app.
Qed.

End Joining.

(** X8.  A [join_project] with a valid token enters the connection in the
    room of the project exactly when the folder of the project exists;
    when it does not, the connection gets one [error] message and nothing
    else happens.  Every message of a project poller is an [output] message
    addressed to the room of its project, and is received by all the
    connections in that room, whichever connection started the poller. *)
Theorem X8_project_output_goes_to_the_project_room {E : Type} `{Env E}
    (w : World E) :
  (∀ sid data payload,
     jwt_decode (jp_token data) (env w) = Ok payload →
     let room := project_room (jp_project_id data) in
     if os_path_exists (DOCKER_PATH ++ py "/apps/" ++ jp_project_id data) (env w)
     then members room (serve (JoinProject sid data) w) = members room w ∪ {[sid]}
     else handle_join_project sid data w
          = (Ok tt, log (Emit (py "error")
                           (error_data (py "Projet non trouv" ++ e_acute))
                           sid (members sid w)) w))
  ∧ (∀ ticks session_name project_id client_id previous,
       room_sends (py "output") (project_room project_id) w
         (monitor_project_tmux_output ticks session_name project_id client_id
            (w, previous)).2.1).
Proof.
  split.
  - intros sid data payload Hgood room.
    assert (verify_token (jp_token data) w = (Ok (Some payload), w)) as Htoken
      by (unfold verify_token, gets; by rewrite Hgood).
    simpl. unfold handle_join_project. rewrite (bind_ok _ _ _ _ _ Htoken).
    unfold try_except, path_exists. rewrite gets_bind.
    destruct (os_path_exists _ (env w)); [|reflexivity].
    fold room.
    set (w1 := set_rooms (<[room := members room w ∪ {[sid]}]> (rooms w)) w).
    assert (join_room sid room w = (Ok tt, w1)) as Hjoin by reflexivity.
    rewrite (bind_ok _ _ _ _ _ Hjoin).
    match goal with |- context [(?m ≫= ?k) w1] =>
      assert (rel (same rooms) (m ≫= k)) as Hrest by rel_auto;
      specialize (Hrest w1); unfold same in Hrest;
      destruct ((m ≫= k) w1) as [[[]|e] w2]; simpl in *
    end.
    + unfold members. rewrite Hrest. simpl. by rewrite lookup_insert_eq.
    + unfold members. simpl. rewrite Hrest. simpl. by rewrite lookup_insert_eq.
  - intros ticks session_name project_id client_id previous.
    unfold monitor_project_tmux_output.
    assert (rel_l (room_sends (py "output") (project_room project_id))
              (set_local [] ≫= λ _, monitor_project_tmux_output_loop ticks session_name
                                      project_id client_id)) as Hr.
    { rel_auto. apply rel_monitor_project_tmux_output_loop; tc_solve. }
    apply (Hr (w, previous)).
Qed.

Lemma X8_project_output_goes_to_the_project_room_witness :
  let w := serve_all [Connect Scenarios.conn_a; Connect Scenarios.conn_b;
                      JoinProject Scenarios.conn_a Scenarios.join_demo]
             Scenarios.demo_ready in
  members (py "project_demo") (serve (JoinProject Scenarios.conn_b Scenarios.join_demo) w)
  = {[Scenarios.conn_a]} ∪ {[Scenarios.conn_b]}.
Proof.
  intros w.
  assert (jwt_decode (jp_token Scenarios.join_demo) (env w) = Ok Scenarios.ann)
    as Hgood by (vm_compute; reflexivity).
  pose proof (proj1 (X8_project_output_goes_to_the_project_room w)
                Scenarios.conn_b Scenarios.join_demo _ Hgood) as Hjoin.
  cbv zeta in Hjoin. decide_branch Hjoin. etrans; [exact Hjoin|].
  f_equal.
Defined.

(** X9.  A [project_message] with a valid token never raises and sends
    exactly one message.  When its [send-keys] command did not raise, that
    message is an [output] carrying the snapshot taken right after, which
    is never empty, addressed to the room of the project; when it raised,
    it is an [error] carrying the exception, addressed to the sender. *)
Theorem X9_project_message_is_answered_once {E : Type} `{Env E}
    (w : World E) (sid : str) (data : project_message_data) (payload : Payload) :
  jwt_decode (pm_token data) (env w) = Ok payload →
  let session_name := project_session_name (pm_project_id data) in
  let room := project_room (pm_project_id data) in
  let cmd := py "tmux send-keys -t " ++ session_name ++ py " '" ++
             escape (pm_message data) ++ py " C-m' C-m" in
  let w' := (handle_project_message sid data w).2 in
  (handle_project_message sid data w).1 = Ok tt
  ∧ rooms w' = rooms w
  ∧ match (subprocess_run cmd (env w)).1 with
    | Ok _ =>
        ∃ new_output,
          new_output ≠ []
          ∧ emits (trace w')
            = emits (trace w) ++
              [Emit (py "output") [(py "output", new_output)] room (members room w)]
    | Raise e =>
        emits (trace w')
        = emits (trace w) ++
          [Emit (py "error")
             (error_data (py "Erreur lors de l'envoi du message: " ++ e))
             sid (members sid w)]
    end.
Proof.
  intros Hgood session_name room cmd w'. subst w'.
  assert (verify_token (pm_token data) w = (Ok (Some payload), w)) as Htoken
    by (unfold verify_token, gets; by rewrite Hgood).
  unfold handle_project_message. rewrite (bind_ok _ _ _ _ _ Htoken).
  fold session_name. fold room.
  assert (send_to_project_tmux session_name (pm_message data) w
          = (match (subprocess_run cmd (env w)).1 with
             | Ok _ => Ok tt
             | Raise e => Raise e
             end,
             set_env (subprocess_run cmd (env w)).2 (log (Run cmd) w))) as Hsend.
  { unfold send_to_project_tmux, try_except, mbind, M_bind, run. fold cmd.
    by destruct (subprocess_run cmd (env w)) as [[cp|e] e1]. }
  unfold try_except.
  assert (∀ v, ∃ new_output v1,
            new_output ≠ []
            ∧ get_project_tmux_output session_name v = (Ok new_output, v1)
            ∧ rooms v1 = rooms v ∧ emits (trace v1) = emits (trace v)) as Hcapture.
  { intros v. rewrite get_project_tmux_output_spec.
    destruct (subprocess_run (project_capture_cmd session_name) (env v))
      as [[cp2|e] e2].
    - eexists _, _. split; [|split; [reflexivity|]].
      + destruct (len (strip (stdout cp2)) <? 10) eqn:Hshort.
        * apply project_placeholder_visible.
        * apply rstrip_nonempty. apply Nat.ltb_ge in Hshort. lia.
      + split; [done|]. cbn. by rewrite emits_snoc, app_nil_r.
    - eexists _, _. split; [apply project_terminal_error_nonempty|].
      split; [reflexivity|]. split; [done|]. cbn. by rewrite emits_snoc, app_nil_r. }
  destruct (subprocess_run cmd (env w)) as [[cp|e] e1]; cbn [fst snd] in *.
  - rewrite (bind_ok _ _ _ _ _ Hsend).
    destruct (Hcapture (set_env e1 (log (Run cmd) w)))
      as (out & v1 & Hout & Hget & Hrooms & Hemits).
    rewrite (bind_ok _ _ _ _ _ Hget).
    rewrite (bool_decide_eq_true_2 _ Hout). cbn.
    split; [done|]. split; [done|]. exists out. split; [done|].
    rewrite emits_snoc, Hemits. cbn. rewrite emits_snoc, app_nil_r.
    unfold members. by rewrite Hrooms.
  - rewrite (bind_raise _ _ _ _ _ Hsend). cbn.
    split; [done|]. split; [done|]. by rewrite !emits_snoc, !app_nil_r.
Qed.

Lemma X9_project_message_is_answered_once_witness :
  let w := Scenarios.demo_ready in
  (handle_project_message Scenarios.conn_a Scenarios.say_ls w).1 = Ok tt.
Proof.
  intros w.
  assert (jwt_decode (pm_token Scenarios.say_ls) (env w) = Ok Scenarios.ann)
    as Hgood by (vm_compute; reflexivity).
  exact (proj1 (X9_project_message_is_answered_once w Scenarios.conn_a
                  Scenarios.say_ls _ Hgood)).
Defined.

(** X10.  A [join] with a valid token for a session that is registered only
    reads from tmux: it runs the capture of the main session and, unless
    that raised, the capture of the mirror, and leaves [active_sessions] as
    they were.  For a session id that is not registered it creates the
    session: once the session folder is made, the first command it runs is
    the kill of the shared main session. *)
Theorem X10_join_creates_only_unregistered_sessions {E : Type} `{Env E}
    (w : World E) (sid : str) (data : join_data) (payload : Payload) :
  jwt_decode (j_token data) (env w) = Ok payload →
  let session_id := j_session_id data in
  let w' := (handle_join sid data w).2 in
  if has_key (active_sessions w) session_id
  then commands (trace w')
       = commands (trace w) ++
         capture_main_cmd ::
         match (subprocess_run capture_main_cmd (env w)).1 with
         | Ok _ => [capture_user_cmd session_id]
         | Raise _ => []
         end
       ∧ active_sessions w' = active_sessions w
  else ∀ e1, os_makedirs (SESSIONS_DIR ++ py "/" ++ session_id) (env w) = (Ok tt, e1) →
             ∃ rest, commands (trace w') = commands (trace w) ++ kill_main_cmd :: rest.
Proof.
  intros Hgood session_id w'. subst w'.
  assert (verify_token (j_token data) w = (Ok (Some payload), w)) as Htoken
    by (unfold verify_token, gets; by rewrite Hgood).
  unfold handle_join. rewrite (bind_ok _ _ _ _ _ Htoken).
  fold session_id. rewrite gets_bind.
  destruct (has_key (active_sessions w) session_id) eqn:Hreg.
  - rewrite ret_bind.
    match goal with |- context [(get_tmux_output session_id ≫= ?k) w] =>
      pose proof (bind_same_view tmux_view (get_tmux_output session_id) k w) as Hview
    end.
    lapply Hview; [clear Hview; intros Hview|intros output; rel_auto].
    unfold tmux_view in Hview. injection Hview as -> ->.
    rewrite get_tmux_output_spec.
    destruct (subprocess_run capture_main_cmd (env w)) as [[cp1|e] e1];
      cbn [fst snd].
    + destruct (subprocess_run (capture_user_cmd session_id) e1) as [[cp2|e] e2];
        cbn; by rewrite !commands_snoc, <- !app_assoc.
    + cbn. by rewrite commands_snoc.
  - intros e1 Hmk.
    apply bind_first; [|intros ready; rel_auto].
    cbv beta iota.
    apply try_first; [|intros e; rel_auto].
    apply bind_first; [|intros out; rel_auto].
    unfold create_tmux_session.
    assert (makedirs (SESSIONS_DIR ++ py "/" ++ session_id) w = (Ok tt, set_env e1 w))
      as Hmade by (unfold makedirs; by rewrite Hmk).
    rewrite (bind_ok _ _ _ _ _ Hmade).
    apply (run_first_commands kill_main_cmd _ (set_env e1 w)).
    intros cp. rel_auto.
Qed.

Lemma X10_join_creates_only_unregistered_sessions_witness :
  let w := serve_all Scenarios.first_joined (init_world Scenarios.fresh_server) in
  let w' := (handle_join Scenarios.conn_b Scenarios.join_s1 w).2 in
  commands (trace w')
  = commands (trace w) ++ [capture_main_cmd; capture_user_cmd (py "s1")]
  ∧ active_sessions w' = active_sessions w.
Proof.
  intros w w'.
  assert (jwt_decode (j_token Scenarios.join_s1) (env w) = Ok Scenarios.ann)
    as Hgood by (vm_compute; reflexivity).
  pose proof (X10_join_creates_only_unregistered_sessions w Scenarios.conn_b
                Scenarios.join_s1 _ Hgood) as Hjoin.
  cbv zeta in Hjoin. decide_branch Hjoin.
  assert ((subprocess_run capture_main_cmd (env w)).1
          = Ok {| returncode := 0; stdout := [] |}) as Hcap
    by (vm_compute; reflexivity).
  rewrite Hcap in Hjoin. exact Hjoin.
Defined.

(** * Start-up, listing and authorization *)

(** ** More of Python's [str] *)

(** [s.split(sep)] for a one-character [sep]: the pieces between the
    occurrences of [sep], empty ones included; never the empty list. *)
Fixpoint split (sep : char) (s : str) : list str :=
  match s with
  | [] => [[]]
  | c :: s' =>
      if (c =? sep)%N then [] :: split sep s'
      else match split sep s' with
           | piece :: pieces => (c :: piece) :: pieces
           | [] => [[c]]
           end
  end.

(** [s.replace(old, new)] for a non-empty [old]: the occurrences of [old]
    are found from the left and do not overlap.  [skip] counts the
    characters of an occurrence still to be passed over. *)
Fixpoint replace_from (old new : str) (skip : nat) (s : str) : str :=
  match s with
  | [] => []
  | c :: s' =>
      match skip with
      | S k => replace_from old new k s'
      | 0 =>
          if startswith old s then new ++ replace_from old new (len old - 1) s'
          else c :: replace_from old new 0 s'
      end
  end.

Definition replace (old new s : str) : str := replace_from old new 0 s.

(** [for x in xs: body(x)] *)
Fixpoint for_each {S A} (xs : list A) (body : A → M S unit) : M S unit :=
  match xs with
  | [] => mret tt
  | x :: xs' => body x;; for_each xs' body
  end.

Section Startup.

Context {E : Type} `{Env E}.

Definition LIST_SESSIONS_CMD : str := py "tmux list-sessions -F '#{session_name}'".

(** [cleanup_old_sessions], called once when the module is loaded. *)
Definition cleanup_old_sessions : M (World E) unit :=
  try_except
    (result ← run LIST_SESSIONS_CMD;
     for_each (split 10%N (strip (stdout result)))
       (λ line,
          if startswith (py "claude_") line then
            let session_name := strip line in
            run (py "tmux kill-session -t " ++ session_name);;
            mret tt
          else mret tt);;
     run (py "tmux kill-session -t claude-code-session 2>/dev/null || true");;
     mret tt)
    (λ e, mret tt).

(** The answer of a route: an error with its HTTP status, or the JSON
    value. *)
Inductive answer (A : Type) : Type :=
| Refused (status : N) (error : str)
| Answered (a : A).
#[global] Arguments Refused {A} status error.
#[global] Arguments Answered {A} a.

(** The lines every route starts with: the bearer token of the
    [Authorization] header ([''] when the header is missing) is verified.
    [auth_header.split(' ')[1]] raises [IndexError] on a list of one
    element. *)
Definition authorize (auth_header : str) : M (World E) (answer Payload) :=
  if negb (startswith (py "Bearer ") auth_header)
  then mret (Refused 401%N (py "Non autoris" ++ e_acute))
  else
    token ← match split 32%N auth_header !! 1 with
            | Some token => mret token
            | None => raise (py "list index out of range")
            end;
    payload ← verify_token token;
    match payload with
    | None => mret (Refused 401%N (py "Token invalide"))
    | Some payload => mret (Answered payload)
    end.

(** The loop of [list_sessions] over the lines of the listing: the ["id"]
    of each entry appended to [sessions]. *)
Definition session_ids (listing : str) : list str :=
  foldl (λ sessions line,
           if startswith (py "claude_") line && bool_decide (line ≠ [])
           then sessions ++ [replace (py "claude_") [] line]
           else sessions)
        [] (split 10%N (strip listing)).

(** [list_sessions]: the ids of the entries it answers; the other field of
    an entry, ["created_at"], is the time of the request.  The listing
    command is not protected: an exception leaves the route. *)
Definition list_sessions (auth_header : str) : M (World E) (answer (list str)) :=
  auth ← authorize auth_header;
  match auth with
  | Refused status error => mret (Refused status error)
  | Answered payload =>
      result ← run LIST_SESSIONS_CMD;
      mret (Answered (session_ids (stdout result)))
  end.

End Startup.

(** ** Facts about [split] and [replace] *)

Lemma split_nonempty (sep : char) (s : str) : split sep s ≠ [].
Proof.
  destruct s as [|c s]; simpl; [done|].
  destruct (c =? sep)%N; [done|]. by destruct (split sep s).
Qed.

(** A piece that does not hold the separator is split off whole. *)
Lemma split_app (sep : char) (piece rest : str) :
  sep ∉ piece → split sep (piece ++ sep :: rest) = piece :: split sep rest.
Proof.
  induction piece as [|c piece IH]; intros Hsep; simpl.
  - by rewrite N.eqb_refl.
  - apply not_elem_of_cons in Hsep as [Hc Hsep].
    assert ((c =? sep)%N = false) as -> by (apply N.eqb_neq; congruence).
    by rewrite IH.
Qed.

Lemma split_whole (sep : char) (piece : str) : sep ∉ piece → split sep piece = [piece].
Proof.
  induction piece as [|c piece IH]; intros Hsep; simpl; [done|].
  apply not_elem_of_cons in Hsep as [Hc Hsep].
  assert ((c =? sep)%N = false) as -> by (apply N.eqb_neq; congruence).
  by rewrite IH.
Qed.

Lemma startswith_app (p s : str) : startswith p (p ++ s) = true.
Proof. induction p as [|c p IH]; simpl; [done|]. by rewrite N.eqb_refl. Qed.

Lemma startswith_spec (p s : str) : startswith p s = true ↔ ∃ t, s = p ++ t.
Proof.
  split.
  - revert s. induction p as [|c p IH]; intros s Hs; [by exists s|].
    destruct s as [|d s]; [done|]. simpl in Hs.
    apply andb_true_iff in Hs as [->%N.eqb_eq Hs].
    destruct (IH s Hs) as [t ->]. by exists t.
  - intros [t ->]. apply startswith_app.
Qed.

(** Where the last character of [old] does not occur, [old] does not. *)
Lemma startswith_last (old : str) (c : char) (s : str) :
  c ∉ s → startswith (old ++ [c]) s = false.
Proof.
  intros Hc. apply not_true_is_false. intros [t ->]%startswith_spec.
  apply Hc. rewrite <- app_assoc. apply elem_of_app. right. by left.
Qed.

Lemma replace_absent (old : str) (c : char) (new s : str) :
  c ∉ s → replace_from (old ++ [c]) new 0 s = s.
Proof.
  induction s as [|d s IH]; intros Hc; simpl; [done|].
  pose proof (startswith_last old c (d :: s) Hc) as Hno. simpl in Hno.
  rewrite Hno. f_equal. apply IH. by apply not_elem_of_cons in Hc as [_ ?].
Qed.

(** Where [old] does not occur, nothing is replaced. *)
Lemma replace_not_contained (old new s : str) :
  contains old s = false → replace_from old new 0 s = s.
Proof.
  induction s as [|d s IH]; intros Hno; [done|].
  cbn [contains] in Hno. apply orb_false_iff in Hno as [Hhere Hlater].
  cbn [replace_from]. rewrite Hhere. f_equal. by apply IH.
Qed.

Lemma replace_from_skip (old new : str) (p s : str) :
  replace_from old new (length p) (p ++ s) = replace_from old new 0 s.
Proof. induction p as [|c p IH]; simpl; [done|]. by destruct s; rewrite IH. Qed.

(** ** Facts about trimming *)

Lemma lstrip_app (a b : str) :
  lstrip (a ++ b) = match lstrip a with [] => lstrip b | l => l ++ b end.
Proof.
  induction a as [|c a IH]; simpl; [by destruct (lstrip b)|].
  by destruct (isspace c).
Qed.

Lemma rstrip_app (a b : str) :
  rstrip (a ++ b) = match rstrip b with [] => rstrip a | r => a ++ r end.
Proof.
  unfold rstrip. rewrite reverse_app, lstrip_app.
  destruct (lstrip (reverse b)) as [|c l] eqn:Hb; [done|].
  rewrite reverse_app, reverse_involutive.
  by destruct (reverse (c :: l)) eqn:Hr;
    [apply (f_equal reverse) in Hr; rewrite reverse_involutive in Hr|].
Qed.

(** A line that starts with ["claude_"] still does once trimmed. *)
Lemma strip_claude (line : str) :
  startswith (py "claude_") line = true →
  startswith (py "claude_") (strip line) = true.
Proof.
  intros [t ->]%startswith_spec. unfold strip. rewrite rstrip_app.
  destruct (rstrip t) as [|c r]; [by vm_compute|].
  apply startswith_spec. by exists (c :: r).
Qed.

(** ** Start-up *)

Definition kill_cmd (session_name : str) : str :=
  py "tmux kill-session -t " ++ session_name.

(** The sessions [cleanup_old_sessions] kills by name, for a listing. *)
Definition old_sessions (listing : str) : list str :=
  strip <$> filter (λ line, startswith (py "claude_") line = true)
              (split 10%N (strip listing)).

Section StartupFacts.
Context {E : Type} `{Env E}.
Implicit Types (w : World E).

(** The command lines [cmds] run one after the other from the environment
    [e], up to and including the first that raises: the lines run and the
    environment they leave. *)
Fixpoint run_until_raise (cmds : list str) (e : E) : list str * E :=
  match cmds with
  | [] => ([], e)
  | cmd :: cmds' =>
      match subprocess_run cmd e with
      | (Ok _, e') =>
          let '(done, e'') := run_until_raise cmds' e' in (cmd :: done, e'')
      | (Raise _, e') => ([cmd], e')
      end
  end.

Lemma run_until_raise_prefix (cmds : list str) (e : E) :
  (run_until_raise cmds e).1 `prefix_of` cmds.
Proof.
  revert e. induction cmds as [|cmd cmds IH]; intros e; cbn; [done|].
  destruct (subprocess_run cmd e) as [[cp|err] e1].
  - specialize (IH e1). destruct (run_until_raise cmds e1) as [done e2].
    by apply prefix_cons.
  - apply prefix_cons, prefix_nil.
Qed.

(** When none of the lines raises, all of them are run. *)
Lemma run_until_raise_all (cmds : list str) (e : E) :
  (∀ cmd e0, cmd ∈ cmds → ∃ cp e1, subprocess_run cmd e0 = (Ok cp, e1)) →
  (run_until_raise cmds e).1 = cmds.
Proof.
  revert e. induction cmds as [|cmd cmds IH]; intros e Hok; cbn; [done|].
  destruct (Hok cmd e) as (cp & e1 & ->); [by left|].
  specialize (IH e1). destruct (run_until_raise cmds e1) as [done e2].
  cbn in *. rewrite IH; [done|]. intros c e0 Hc. apply Hok. by right.
Qed.

(** The loop of [cleanup_old_sessions] over the lines of the listing, with
    the command lines [tail] that come after it. *)
Lemma cleanup_loop (lines tail : list str) w :
  let loop :=
    for_each lines
      (λ line,
         if startswith (py "claude_") line then
           run (kill_cmd (strip line));; mret tt
         else mret tt) in
  let killed :=
    kill_cmd <$> (strip <$> filter (λ line, startswith (py "claude_") line = true) lines) in
  app_state (loop w).2 = app_state w
  ∧ match (loop w).1 with
    | Ok _ =>
        commands (trace (loop w).2) = commands (trace w) ++ killed
        ∧ run_until_raise (killed ++ tail) (env w)
          = (killed ++ (run_until_raise tail (env (loop w).2)).1,
             (run_until_raise tail (env (loop w).2)).2)
    | Raise _ =>
        commands (trace (loop w).2)
        = commands (trace w) ++ (run_until_raise (killed ++ tail) (env w)).1
        ∧ env (loop w).2 = (run_until_raise (killed ++ tail) (env w)).2
    end.
Proof.
  revert w. induction lines as [|line lines IH]; intros w; cbv zeta in *.
  - split; [done|]. cbn. rewrite app_nil_r. split; [done|].
    by destruct (run_until_raise tail (env w)).
  - cbn [for_each]. rewrite filter_cons.
    destruct (startswith (py "claude_") line) eqn:Hline; cbv beta iota.
    + rewrite decide_True by done. rewrite !fmap_cons.
      cbn [app run_until_raise].
      destruct (subprocess_run (kill_cmd (strip line)) (env w)) as [[cp|e] e1]
        eqn:Hrun.
      * assert ((run (kill_cmd (strip line)) ≫= λ _, mret tt) w
                = (Ok tt, set_env e1 (log (Run (kill_cmd (strip line))) w)))
          as Hbody by (by rewrite (bind_ok _ _ _ _ _ (run_ok _ _ _ _ Hrun))).
        rewrite (bind_ok _ _ _ _ _ Hbody).
        destruct (IH (set_env e1 (log (Run (kill_cmd (strip line))) w)))
          as (Hstate & Hres).
        split; [by rewrite Hstate|].
        change (env (set_env e1 (log (Run (kill_cmd (strip line))) w))) with e1
          in Hres.
        destruct (for_each _ _ _).1.
        -- destruct Hres as [Hdone ->]. split; [|done].
           rewrite Hdone. cbn. rewrite commands_snoc. by rewrite <- app_assoc.
        -- destruct Hres as [Hdone Henv].
           destruct (run_until_raise _ e1) as [done e2]. cbn in *.
           split; [|done].
           rewrite Hdone. rewrite commands_snoc. by rewrite <- app_assoc.
      * assert ((run (kill_cmd (strip line)) ≫= λ _, mret tt) w
                = (Raise e, set_env e1 (log (Run (kill_cmd (strip line))) w)))
          as Hbody by (by rewrite (bind_raise _ _ _ _ _ (run_raise _ _ _ _ Hrun))).
        rewrite (bind_raise _ _ _ _ _ Hbody). cbn.
        split; [done|]. by rewrite commands_snoc.
    + rewrite decide_False by done. rewrite ret_bind. apply IH.
Qed.

End StartupFacts.

(** X11.  [cleanup_old_sessions] never raises and touches no registry.  It
    runs the listing first; if the listing raises it does nothing more, not
    even for the main session.  Otherwise it kills, in the order listed,
    the sessions whose line starts with ["claude_"] (the user sessions and
    the project sessions alike), each by its trimmed name, which still
    starts with ["claude_"], and then the main session: these command
    lines are run one after the other, up to and including the first that
    raises, and no other line is run. *)
Theorem X11_cleanup_kills_the_claude_sessions {E : Type} `{Env E} (w : World E) :
  let w' := (cleanup_old_sessions w).2 in
  (cleanup_old_sessions w).1 = Ok tt
  ∧ app_state w' = app_state w
  ∧ match subprocess_run LIST_SESSIONS_CMD (env w) with
    | (Raise _, e1) =>
        commands (trace w') = commands (trace w) ++ [LIST_SESSIONS_CMD]
        ∧ env w' = e1
    | (Ok cp, e1) =>
        let planned := (kill_cmd <$> old_sessions (stdout cp)) ++ [kill_main_cmd] in
        Forall (λ name, startswith (py "claude_") name = true)
          (old_sessions (stdout cp))
        ∧ commands (trace w')
          = commands (trace w) ++ LIST_SESSIONS_CMD :: (run_until_raise planned e1).1
        ∧ env w' = (run_until_raise planned e1).2
    end.
Proof.
  intros w'. subst w'. split; [by apply try_except_unit|].
  assert (∀ cp, Forall (λ name, startswith (py "claude_") name = true)
                  (old_sessions (stdout cp))) as Hnames.
  { intros cp. apply Forall_fmap, Forall_forall.
    intros line [Hline _]%list_elem_of_filter. by apply strip_claude. }
  unfold cleanup_old_sessions, try_except. cbv zeta.
  destruct (subprocess_run LIST_SESSIONS_CMD (env w)) as [[cp|e] e1] eqn:Hlist;
    cbn [fst snd].
  - rewrite (bind_ok _ _ _ _ _ (run_ok _ _ _ _ Hlist)).
    set (w1 := set_env e1 (log (Run LIST_SESSIONS_CMD) w)).
    pose proof (cleanup_loop (split 10%N (strip (stdout cp))) [kill_main_cmd] w1)
      as Hloop.
    cbv zeta in Hloop. fold (old_sessions (stdout cp)) in Hloop.
    unfold kill_cmd in Hloop at 1.
    change (env w1) with e1 in Hloop.
    destruct Hloop as (Hstate & Hres).
    destruct (for_each _ _ w1) as [[[]|e] w2] eqn:Hfor; cbn [fst snd] in *.
    + rewrite (bind_ok _ _ _ _ _ Hfor).
      destruct Hres as [Hdone Hplan]. rewrite Hplan. cbn [fst snd run_until_raise].
      change (py "tmux kill-session -t claude-code-session 2>/dev/null || true")
        with kill_main_cmd.
      unfold mbind, M_bind, run.
      destruct (subprocess_run kill_main_cmd (env w2)) as [[cp2|e] e2];
        cbn [fst snd];
        (split; [by transitivity (app_state w2); [|rewrite Hstate]|]);
        (split; [apply Hnames|]);
        (split; [|done]);
        cbn; rewrite commands_snoc, Hdone; subst w1; cbn;
        rewrite commands_snoc; by rewrite <- !app_assoc.
    + rewrite (bind_raise _ _ _ _ _ Hfor). cbn.
      destruct Hres as [Hdone Henv].
      split; [by rewrite Hstate|]. split; [done|].
      split; [|done]. rewrite Hdone. subst w1. cbn. rewrite commands_snoc.
      by rewrite <- !app_assoc.
  - rewrite (bind_raise _ _ _ _ _ (run_raise _ _ _ _ Hlist)). cbn.
    split; [done|]. by rewrite commands_snoc.
Qed.

(** ** Authorization *)

(** X12.  The authorization every route starts with never raises and
    changes nothing: a header that does not start with ["Bearer "] is
    refused without verifying anything, and for one that does there always
    is a second piece to take, so the index cannot be out of range.  The
    token verified is what stands between the first blank and the next
    one: for a header ["Bearer "] followed by a token without blanks it is
    the token, and whatever follows a further blank is ignored. *)
Theorem X12_authorize_verifies_the_bearer_token {E : Type} `{Env E}
    (w : World E) (auth_header : str) :
  (∃ a, authorize auth_header w = (Ok a, w))
  ∧ (startswith (py "Bearer ") auth_header = false →
     authorize auth_header w = (Ok (Refused 401%N (py "Non autoris" ++ e_acute)), w))
  ∧ (∀ token rest,
       32%N ∉ token →
       auth_header = py "Bearer " ++ token ∨
       auth_header = py "Bearer " ++ token ++ 32%N :: rest →
       authorize auth_header w
       = (Ok match jwt_decode token (env w) with
             | Ok payload => Answered payload
             | Raise _ => Refused 401%N (py "Token invalide")
             end, w)).
Proof.
  assert (∀ token,
            (mret token ≫= λ token, verify_token token ≫= λ payload,
               match payload with
               | None => mret (Refused 401%N (py "Token invalide"))
               | Some payload => mret (Answered payload)
               end) w
            = (Ok match jwt_decode token (env w) with
                  | Ok payload => Answered payload
                  | Raise _ => Refused 401%N (py "Token invalide")
                  end, w)) as Hverify.
  { intros token. rewrite ret_bind. unfold verify_token. rewrite gets_bind.
    by destruct (jwt_decode token (env w)). }
  assert (∀ t, split 32%N (py "Bearer " ++ t) !! 1 = head (split 32%N t)) as Hsecond.
  { intros t. change (py "Bearer " ++ t) with (py "Bearer" ++ 32%N :: t).
    rewrite split_app by (apply (bool_decide_unpack _); by vm_compute).
    by destruct (split 32%N t). }
  split; [|split].
  - unfold authorize.
    destruct (startswith (py "Bearer ") auth_header) eqn:Hstart; [|by eexists].
    apply startswith_spec in Hstart as [t ->]. cbn [negb].
    rewrite Hsecond.
    pose proof (split_nonempty 32%N t) as Hne.
    destruct (split 32%N t) as [|token pieces]; [done|]. cbn [head].
    rewrite Hverify. by eexists.
  - intros Hstart. unfold authorize. by rewrite Hstart.
  - intros token rest Hblank Hheader. unfold authorize.
    assert (startswith (py "Bearer ") auth_header = true) as ->
      by (destruct Hheader as [->| ->]; apply startswith_app).
    cbn [negb].
    destruct Hheader as [->| ->]; rewrite Hsecond.
    + rewrite split_whole by done. apply Hverify.
    + rewrite split_app by done. apply Hverify.
Qed.

(** The header of a request with the token ["tok"], alone and followed by
    more. *)
Lemma X12_authorize_verifies_the_bearer_token_witness :
  let w := init_world Scenarios.fresh_server in
  authorize (py "Bearer tok") w = (Ok (Answered Scenarios.ann), w)
  ∧ authorize (py "Bearer tok and more") w = (Ok (Answered Scenarios.ann), w)
  ∧ authorize (py "Bearer  tok") w = (Ok (Refused 401%N (py "Token invalide")), w).
Proof.
  intros w.
  assert (32%N ∉ py "tok") as Htok by (apply (bool_decide_unpack _); by vm_compute).
  assert (32%N ∉ @nil N) as Hnil by apply not_elem_of_nil.
  pose proof (X12_authorize_verifies_the_bearer_token w (py "Bearer tok"))
    as (_ & _ & H1).
  pose proof (X12_authorize_verifies_the_bearer_token w (py "Bearer tok and more"))
    as (_ & _ & H2).
  pose proof (X12_authorize_verifies_the_bearer_token w (py "Bearer  tok"))
    as (_ & _ & H3).
  split; [|split].
  - exact (H1 (py "tok") [] Htok (or_introl eq_refl)).
  - exact (H2 (py "tok") (py "and more") Htok (or_intror eq_refl)).
  - exact (H3 [] (py "tok") Hnil (or_intror eq_refl)).
Defined.

(** ** Listing the sessions *)

Section Listing.

(** What one line of the listing adds to the answer of [list_sessions]. *)
Definition listed (line : str) : list str :=
  if startswith (py "claude_") line && bool_decide (line ≠ [])
  then [replace (py "claude_") [] line] else [].

Lemma session_ids_lines (listing : str) :
  session_ids listing = split 10%N (strip listing) ≫= listed.
Proof.
  unfold session_ids.
  assert (∀ lines acc,
            foldl (λ sessions line,
                     if startswith (py "claude_") line && bool_decide (line ≠ [])
                     then sessions ++ [replace (py "claude_") [] line]
                     else sessions) acc lines
            = acc ++ (lines ≫= listed)) as Hfold.
  { induction lines as [|line lines IH]; intros acc; cbn [foldl].
    - by rewrite app_nil_r.
    - rewrite IH, bind_cons. unfold listed at 2.
      destruct (startswith _ line && _); [by rewrite <- app_assoc|done]. }
  apply (Hfold _ []).
Qed.

(** A line [claude_<rest>] is listed as [<rest>] without its further
    occurrences of ["claude_"]. *)
Lemma listed_claude (rest : str) :
  listed (py "claude_" ++ rest) = [replace (py "claude_") [] rest].
Proof.
  unfold listed. rewrite startswith_app, bool_decide_eq_true_2 by done.
  cbn [andb]. unfold replace.
  change (replace_from (py "claude_") [] 0 (py "claude_" ++ rest))
    with (replace_from (py "claude_") [] (length (py "claude")) (py "claude" ++ rest)).
  by rewrite replace_from_skip.
Qed.

(** The name of a user session is listed as its id, and the name of a
    project session as [project_<id>], when the id does not hold
    ["claude_"] itself. *)
Lemma listed_user_session (session_id : str) :
  contains (py "claude_") session_id = false →
  listed (user_session session_id) = [session_id].
Proof.
  intros Hid. unfold user_session. rewrite listed_claude.
  unfold replace. by rewrite replace_not_contained.
Qed.

Lemma listed_project_session (project_id : str) :
  contains (py "claude_") project_id = false →
  listed (project_session_name project_id) = [py "project_" ++ project_id].
Proof.
  intros Hid. unfold project_session_name.
  change (py "claude_project_" ++ project_id)
    with (py "claude_" ++ py "project_" ++ project_id).
  rewrite listed_claude. f_equal. unfold replace.
  transitivity (py "project_" ++ replace_from (py "claude_") [] 0 project_id);
    [by vm_compute|].
  by rewrite replace_not_contained.
Qed.

Lemma listed_other (line : str) :
  startswith (py "claude_") line = false → listed line = [].
Proof. intros Hline. unfold listed. by rewrite Hline. Qed.

End Listing.

(** A tmux server reduced to the names of its sessions, to exercise the
    listing: [list-sessions] prints one name a line, [kill-session -t name]
    removes the name, the token ["tok"] verifies. *)
Module ListingModel.

Record server := { names : list str }.

Definition target (cmd : str) : str :=
  default [] (head (split 32%N (drop (length (py "tmux kill-session -t ")) cmd))).

#[global] Instance listing_env : Env server := {
  subprocess_run cmd s :=
    if decide (cmd = LIST_SESSIONS_CMD)
    then (Ok {| returncode := 0; stdout := names s ≫= (λ name, name ++ nl) |}, s)
    else if startswith (py "tmux kill-session -t ") cmd
    then (Ok {| returncode := 0; stdout := [] |},
          {| names := filter (λ name, name ≠ target cmd) (names s) |})
    else (Ok {| returncode := 0; stdout := [] |}, s);
  os_path_exists path s := false;
  os_makedirs path s := (Ok tt, s);
  uuid4 s := (py "uuid", s);
  jwt_decode token s :=
    if decide (token = py "tok") then Ok Scenarios.ann
    else Raise (py "Invalid token");
}.

(** A session of somebody else, the main session, a project session and a
    user session, in the order of their names. *)
Definition four_sessions : World server :=
  init_world {| names := [py "build"; py "claude-code-session";
                          py "claude_project_demo"; py "claude_s1"] |}.

End ListingModel.

(** X13.  [list_sessions] refuses a request that is not authorized before
    any command is run.  An authorized one is answered with what the lines
    of the listing give, line by line and in their order: a line
    [claude_<rest>] gives [<rest>] without its further occurrences of
    ["claude_"], so that a user session [claude_<id>] is listed under its
    id and a project session under [project_<id>] when the id does not
    hold ["claude_"] itself; a line that does not start with ["claude_"],
    as the one of the main session and the one line of an empty listing,
    gives nothing. *)
Theorem X13_list_sessions_reads_the_ids_back {E : Type} `{Env E}
    (w : World E) (auth_header : str) :
  (∀ status error,
     authorize auth_header w = (Ok (Refused status error), w) →
     list_sessions auth_header w = (Ok (Refused status error), w))
  ∧ (∀ payload cp e1,
       authorize auth_header w = (Ok (Answered payload), w) →
       subprocess_run LIST_SESSIONS_CMD (env w) = (Ok cp, e1) →
       list_sessions auth_header w
       = (Ok (Answered (split 10%N (strip (stdout cp)) ≫= listed)),
          set_env e1 (log (Run LIST_SESSIONS_CMD) w)))
  ∧ (∀ rest, listed (py "claude_" ++ rest) = [replace (py "claude_") [] rest])
  ∧ (∀ id, contains (py "claude_") id = false →
       listed (user_session id) = [id]
       ∧ listed (project_session_name id) = [py "project_" ++ id])
  ∧ (∀ line, startswith (py "claude_") line = false → listed line = [])
  ∧ listed MAIN = []
  ∧ split 10%N (strip []) ≫= listed = [].
Proof.
  split; [|split; [|split; [|split; [|split; [|split]]]]].
  - intros status error Hauth. unfold list_sessions.
    by rewrite (bind_ok _ _ _ _ _ Hauth).
  - intros payload cp e1 Hauth Hlist.
    unfold list_sessions. rewrite (bind_ok _ _ _ _ _ Hauth).
    rewrite (bind_ok _ _ _ _ _ (run_ok _ _ _ _ Hlist)).
    by rewrite session_ids_lines.
  - apply listed_claude.
  - intros id Hid. split; [by apply listed_user_session|].
    by apply listed_project_session.
  - apply listed_other.
  - by vm_compute.
  - by vm_compute.
Qed.

(** Four sessions are listed, the main session before the sessions of the
    application: the session of somebody else and the main session are left
    out, the project session is listed as ["project_demo"]. *)
Lemma X13_list_sessions_reads_the_ids_back_witness :
  let w := ListingModel.four_sessions in
  list_sessions (py "Bearer tok") w
  = (Ok (Answered [py "project_demo"; py "s1"]),
     set_env (env w) (log (Run LIST_SESSIONS_CMD) w))
  ∧ listed (user_session (py "s1")) = [py "s1"]
  ∧ listed (project_session_name (py "demo")) = [py "project_demo"].
Proof.
  intros w.
  assert (authorize (py "Bearer tok") w = (Ok (Answered Scenarios.ann), w)) as Hauth
    by (vm_compute; reflexivity).
  assert (subprocess_run LIST_SESSIONS_CMD (env w)
          = (Ok {| returncode := 0;
                   stdout := ListingModel.names (env w) ≫= (λ name, name ++ nl) |},
             env w)) as Hlist by (vm_compute; reflexivity).
  destruct (X13_list_sessions_reads_the_ids_back w (py "Bearer tok"))
    as (_ & Hanswer & _ & Hids & _).
  split.
  - rewrite (Hanswer _ _ _ Hauth Hlist). vm_compute. reflexivity.
  - split.
    + apply (Hids (py "s1")). vm_compute. reflexivity.
    + apply (Hids (py "demo")). vm_compute. reflexivity.
Defined.

(** The same four sessions at start-up: the three sessions of the
    application are killed, the other one stays. *)
Example cleanup_old_sessions_ex :
  ListingModel.names (env (cleanup_old_sessions ListingModel.four_sessions).2)
  = [py "build"].
Proof. vm_compute. reflexivity. Qed.

(** * A message on the reference server *)

Arguments py : simpl nomatch.

Section MessageLines.
Import Shell TmuxModel.

Lemma parse_send_main (command : str) :
  parse_line (MAIN_KEYS ++ py "'" ++ escape command ++ py "' C-m")
  = Some ([py "tmux"; py "-S"; py "/tmp/tmux-0/default"; py "send-keys"; py "-t";
           MAIN; command; py "C-m"], []).
Proof. unfold parse_line. rewrite send_to_tmux_words. reflexivity. Qed.

Lemma parse_send_user (sid command : str) :
  is_name sid →
  parse_line (py "tmux -S /tmp/tmux-0/default send-keys -t claude_" ++ sid ++ py " '" ++
              escape command ++ py "' C-m")
  = Some ([py "tmux"; py "-S"; py "/tmp/tmux-0/default"; py "send-keys"; py "-t";
           user_session sid; command; py "C-m"], []).
Proof.
  intros Hs. unfold parse_line. rewrite words_send_user by done. simpl.
  done.
Qed.

Lemma words_refresh_user (sid : str) :
  is_name sid →
  words (refresh_user_cmd sid)
  = Some [bare "tmux"; bare "-S"; bare "/tmp/tmux-0/default"; bare "refresh-client";
          bare "-t"; Word false (py "claude_" ++ sid);
          Operator (py "2>"); bare "/dev/null";
          Operator (py "||"); bare "true"].
Proof.
  intros Hs%is_name_plain. unfold words, refresh_user_cmd.
  transitivity
    ((bare "tmux" ::.) <$> ((bare "-S" ::.) <$> ((bare "/tmp/tmux-0/default" ::.) <$> ((bare "refresh-client" ::.) <$> ((bare "-t" ::.) <$> (lex false (Some (false, py "claude_")) (sid ++ py " 2>/dev/null || true")))))));
    [by vm_compute|].
  rewrite lex_plain by done. by vm_compute.
Qed.

Lemma parse_refresh_user (sid : str) :
  is_name sid →
  parse_line (refresh_user_cmd sid)
  = Some ([py "tmux"; py "-S"; py "/tmp/tmux-0/default"; py "refresh-client"; py "-t";
           user_session sid], [(OrIf, [py "true"])]).
Proof.
  intros Hs. unfold parse_line. rewrite words_refresh_user by done. simpl.
  done.
Qed.

End MessageLines.

Arguments py : simpl never.

Section TypedTwice.
Import TmuxModel.
Implicit Types (tm : server) (w : World server).

(** The main session and the mirror [user] show the same pane, [pn]. *)
Definition grouped (user : str) (p : nat) (pn : pane) tm : Prop :=
  exhausted tm = false ∧ sessions tm !! MAIN = Some p ∧ sessions tm !! user = Some p
  ∧ panes tm !! p = Some pn.

(** The pane after more keys. *)
Definition typed (ks : list str) (pn : pane) : pane :=
  {| screen := screen pn; keys := keys pn ++ ks |}.

Lemma exec_send_grouped user p pn ks target tm :
  target = MAIN ∨ target = user →
  grouped user p pn tm →
  grouped user p (typed ks pn) (exec_tmux (SendKeys target ks) tm).2.
Proof.
  intros Htarget (Hex & Hmain & Huser & Hpane). unfold grouped. simpl.
  assert (sessions tm !! target = Some p) as -> by (by destruct Htarget as [->| ->]).
  simpl. rewrite Hpane. simpl. by rewrite lookup_insert_eq.
Qed.

Lemma exec_refresh t tm : (exec_tmux (RefreshClient t) tm).2 = tm.
Proof. done. Qed.

Lemma grouped_exhausted user p pn tm : grouped user p pn tm → exhausted tm = false.
Proof. by intros [? _]. Qed.

End TypedTwice.

(** X14.  On the reference server, where the mirror of a user session is in
    the group of the main session and so shows the same pane, a message
    sent by [send_to_tmux] is typed into that pane twice: the call returns,
    and the pane has received the message and the key [C-m], and then the
    message and [C-m] again. *)
Theorem X14_a_message_is_typed_twice
    (w : World TmuxModel.server) (session_id command : str)
    (p : nat) (pn : TmuxModel.pane) :
  Shell.is_name session_id →
  grouped (user_session session_id) p pn (env w) →
  ∃ out w',
    send_to_tmux session_id command w = (Ok out, w')
    ∧ grouped (user_session session_id) p
        (typed [command; py "C-m"; command; py "C-m"] pn) (env w').
Proof.
  intros Hname H. unfold send_to_tmux. cbv zeta.
  set (user := user_session session_id) in *.
  (* the message goes to the main session *)
  destruct (run_tmux_then (grouped user p (typed [command; py "C-m"] pn)) w _
              [py "-S"; py "/tmp/tmux-0/default"; py "send-keys"; py "-t"; MAIN;
               command; py "C-m"]
              (TmuxModel.SendKeys MAIN [command; py "C-m"])
              (grouped_exhausted _ _ _ _ H)
              (or_introl (parse_send_main command)) eq_refl)
    as (cp1 & w1 & Hrun1 & H1); [by apply exec_send_grouped; auto|].
  rewrite (bind_ok _ _ _ _ _ Hrun1). clear Hrun1 H.
  (* and to the mirror *)
  destruct (run_tmux_then
              (grouped user p (typed [command; py "C-m"] (typed [command; py "C-m"] pn)))
              w1 _
              [py "-S"; py "/tmp/tmux-0/default"; py "send-keys"; py "-t"; user;
               command; py "C-m"]
              (TmuxModel.SendKeys user [command; py "C-m"])
              (grouped_exhausted _ _ _ _ H1)
              (or_introl (parse_send_user session_id command Hname)) eq_refl)
    as (cp2 & w2 & Hrun2 & H2); [by apply exec_send_grouped; auto|].
  rewrite (bind_ok _ _ _ _ _ Hrun2). clear Hrun2 H1.
  assert (typed [command; py "C-m"] (typed [command; py "C-m"] pn)
          = typed [command; py "C-m"; command; py "C-m"] pn) as Htwice
    by (unfold typed; simpl; by rewrite <- app_assoc).
  rewrite Htwice in H2. clear Htwice.
  set (pn' := typed [command; py "C-m"; command; py "C-m"] pn) in *.
  (* the two refreshes *)
  destruct (run_tmux_then (grouped user p pn') w2 _
              [py "-S"; py "/tmp/tmux-0/default"; py "refresh-client"; py "-t"; user]
              (TmuxModel.RefreshClient user)
              (grouped_exhausted _ _ _ _ H2)
              (or_intror (or_introl (parse_refresh_user session_id Hname))) eq_refl)
    as (cp3 & w3 & Hrun3 & H3); [by rewrite exec_refresh|].
  rewrite (bind_ok _ _ _ _ _ Hrun3). clear Hrun3 H2.
  destruct (run_tmux_then (grouped user p pn') w3 refresh_main_cmd
              [py "-S"; py "/tmp/tmux-0/default"; py "refresh-client"; py "-t"; MAIN]
              (TmuxModel.RefreshClient MAIN)
              (grouped_exhausted _ _ _ _ H3))
    as (cp4 & w4 & Hrun4 & H4);
    [right; left; vm_compute; reflexivity|vm_compute; reflexivity
    |by rewrite exec_refresh|].
  rewrite (bind_ok _ _ _ _ _ Hrun4). clear Hrun4 H3.
  rewrite (bind_ok (sleep 2000) _ _ (log (Sleep 2000) w4) tt) by reflexivity.
  (* the captures change nothing *)
  destruct (run_tmux_then (grouped user p pn') (log (Sleep 2000) w4) capture_main_cmd
              [py "-S"; py "/tmp/tmux-0/default"; py "capture-pane"; py "-p";
               py "-S"; py "-1000"; py "-t"; MAIN]
              (TmuxModel.CapturePane MAIN)
              (grouped_exhausted _ _ _ _ H4))
    as (cp5 & w5 & Hrun5 & H5);
    [left; vm_compute; reflexivity|vm_compute; reflexivity
    |by rewrite exec_capture|].
  rewrite (bind_ok _ _ _ _ _ Hrun5). clear Hrun5 H4.
  destruct (get_tmux_output_tmux w5 session_id (grouped_exhausted _ _ _ _ H5) Hname)
    as (out & w6 & Hget & Henv).
  rewrite (bind_ok _ _ _ _ _ Hget).
  eexists _, w6. split; [reflexivity|]. by rewrite Henv.
Qed.

(** Session ["s1"] right after its creation, and the message ["ls"]. *)
Lemma X14_a_message_is_typed_twice_witness :
  let w := (create_tmux_session (py "s1") (init_world Scenarios.fresh_server)).2 in
  ∃ out w',
    send_to_tmux (py "s1") (py "ls") w = (Ok out, w')
    ∧ grouped (user_session (py "s1")) 0
        (typed [py "ls"; py "C-m"; py "ls"; py "C-m"]
           {| TmuxModel.screen := []; TmuxModel.keys := create_keys |}) (env w').
Proof.
  intros w.
  assert (Shell.is_name (py "s1")) as Hname by (by repeat constructor).
  apply (X14_a_message_is_typed_twice w (py "s1") (py "ls") 0 _ Hname).
  vm_compute. by repeat split.
Defined.

(** ** The project poller, step by step *)

Section ProjectPoller.
Context {E : Type} `{Env E}.
Implicit Types (w : World E).

Definition project_output_data (session_name project_id current_output : str)
  : list (str * str) :=
  [(py "output", current_output); (py "project_id", project_id);
   (py "session_name", session_name)].

(** The snapshot of a project session, for the outcome of its capture. *)
Definition project_snapshot (session_name : str) (r : result CompletedProcess) : str :=
  match r with
  | Ok cp => rstrip (if len (strip (stdout cp)) <? 10
                     then project_placeholder session_name else stdout cp)
  | Raise e => project_terminal_error e
  end.

Lemma project_snapshot_nonempty session_name r : project_snapshot session_name r ≠ [].
Proof.
  destruct r as [cp|e]; simpl; [|apply project_terminal_error_nonempty].
  destruct (len (strip (stdout cp)) <? 10) eqn:Hshort.
  - apply project_placeholder_visible.
  - apply rstrip_nonempty. apply Nat.ltb_ge in Hshort. lia.
Qed.

Lemma get_project_tmux_output_snapshot session_name w :
  get_project_tmux_output session_name w
  = (Ok (project_snapshot session_name
           (subprocess_run (project_capture_cmd session_name) (env w)).1),
     set_env (subprocess_run (project_capture_cmd session_name) (env w)).2
       (log (Run (project_capture_cmd session_name)) w)).
Proof.
  rewrite get_project_tmux_output_spec.
  by destruct (subprocess_run _ (env w)) as [[cp|e] e1].
Qed.

(** A tick that finds the session. *)
Lemma project_tick_spec session_name project_id client_id w previous cp e1 :
  subprocess_run (has_session_cmd session_name) (env w) = (Ok cp, e1) →
  returncode cp = 0%Z →
  let cur := project_snapshot session_name
               (subprocess_run (project_capture_cmd session_name) e1).1 in
  ∃ w', monitor_project_tmux_output_tick session_name project_id client_id (w, previous)
        = (Ok true, (w', cur))
        ∧ env w' = (subprocess_run (project_capture_cmd session_name) e1).2
        ∧ published (py "output") (trace w')
          = published (py "output") (trace w) ++
            (if decide (cur = previous) then []
             else [project_output_data session_name project_id cur]).
Proof.
  intros Hhas Hzero cur.
  unfold monitor_project_tmux_output_tick, try_except.
  assert (global (L:=str) (run (has_session_cmd session_name)) (w, previous)
          = (Ok cp, (set_env e1 (log (Run (has_session_cmd session_name)) w), previous)))
    as Hrun by (unfold global; by rewrite (run_ok _ _ _ _ Hhas)).
  rewrite (bind_ok _ _ _ _ _ Hrun).
  rewrite bool_decide_eq_false_2 by (by intros ?).
  set (w1 := set_env e1 (log (Run (has_session_cmd session_name)) w)).
  assert (global (L:=str) (get_project_tmux_output session_name) (w1, previous)
          = (Ok cur, (set_env (subprocess_run (project_capture_cmd session_name) e1).2
                        (log (Run (project_capture_cmd session_name)) w1), previous)))
    as Hget by (unfold global; by rewrite get_project_tmux_output_snapshot).
  rewrite (bind_ok _ _ _ _ _ Hget).
  set (w2 := set_env _ (log (Run (project_capture_cmd session_name)) w1)).
  assert (published (py "output") (trace w2) = published (py "output") (trace w))
    as Hpub by (subst w2 w1; cbn [trace set_env log];
                by rewrite !published_snoc, !app_nil_r).
  assert (get_local (L:=str) (w2, previous) = (Ok previous, (w2, previous)))
    as Hlocal by reflexivity.
  rewrite (bind_ok _ _ _ _ _ Hlocal).
  destruct (decide (cur = previous)) as [<-|Hne].
  - rewrite bool_decide_eq_false_2 by (by intros ?).
    eexists. split; [reflexivity|]. split; [done|].
    cbn [trace set_env log fst snd]. by rewrite published_snoc, Hpub.
  - rewrite bool_decide_eq_true_2 by done.
    eexists. split; [reflexivity|]. split; [done|].
    cbn [trace set_env log fst snd]. rewrite !published_snoc, Hpub.
    rewrite decide_True by done. by rewrite app_nil_r.
Qed.

(** The session is there and neither command changes the environment. *)
Definition static_project (session_name : str) (e : E) : Prop :=
  (∃ cp, subprocess_run (has_session_cmd session_name) e = (Ok cp, e)
         ∧ returncode cp = 0%Z)
  ∧ (subprocess_run (project_capture_cmd session_name) e).2 = e.

Lemma static_project_loop session_name project_id client_id (e : E) (ticks : nat) w :
  static_project session_name e → env w = e →
  let cur := project_snapshot session_name
               (subprocess_run (project_capture_cmd session_name) e).1 in
  ∃ w', monitor_project_tmux_output_loop ticks session_name project_id client_id
          (w, cur)
        = (Ok Running, (w', cur))
        ∧ published (py "output") (trace w') = published (py "output") (trace w).
Proof.
  intros [(cp & Hhas & Hzero) Hcap] Hw cur. revert w Hw.
  induction ticks as [|n IH]; intros w Hw; cbn [monitor_project_tmux_output_loop].
  - by exists w.
  - pose proof Hhas as Hhas'. rewrite <- Hw in Hhas' at 1.
    destruct (project_tick_spec session_name project_id client_id w cur cp e Hhas' Hzero)
      as (w1 & Htick & Hw1 & Hpub).
    fold cur in Htick, Hpub. rewrite decide_True in Hpub by done.
    rewrite (bind_ok _ _ _ _ _ Htick).
    destruct (IH w1) as (w' & Hloop & Hpub'); [by rewrite Hw1|].
    exists w'. split; [done|]. by rewrite Hpub', Hpub, app_nil_r.
Qed.

End ProjectPoller.

(** X15.  A tick of a project poller that finds the tmux session keeps the
    snapshot it took and publishes it exactly when it differs from the one
    it kept before.  As a snapshot is never empty and the poller starts
    with the empty text, its first tick always publishes; and when the
    session stays and its capture does not change, a run of any number of
    ticks, one at least, publishes exactly one message and is still
    running. *)
Theorem X15_project_poller_publishes_on_change {E : Type} `{Env E}
    (w : World E) (session_name project_id client_id : str) :
  (∀ previous cp e1,
     subprocess_run (has_session_cmd session_name) (env w) = (Ok cp, e1) →
     returncode cp = 0%Z →
     ∃ cur w',
       monitor_project_tmux_output_tick session_name project_id client_id (w, previous)
       = (Ok true, (w', cur))
       ∧ cur ≠ []
       ∧ published (py "output") (trace w')
         = published (py "output") (trace w) ++
           (if decide (cur = previous) then []
            else [project_output_data session_name project_id cur]))
  ∧ (∀ ticks previous,
       static_project session_name (env w) →
       ∃ cur w',
         monitor_project_tmux_output (S ticks) session_name project_id client_id
           (w, previous)
         = (Ok Running, (w', cur))
         ∧ published (py "output") (trace w')
           = published (py "output") (trace w) ++
             [project_output_data session_name project_id cur]).
Proof.
  split.
  - intros previous cp e1 Hhas Hzero.
    destruct (project_tick_spec session_name project_id client_id w previous cp e1
                Hhas Hzero) as (w' & Htick & _ & Hpub).
    eexists _, w'. split; [exact Htick|].
    split; [apply project_snapshot_nonempty|exact Hpub].
  - intros ticks previous Hstatic.
    pose proof Hstatic as [(cp & Hhas & Hzero) Hcap].
    set (cur := project_snapshot session_name
                  (subprocess_run (project_capture_cmd session_name) (env w)).1).
    unfold monitor_project_tmux_output.
    assert (set_local (L:=str) [] (w, previous) = (Ok tt, (w, []))) as Hstart
      by reflexivity.
    rewrite (bind_ok _ _ _ _ _ Hstart).
    cbn [monitor_project_tmux_output_loop].
    destruct (project_tick_spec session_name project_id client_id w [] cp (env w)
                Hhas Hzero) as (w1 & Htick & Hw1 & Hpub).
    fold cur in Htick, Hpub.
    rewrite decide_False in Hpub by apply project_snapshot_nonempty.
    rewrite (bind_ok _ _ _ _ _ Htick).
    destruct (static_project_loop session_name project_id client_id (env w) ticks w1
                Hstatic) as (w' & Hloop & Hpub'); [by rewrite Hw1|].
    exists cur, w'. split; [exact Hloop|]. by rewrite Hpub', Hpub.
Qed.

(** The poller of project ["demo"], whose session exists and shows
    nothing new: five ticks, one message. *)
Lemma X15_project_poller_publishes_on_change_witness :
  let w := Scenarios.demo_ready in
  let w' := (monitor_project_tmux_output 5 (py "claude_project_demo") (py "demo")
               Scenarios.conn_a (w, [] : str)).2.1 in
  length (published (py "output") (trace w'))
  = length (published (py "output") (trace w)) + 1.
Proof.
  intros w w'.
  assert (static_project (py "claude_project_demo") (env w)) as Hstatic.
  { split; [eexists; split; [vm_compute; reflexivity|reflexivity]|].
    vm_compute. reflexivity. }
  destruct (proj2 (X15_project_poller_publishes_on_change w (py "claude_project_demo")
                     (py "demo") Scenarios.conn_a) 4 [] Hstatic)
    as (cur & w'' & Hrun & Hpub).
  assert (w' = w'') as -> by (unfold w'; by rewrite Hrun).
  rewrite Hpub, length_app. reflexivity.
Defined.

(** ** What a snapshot looks like *)

Lemma lstrip_idemp (s : str) : lstrip (lstrip s) = lstrip s.
Proof.
  induction s as [|c s IH]; simpl; [done|].
  destruct (isspace c) eqn:Hc; [done|]. simpl. by rewrite Hc.
Qed.

Lemma rstrip_idemp (s : str) : rstrip (rstrip s) = rstrip s.
Proof. unfold rstrip. by rewrite reverse_involutive, lstrip_idemp. Qed.

Lemma strip_rstrip (s : str) : strip (rstrip s) = strip s.
Proof. unfold strip. by rewrite rstrip_idemp. Qed.

Lemma project_placeholder_long (session_name : str) :
  10 ≤ len (strip (project_placeholder session_name)).
Proof.
  set (head := py "Terminal du projet" ++ nl ++ nl ++ py "Session: ").
  set (tail := nl ++ py "Pr" ++ e_circ ++ py "t " ++ a_grave ++
               py " recevoir vos commandes..." ++ nl).
  change (project_placeholder session_name) with (head ++ (session_name ++ tail)).
  unfold strip. rewrite rstrip_app.
  destruct (rstrip (session_name ++ tail)) as [|c r]; [vm_compute; lia|].
  change (lstrip (head ++ c :: r)) with (head ++ c :: r).
  unfold len. rewrite length_app.
  assert (length head = 29) as -> by (by vm_compute). lia.
Qed.

(** X16.  A snapshot taken by a capture that did not raise never ends with
    whitespace and never has fewer than ten visible characters: a shorter
    capture is replaced by the placeholder text.  This holds for the
    snapshot of a user session and for the one of a project session. *)
Theorem X16_snapshots_are_trimmed_and_visible {E : Type} `{Env E}
    (w : World E) (name : str) :
  (∀ cp e1 out w',
     subprocess_run (project_capture_cmd name) (env w) = (Ok cp, e1) →
     get_project_tmux_output name w = (Ok out, w') →
     rstrip out = out ∧ 10 ≤ len (strip out))
  ∧ (∀ cp1 e1 cp2 e2 out w',
       subprocess_run capture_main_cmd (env w) = (Ok cp1, e1) →
       subprocess_run (capture_user_cmd name) e1 = (Ok cp2, e2) →
       get_tmux_output name w = (Ok out, w') →
       rstrip out = out ∧ 10 ≤ len (strip out)).
Proof.
  split.
  - intros cp e1 out w' Hcap. rewrite get_project_tmux_output_spec, Hcap.
    intros [= <- _]. split; [apply rstrip_idemp|].
    rewrite strip_rstrip.
    destruct (len (strip (stdout cp)) <? 10) eqn:Hshort.
    + apply project_placeholder_long.
    + by apply Nat.ltb_ge in Hshort.
  - intros cp1 e1 cp2 e2 out w' Hmain Huser.
    rewrite get_tmux_output_spec, Hmain. cbv zeta. rewrite Huser.
    intros [= <- _]. unfold get_tmux_output_text.
    split; [apply rstrip_idemp|]. rewrite strip_rstrip.
    set (chosen := if len (strip (stdout cp2)) <? len (strip (stdout cp1))
                   then stdout cp1 else stdout cp2).
    destruct (len (strip chosen) <? 10) eqn:Hshort.
    + vm_compute. lia.
    + by apply Nat.ltb_ge in Hshort.
Qed.

(** The two snapshots of a server on which no session exists. *)
Lemma X16_snapshots_are_trimmed_and_visible_witness :
  let w := init_world Scenarios.fresh_server in
  (10 ≤ len (strip (rstrip (project_placeholder (py "claude_project_demo")))))
  ∧ 10 ≤ len (strip (rstrip default_message)).
Proof.
  intros w.
  pose proof (X16_snapshots_are_trimmed_and_visible w (py "claude_project_demo"))
    as [Hproject _].
  pose proof (X16_snapshots_are_trimmed_and_visible w (py "s1")) as [_ Huser].
  split.
  - eapply (Hproject _ _ _ _); vm_compute; reflexivity.
  - eapply (Huser _ _ _ _ _ _); vm_compute; reflexivity.
Defined.

(** * A project session on the reference server *)

Arguments py : simpl nomatch.

Section ProjectLines.
Import Shell TmuxModel.

Lemma escape_plain (text : str) : sq ∉ text → escape text = text.
Proof.
  induction text as [|c text IH]; intros Hsq; [done|].
  apply not_elem_of_cons in Hsq as [Hc Hsq].
  unfold escape, replace_char in *. simpl.
  assert ((c =? sq)%N = false) as -> by (apply N.eqb_neq; congruence).
  simpl. by rewrite IH.
Qed.

Lemma is_name_project (project_id : str) :
  is_name project_id → is_name (project_session_name project_id).
Proof. intros Hid. apply Forall_app. split; [by repeat constructor|done]. Qed.

Lemma is_name_no_quote (s : str) : is_name s → sq ∉ s.
Proof.
  intros Hs Hin. eapply Forall_forall in Hs; [|exact Hin]. by vm_compute in Hs.
Qed.

(** A [send-keys] line for the session [name] and one quoted text. *)
Lemma words_send_keys (name text : str) :
  name ≠ [] → is_name name → sq ∉ text →
  words (py "tmux send-keys -t " ++ name ++ py " '" ++ text ++ py "' C-m")
  = Some [bare "tmux"; bare "send-keys"; bare "-t"; Word false name;
          Word true text; bare "C-m"].
Proof.
  intros Hne Hname%is_name_plain Htext. unfold words. simpl.
  rewrite (lex_plain_word name) by done. simpl.
  rewrite <- (escape_plain text) at 1 by done.
  rewrite (lex_escape text _ []). reflexivity.
Qed.

Lemma parse_send_keys (name text : str) :
  name ≠ [] → is_name name → sq ∉ text →
  parse_line (py "tmux send-keys -t " ++ name ++ py " '" ++ text ++ py "' C-m")
  = Some ([py "tmux"; py "send-keys"; py "-t"; name; text; py "C-m"], []).
Proof.
  intros Hne Hname Htext. unfold parse_line.
  rewrite words_send_keys by done. simpl.
  done.
Qed.

(** A line that ends in the session name. *)
Lemma parse_has_session (name : str) :
  name ≠ [] → is_name name →
  parse_line (has_session_cmd name) = Some ([py "tmux"; py "has-session"; py "-t"; name], []).
Proof.
  intros Hne Hname.
  unfold parse_line, has_session_cmd, words.
  rewrite <- (app_nil_r name) at 1. simpl.
  rewrite (lex_plain_word name) by (by try apply is_name_plain). simpl.
  done.
Qed.

Lemma parse_new_session (name : str) :
  name ≠ [] → is_name name →
  parse_line (py "tmux new-session -d -s " ++ name)
  = Some ([py "tmux"; py "new-session"; py "-d"; py "-s"; name], []).
Proof.
  intros Hne Hname.
  unfold parse_line, words.
  rewrite <- (app_nil_r name) at 1. simpl.
  rewrite (lex_plain_word name) by (by try apply is_name_plain). simpl.
  done.
Qed.

End ProjectLines.

Arguments py : simpl never.

Section ProjectCreated.
Import Shell TmuxModel.
Implicit Types (tm : server) (w : World server).

(** The server [tm] with a new pane that has received [ks], shown by a new
    session [name]. *)
Definition with_project_pane (name : str) (ks : list str) tm : server :=
  set_tmux (<[name := next_pane tm]> (sessions tm))
    (<[next_pane tm := {| screen := []; keys := ks |}]> (panes tm))
    (S (next_pane tm)) tm.

(** What the new pane of a project receives. *)
Definition project_keys (project_id : str) (context : bool) : list str :=
  let project_path := DOCKER_PATH ++ py "/apps/" ++ project_id in
  [py "cd " ++ project_path; py "C-m";
   py "export PROJECT_NAME=" ++ project_id; py "C-m";
   py "export PROJECT_PATH=" ++ project_path; py "C-m"]
  ++ (if context
      then [py "export CLAUDE_PROJECT_CONTEXT=" ++ dq
              ++ (project_path ++ py "/CLAUDE.md") ++ dq; py "C-m"]
      else [])
  ++ [py "clear"; py "C-m"; py "/root/.npm-global/bin/claude"; py "C-m"].

Lemma run_plain_tmux w cmd args c :
  exhausted (env w) = false →
  parse_line cmd = Some (lit "tmux" :: args, []) →
  parse_tmux args = Some c →
  run cmd w = (Ok {| returncode := (exec_tmux c (env w)).1.1;
                     stdout := (exec_tmux c (env w)).1.2 |},
               set_env (exec_tmux c (env w)).2 (log (Run cmd) w)).
Proof.
  intros Hex Hline Hc. apply run_ok.
  change (subprocess_run cmd (env w)) with (sh cmd (env w)).
  unfold sh. rewrite Hex, Hline. unfold exec_simple.
  rewrite decide_True by done. rewrite Hc.
  by destruct (exec_tmux c (env w)) as [[rc out] tm'].
Qed.

Lemma exec_send_project name ks k tm :
  (exec_tmux (SendKeys name k) (with_project_pane name ks tm))
  = (0%Z, [], with_project_pane name (ks ++ k) tm).
Proof.
  unfold with_project_pane. simpl. rewrite lookup_insert_eq. simpl.
  rewrite lookup_insert_eq. simpl. unfold set_tmux. simpl.
  by rewrite insert_insert_eq.
Qed.

(** A [send-keys] line typed into the new pane. *)
Lemma run_send_project w name text ks tm :
  name ≠ [] → is_name name → sq ∉ text →
  exhausted tm = false → env w = with_project_pane name ks tm →
  let cmd := py "tmux send-keys -t " ++ name ++ py " '" ++ text ++ py "' C-m" in
  run cmd w = (Ok {| returncode := 0; stdout := [] |},
               set_env (with_project_pane name (ks ++ [text; py "C-m"]) tm)
                 (log (Run cmd) w)).
Proof.
  intros Hne Hname Htext Hex Henv cmd.
  rewrite (run_plain_tmux w cmd [py "send-keys"; py "-t"; name; text; py "C-m"]
             (SendKeys name [text; py "C-m"])).
  - rewrite Henv. by rewrite exec_send_project.
  - by rewrite Henv.
  - by apply parse_send_keys.
  - reflexivity.
Qed.

End ProjectCreated.

Section ProjectCreatedRun.
Import Shell TmuxModel.
Implicit Types (tm : server) (w : World server).

Lemma project_session_name_nonempty project_id : project_session_name project_id ≠ [].
Proof. done. Qed.

Lemma exec_new_project name tm :
  sessions tm !! name = None →
  exec_tmux (NewSession name None) tm = (0%Z, [], with_project_pane name [] tm).
Proof. intros Hnone. simpl. by rewrite Hnone. Qed.

Lemma exec_has_project name ks tm :
  exec_tmux (HasSession name) (with_project_pane name ks tm)
  = (0%Z, [], with_project_pane name ks tm).
Proof. simpl. by rewrite lookup_insert_eq. Qed.

Lemma exec_has_missing name tm :
  sessions tm !! name = None → exec_tmux (HasSession name) tm = (1%Z, [], tm).
Proof. intros Hnone. simpl. by rewrite Hnone. Qed.

Lemma try_reraise {S A} (body : M S A) (s : S) :
  try_except body (λ e, raise e) s = body s.
Proof. unfold try_except, raise. by destruct (body s) as [[a|e] s']. Qed.

Lemma has_session_found w (name : str) (p : nat) :
  exhausted (env w) = false → name ≠ [] → is_name name →
  sessions (env w) !! name = Some p →
  (run (has_session_cmd name) w).1 = Ok {| returncode := 0; stdout := [] |}.
Proof.
  intros Hex Hne Hname Hp.
  rewrite (run_plain_tmux w _ [py "has-session"; py "-t"; name] (HasSession name) Hex
             (parse_has_session _ Hne Hname) eq_refl).
  unfold exec_tmux. by rewrite Hp.
Qed.

End ProjectCreatedRun.

(** The next step of the goal types [text] and the execute key into the
    pane of the session. *)
Ltac send_project text Htext :=
  lazymatch goal with
  | Hne : ?name ≠ [], Hname : Shell.is_name ?name,
    Hex : TmuxModel.exhausted (env ?w) = false
    |- context [(run ?cmd ≫= ?k) ?w0] =>
      let H := fresh "Hsend" in
      assert (run cmd w0
              = (Ok {| returncode := 0; stdout := [] |},
                 set_env (with_project_pane name (_ ++ [text; py "C-m"]) (env w))
                   (log (Run cmd) w0))) as H
        by exact (run_send_project w0 name text _ (env w) Hne Hname Htext Hex eq_refl);
      rewrite (bind_ok _ k w0 _ _ H); clear H
  end.

(** X17.  A project whose session tmux does not have gets one: on the
    reference server, for every project id of name characters,
    [get_or_create_project_session] returns a new id, registered under the
    session name; the server has the session, on a new pane that has received
    the change of directory, the exports (the one of the context file only
    when that file exists), [clear] and the launch command, each followed by
    the execute key; the other sessions and panes are as before, the call
    ends with sleeps of 3 s and 2 s, and [has-session] now finds the
    session. *)
Theorem X17_a_missing_project_session_is_created (w : World TmuxModel.server)
    (project_id : str) :
  let session_name := project_session_name project_id in
  let project_path := DOCKER_PATH ++ py "/apps/" ++ project_id in
  let context := os_path_exists (project_path ++ py "/CLAUDE.md") (env w) in
  TmuxModel.exhausted (env w) = false → Shell.is_name project_id →
  TmuxModel.sessions (env w) !! session_name = None →
  ∃ session_id w' before,
    get_or_create_project_session project_id w = (Ok session_id, w')
    ∧ project_sessions w' = <[session_name := session_id]> (project_sessions w)
    ∧ TmuxModel.sessions (env w')
      = <[session_name := TmuxModel.next_pane (env w)]> (TmuxModel.sessions (env w))
    ∧ TmuxModel.panes (env w')
      = <[TmuxModel.next_pane (env w) :=
            {| TmuxModel.screen := [];
               TmuxModel.keys := project_keys project_id context |}]>
          (TmuxModel.panes (env w))
    ∧ trace w' = before ++ [Sleep 3000; Sleep 2000]
    ∧ (run (has_session_cmd session_name) w').1
      = Ok {| returncode := 0; stdout := [] |}.
Proof.
  intros session_name project_path context Hex Hid Hnone.
  pose proof (is_name_project project_id Hid) as Hname.
  pose proof (project_session_name_nonempty project_id) as Hne.
  fold session_name in Hname, Hne.
  assert (sq ∉ project_path) as Hpath.
  { unfold project_path. apply not_elem_of_app. split.
    - apply (bool_decide_unpack _). by vm_compute.
    - apply not_elem_of_app. split; [|by apply is_name_no_quote].
      apply (bool_decide_unpack _). by vm_compute. }
  pose proof (is_name_no_quote _ Hid) as Hidq.
  unfold get_or_create_project_session. rewrite try_reraise.
  fold session_name. fold project_path.
  rewrite (bind_ok _ _ _ _ _
             (run_plain_tmux w _ [py "has-session"; py "-t"; session_name]
                (TmuxModel.HasSession session_name) Hex
                (parse_has_session _ Hne Hname) eq_refl)).
  rewrite !(exec_has_missing _ _ Hnone). cbn [fst snd returncode].
  rewrite bool_decide_eq_false_2 by done.
  lazymatch goal with
  | |- context [(run ?cmd ≫= ?k) ?w0] =>
      rewrite (bind_ok _ k w0 _ _
                 (run_plain_tmux w0 cmd [py "new-session"; py "-d"; py "-s"; session_name]
                    (TmuxModel.NewSession session_name None) Hex
                    (parse_new_session _ Hne Hname) eq_refl))
  end.
  cbn [env set_env log]. rewrite !(exec_new_project _ _ Hnone). cbn [fst snd].
  unfold configure_project, launch_cmd.
  assert (sq ∉ py "cd " ++ project_path) as Hcd
    by (apply not_elem_of_app; split; [apply (bool_decide_unpack _); by vm_compute|done]).
  assert (sq ∉ py "export PROJECT_NAME=" ++ project_id) as Hexport_name
    by (apply not_elem_of_app; split; [apply (bool_decide_unpack _); by vm_compute|done]).
  assert (sq ∉ py "export PROJECT_PATH=" ++ project_path) as Hexport_path
    by (apply not_elem_of_app; split; [apply (bool_decide_unpack _); by vm_compute|done]).
  assert (sq ∉ py "export CLAUDE_PROJECT_CONTEXT=" ++ dq
            ++ (project_path ++ py "/CLAUDE.md") ++ dq) as Hexport_context.
  { apply not_elem_of_app; split; [apply (bool_decide_unpack _); by vm_compute|].
    apply not_elem_of_app; split; [apply (bool_decide_unpack _); by vm_compute|].
    apply not_elem_of_app; split; [|apply (bool_decide_unpack _); by vm_compute].
    apply not_elem_of_app; split; [done|apply (bool_decide_unpack _); by vm_compute]. }
  assert (sq ∉ py "clear") as Hclear by (apply (bool_decide_unpack _); by vm_compute).
  assert (sq ∉ py "/root/.npm-global/bin/claude") as Hlaunch
    by (apply (bool_decide_unpack _); by vm_compute).
  rewrite ?bind_assoc.
  send_project (py "cd " ++ project_path) Hcd.
  rewrite ?bind_assoc.
  send_project (py "export PROJECT_NAME=" ++ project_id) Hexport_name.
  rewrite ?bind_assoc.
  send_project (py "export PROJECT_PATH=" ++ project_path) Hexport_path.
  rewrite ?bind_assoc. unfold path_exists. rewrite gets_bind.
  cbn [env set_env log].
  change (os_path_exists (project_path ++ py "/CLAUDE.md") (with_project_pane _ _ (env w)))
    with context.
  clearbody context. destruct context.
  - rewrite ?bind_assoc.
    assert (py "tmux send-keys -t " ++ session_name
              ++ py " 'export CLAUDE_PROJECT_CONTEXT=" ++ dq
              ++ (project_path ++ py "/CLAUDE.md") ++ dq ++ py "' C-m"
            = py "tmux send-keys -t " ++ session_name ++ py " '"
              ++ (py "export CLAUDE_PROJECT_CONTEXT=" ++ dq
                    ++ (project_path ++ py "/CLAUDE.md") ++ dq) ++ py "' C-m") as ->
      by (rewrite <- ?app_assoc; reflexivity).
    send_project (py "export CLAUDE_PROJECT_CONTEXT=" ++ dq
                    ++ (project_path ++ py "/CLAUDE.md") ++ dq) Hexport_context.
    rewrite ret_bind.
    send_project (py "clear") Hclear.
    send_project (py "/root/.npm-global/bin/claude") Hlaunch.
    eexists _, _, _. split; [reflexivity|].
    repeat split; try reflexivity.
    + cbn [trace set_project_sessions set_env log env].
      rewrite <- (app_assoc _ [Sleep 3000] [Sleep 2000]). reflexivity.
    + apply (has_session_found _ _ (TmuxModel.next_pane (env w))); [exact Hex|done|done|].
      apply lookup_insert_eq.
  - rewrite ret_bind.
    send_project (py "clear") Hclear.
    send_project (py "/root/.npm-global/bin/claude") Hlaunch.
    eexists _, _, _. split; [reflexivity|].
    repeat split; try reflexivity.
    + cbn [trace set_project_sessions set_env log env].
      rewrite <- (app_assoc _ [Sleep 3000] [Sleep 2000]). reflexivity.
    + apply (has_session_found _ _ (TmuxModel.next_pane (env w))); [exact Hex|done|done|].
      apply lookup_insert_eq.
Qed.
Lemma X17_a_missing_project_session_is_created_witness :
  let w := init_world Scenarios.demo_server in
  ∃ session_id w' before,
    get_or_create_project_session (py "demo") w = (Ok session_id, w')
    ∧ project_sessions w' = <[py "claude_project_demo" := session_id]> (project_sessions w)
    ∧ TmuxModel.sessions (env w') = <[py "claude_project_demo" := 0]> (TmuxModel.sessions (env w))
    ∧ TmuxModel.panes (env w')
      = <[0 := {| TmuxModel.screen := [];
                  TmuxModel.keys := project_keys (py "demo") false |}]>
          (TmuxModel.panes (env w))
    ∧ trace w' = before ++ [Sleep 3000; Sleep 2000]
    ∧ (run (has_session_cmd (py "claude_project_demo")) w').1
      = Ok {| returncode := 0; stdout := [] |}.
Proof.
  intros w.
  apply (X17_a_missing_project_session_is_created w (py "demo"));
    [reflexivity|by repeat constructor|reflexivity].
Defined.
